(** * Stata .dta reader and writer: a model of [stataread.c]

    The C file reads Stata version 5 and 6 [.dta] files into an R data
    frame and writes a data frame as a version 6 file.  This development
    embeds its functions as Rocq functions over byte streams and states
    the properties of the codec over them.

    Conventions of the model:
    - a byte is a [Z] in [0, 256); a C [int] is a [Z] in [-2^31, 2^31);
      a [float] and a [double] are represented by their IEEE 754 bit
      patterns, a [Z] in [0, 2^32) and [0, 2^64) respectively;
    - a [FILE*] opened for reading is the list of bytes not yet consumed,
      one opened for writing is the list of bytes written so far;
    - [error(...)] aborts the call: it is an [Err] result that carries
      the state of the stream at that point. *)

From Stdlib Require Import ZArith Lia String Ascii DecimalString.
From stdpp Require Import base list numbers.

Local Open Scope Z_scope.

Module Stata.

(** ** Constants of the source *)

Definition chr (c : ascii) : Z := Z.of_N (N_of_ascii c).

(* handling endianess *)
Definition LOHI : Z := 1.
Definition HILO : Z := 2.

(* Stata format constants *)
Definition STATA_FLOAT : Z := Eval cbv in chr "f".
Definition STATA_DOUBLE : Z := Eval cbv in chr "d".
Definition STATA_INT : Z := Eval cbv in chr "l".
Definition STATA_SHORTINT : Z := Eval cbv in chr "i".
Definition STATA_BYTE : Z := Eval cbv in chr "b".

Definition STATA_STRINGOFFSET : Z := 0x7f.

Definition STATA_BYTE_NA : Z := 127.
Definition STATA_SHORTINT_NA : Z := 32767.
Definition STATA_INT_NA : Z := 2147483647.

(** ** C integer types *)

Definition to_uchar (x : Z) : Z := x mod 256.
Definition to_ushort (x : Z) : Z := x mod 65536.

(** Conversion of an unsigned 32-bit pattern to the [int] it represents
    (two's complement) and back. *)
Definition int_of_bits (p : Z) : Z := if p <? 2 ^ 31 then p else p - 2 ^ 32.
Definition bits_of_int (i : Z) : Z := i mod 2 ^ 32.

Definition is_byte (b : Z) : Prop := 0 <= b < 256.
Definition is_int (i : Z) : Prop := - 2 ^ 31 <= i < 2 ^ 31.
Definition is_bits32 (p : Z) : Prop := 0 <= p < 2 ^ 32.
Definition is_bits64 (p : Z) : Prop := 0 <= p < 2 ^ 64.

(** ** IEEE 754 bit patterns *)

Definition dbl_sign (d : Z) : Z := d / 2 ^ 63.
Definition dbl_exp (d : Z) : Z := (d / 2 ^ 52) mod 2048.
Definition dbl_frac (d : Z) : Z := d mod 2 ^ 52.
Definition mk_double (s e f : Z) : Z := s * 2 ^ 63 + e * 2 ^ 52 + f.

Definition flt_sign (f : Z) : Z := f / 2 ^ 31.
Definition flt_exp (f : Z) : Z := (f / 2 ^ 23) mod 256.
Definition flt_frac (f : Z) : Z := f mod 2 ^ 23.
Definition mk_float (s e f : Z) : Z := s * 2 ^ 31 + e * 2 ^ 23 + f.

(** [pow(2, e)] as a double, for a normal exponent [-1022 <= e <= 1023]. *)
Definition pow2_double (e : Z) : Z := mk_double 0 (e + 1023) 0.

(** Set by [setup_consts]: [pow(2,127)] and [pow(2,1023)]. *)
Definition STATA_FLOAT_NA : Z := Eval cbv in pow2_double 127.
Definition STATA_DOUBLE_NA : Z := Eval cbv in pow2_double 1023.

Definition dbl_isnan (d : Z) : bool := (dbl_exp d =? 2047) && negb (dbl_frac d =? 0).
Definition dbl_iszero (d : Z) : bool := (dbl_exp d =? 0) && (dbl_frac d =? 0).
Definition flt_isnan (f : Z) : bool := (flt_exp f =? 255) && negb (flt_frac f =? 0).

(** The C operator [==] on two doubles: false when either is a NaN,
    true on the two zeros, and otherwise equality of the patterns. *)
Definition double_eq (a b : Z) : bool :=
  negb (dbl_isnan a) && negb (dbl_isnan b) &&
  ((a =? b) || (dbl_iszero a && dbl_iszero b)).

(** *** Constants and macros of R's headers ([R.h], [R_ext/Arith.h])

    They are not part of this repository; the values are those of R on
    an IEEE 754 platform: [NA_INTEGER] and [NA_LOGICAL] are [INT_MIN],
    [NA_REAL] is the NaN whose low word is 1954, [R_FINITE] is
    [isfinite], [ISNAN] is [isnan]. *)
Definition NA_INTEGER : Z := - 2 ^ 31.
Definition NA_LOGICAL : Z := NA_INTEGER.
Definition NA_REAL : Z := Eval cbv in mk_double 0 2047 1954.
Definition R_FINITE (d : Z) : bool := negb (dbl_exp d =? 2047).
Definition ISNAN (d : Z) : bool := dbl_isnan d.
Definition R_IsNA (d : Z) : bool := dbl_isnan d && (d mod 2 ^ 32 =? 1954).

(** *** Conversions between [float] and [double]

    Widening is exact.  A subnormal float [m * 2^-149] becomes a normal
    double.  A NaN keeps its sign and its fraction bits. *)
Definition float_to_double (f : Z) : Z :=
  let s := flt_sign f in
  let e := flt_exp f in
  let m := flt_frac f in
  if e =? 255 then mk_double s 2047 (m * 2 ^ 29)
  else if e =? 0 then
    if m =? 0 then mk_double s 0 0
    else let k := Z.log2 m in
         mk_double s (k - 149 + 1023) ((m - 2 ^ k) * 2 ^ (52 - k))
  else mk_double s (e - 127 + 1023) (m * 2 ^ 29).

(** Rounding to nearest, ties to even, of [sig / 2^shift]. *)
Definition round_shift (sig shift : Z) : Z :=
  let q := sig / 2 ^ shift in
  let r := sig mod 2 ^ shift in
  let half := 2 ^ (shift - 1) in
  if (half <? r) || ((r =? half) && Z.odd q) then q + 1 else q.

(** Narrowing rounds to nearest.  A NaN keeps its sign and the leading
    23 fraction bits; when these are all zero the quiet bit is set, so
    that a NaN stays a NaN. *)
Definition double_to_float (d : Z) : Z :=
  let s := dbl_sign d in
  let e := dbl_exp d in
  let fr := dbl_frac d in
  if e =? 2047 then
    if fr =? 0 then mk_float s 255 0
    else let m := fr / 2 ^ 29 in mk_float s 255 (if m =? 0 then 2 ^ 22 else m)
  else if e =? 0 then mk_float s 0 0
  else
    let E := e - 1023 in
    if E <? -126 then
      let shift := 29 + (-126 - E) in
      if 54 <? shift then mk_float s 0 0
      else mk_float s 0 0 + round_shift (2 ^ 52 + fr) shift
    else
      let p := mk_float s (E + 127) 0 + round_shift fr 29 in
      if mk_float s 255 0 <=? p then mk_float s 255 0 else p.

(** ** Object representation

    [le_bytes n x] are the [n] low bytes of [x], least significant
    first; [le_value] is its inverse. *)
Fixpoint le_bytes (n : nat) (x : Z) : list Z :=
  match n with
  | O => []
  | S n' => x mod 256 :: le_bytes n' (x / 256)
  end.

Fixpoint le_value (bs : list Z) : Z :=
  match bs with
  | [] => 0
  | b :: t => b + 256 * le_value t
  end.

(** The two machines the source distinguishes: the one that stores the
    most significant byte of a word first, and the one that stores it
    last. *)
Inductive machine : Type := MSB_first | LSB_first.

Definition to_mem (m : machine) (n : nat) (x : Z) : list Z :=
  match m with
  | MSB_first => rev (le_bytes n x)
  | LSB_first => le_bytes n x
  end.

Definition of_mem (m : machine) (bs : list Z) : Z :=
  match m with
  | MSB_first => le_value (rev bs)
  | LSB_first => le_value bs
  end.

Definition int_to_mem (m : machine) (i : Z) : list Z := to_mem m 4 (bits_of_int i).
Definition int_of_mem (m : machine) (bs : list Z) : Z := int_of_bits (of_mem m bs).

(** [bytes[k]] of a union member. *)
Definition byte_at (bs : list Z) (k : nat) : Z := nth k bs 0.

(** ** Byte swapping *)

Definition swapd (m : machine) (d : Z) : Z :=
  let input := to_mem m 8 d in
  of_mem m [byte_at input 7; byte_at input 6; byte_at input 5; byte_at input 4;
            byte_at input 3; byte_at input 2; byte_at input 1; byte_at input 0].

Definition swapi (m : machine) (i : Z) : Z :=
  let input := int_to_mem m i in
  int_of_mem m [byte_at input 3; byte_at input 2; byte_at input 1; byte_at input 0].

(** [swapf] takes a float and returns the swapped float widened to
    double. *)
Definition swapf (m : machine) (f : Z) : Z :=
  let input := to_mem m 4 f in
  float_to_double
    (of_mem m [byte_at input 3; byte_at input 2; byte_at input 1; byte_at input 0]).

(** ** [setup_consts]

    The double [1.0] is inspected as two 32-bit words.  [None] stands for
    [error("couldn't determine endianness.")]. *)
Definition one_double : Z := Eval cbv in mk_double 0 1023 0.

Definition ieee_word (m : machine) (d : Z) (k : nat) : Z :=
  of_mem m (take 4 (drop (4 * k) (to_mem m 8 d))).

Definition setup_consts (m : machine) : option Z :=
  if ieee_word m one_double 0 =? 0x3ff00000 then Some LOHI
  else if ieee_word m one_double 1 =? 0x3ff00000 then Some HILO
  else None.

(** ** Errors, results and the stream monad *)

Inductive error : Type :=
| EndianError          (* couldn't determine endianness. *)
| ReadError            (* a binary read error occured *)
| WriteError           (* a binary write error occured *)
| NotStataError        (* Not a Stata v5 or v6 file *)
| UnknownDataType      (* Unknown data type *)
| Type0Characteristic  (* Something strange in the file (Type 0 characteristic of nonzero length) *)
| CantHappen           (* This can't happen. *)
| NegativeLength       (* raised by R's allocVector on a negative length *)
| OutOfBounds          (* an access outside an object: undefined in C *)
| OutOfFuel.           (* artefact of the model, shown unreachable below *)

Definition error_message (e : error) : string :=
  match e with
  | EndianError => "couldn't determine endianness."
  | ReadError => "a binary read error occured"
  | WriteError => "a binary write error occured"
  | NotStataError => "Not a Stata v5 or v6 file"
  | UnknownDataType => "Unknown data type"
  | Type0Characteristic =>
      "Something strange in the file" ++ String "010"
        " (Type 0 characteristic of nonzero length)"
  | CantHappen => "This can't happen."
  | NegativeLength => "negative length vectors are not allowed"
  | OutOfBounds => ""
  | OutOfFuel => ""
  end.

Definition stream : Type := list Z.

Inductive result (A : Type) : Type :=
| Ok (a : A) (fp : stream)
| Err (e : error) (fp : stream).
Arguments Ok {A} a fp.
Arguments Err {A} e fp.

Definition io (A : Type) : Type := stream -> result A.

Definition ret {A} (a : A) : io A := fun fp => Ok a fp.
Definition fail {A} (e : error) : io A := fun fp => Err e fp.
Definition bind {A B} (c : io A) (k : A -> io B) : io B :=
  fun fp => match c fp with
            | Ok a fp' => k a fp'
            | Err e fp' => Err e fp'
            end.

Notation "x <- c ;; k" := (bind c (fun x => k))
  (at level 99, c at next level, right associativity, only parsing).

(** [for (i = 0; i < count; i++) body], threading the variables the
    body assigns. *)
Fixpoint for_from {A} (count i : nat) (body : nat -> A -> io A) (a : A) : io A :=
  match count with
  | O => ret a
  | S c => a' <- body i a ;; for_from c (S i) body a'
  end.

Definition for_loop {A} (count : nat) (body : nat -> A -> io A) (a : A) : io A :=
  for_from count 0 body a.

(** ** Low-level input *)

(** [fread(buf, n, 1, fp) != 1] is an error.  An element of size zero
    is never read ([fread] returns 0); a truncated element leaves the
    stream at its end. *)
Definition fread (n : nat) : io (list Z) := fun fp =>
  if (n =? 0)%nat then Err ReadError fp
  else if (n <=? length fp)%nat then Ok (take n fp) (drop n fp)
  else Err ReadError [].

Definition InIntegerBinary (m : machine) (naok swapends : bool) : io Z :=
  bs <- fread 4 ;;
  let i := int_of_mem m bs in
  let i := if swapends then swapi m i else i in
  ret (if (i =? STATA_INT_NA) && negb naok then NA_INTEGER else i).

Definition InByteBinary (naok : bool) : io Z :=
  bs <- fread 1 ;;
  let i := byte_at bs 0 in
  ret (if (i =? STATA_BYTE_NA) && negb naok then NA_INTEGER else i).

Definition InShortIntBinary (stata_endian : Z) (naok swapends : bool) : io Z :=
  b1 <- InByteBinary true ;;
  b2 <- InByteBinary true ;;
  let first := to_ushort b1 in
  let second := to_ushort b2 in
  let result :=
    if stata_endian =? LOHI
    then to_ushort (Z.lor (Z.shiftl first 8) second)
    else to_ushort (Z.lor (Z.shiftl second 8) first) in
  ret (if (result =? STATA_SHORTINT_NA) && negb naok then NA_INTEGER else result).

Definition InDoubleBinary (m : machine) (naok swapends : bool) : io Z :=
  bs <- fread 8 ;;
  let i := of_mem m bs in
  let i := if swapends then swapd m i else i in
  ret (if double_eq i STATA_DOUBLE_NA && negb naok then NA_REAL else i).

(** The result is a float: the double returned by [swapf] is narrowed
    on assignment, and so is [NA_REAL]. *)
Definition InFloatBinary (m : machine) (naok swapends : bool) : io Z :=
  bs <- fread 4 ;;
  let i := of_mem m bs in
  let i := if swapends then double_to_float (swapf m i) else i in
  ret (if double_eq (float_to_double i) STATA_FLOAT_NA && negb naok
       then double_to_float NA_REAL else i).

(** Reads [nchar] bytes over the beginning of [buffer]. *)
Definition InStringBinary (nchar : Z) (buffer : list Z) : io (list Z) :=
  bs <- fread (Z.to_nat nchar) ;;
  ret (bs ++ drop (Z.to_nat nchar) buffer).

Fixpoint nameMangle (stataname : list Z) (len : nat) : list Z :=
  match len, stataname with
  | S len', c :: rest =>
      (if c =? chr "_" then chr "." else c) :: nameMangle rest len'
  | _, _ => stataname
  end.

(** ** R objects

    A [CHARSXP] is the list of its [LENGTH] bytes.  [mkChar] copies a C
    string: the bytes of the buffer before the first zero (the buffers
    of this program all end in one; a buffer without one is read to its
    end). *)
Abbreviation CHARSXP := (list Z) (only parsing).

Fixpoint mkChar (buffer : list Z) : CHARSXP :=
  match buffer with
  | [] => []
  | c :: rest => if c =? 0 then [] else c :: mkChar rest
  end.

Inductive SEXP : Type :=
| NILSXP
| LGLSXP (v : list Z)
| INTSXP (v : list Z)
| REALSXP (v : list Z)
| STRSXP (v : list CHARSXP)
| OTHERSXP (len : nat).   (* an object of any other type *)

Definition bytes_of_string (s : string) : list Z :=
  map (fun c => chr c) (list_ascii_of_string s).

(** [sprintf(buf, "%d", i)] without the terminator. *)
Definition decimal (i : Z) : list Z :=
  bytes_of_string (NilZero.string_of_int (Z.to_int i)).

(** The data frame: the list of columns and its attributes. *)
Record data_frame : Type := mk_data_frame {
  df_columns : list SEXP;
  df_names : list CHARSXP;
  df_datalabel : CHARSXP;
  df_time_stamp : CHARSXP;
  df_formats : list CHARSXP;
  df_var_labels : list CHARSXP;
  df_class : CHARSXP;
  df_row_names : list CHARSXP
}.

(** [allocVector] of R raises an error on a negative length.  A numeric
    vector is not initialised by R; here it starts as zeros.  A string
    vector starts as blank strings. *)
Definition allocVector {A} (dflt : A) (n : Z) : io (list A) :=
  if n <? 0 then fail NegativeLength
  else ret (replicate (Z.to_nat n) dflt).

(** [REAL(x)[i] = v], [INTEGER(x)[i] = v], [SET_STRING_ELT(x, i, v)]. *)
Definition set_REAL (x : SEXP) (i : nat) (v : Z) : SEXP :=
  match x with REALSXP l => REALSXP (<[i := v]> l) | _ => x end.
Definition set_INTEGER (x : SEXP) (i : nat) (v : Z) : SEXP :=
  match x with INTSXP l => INTSXP (<[i := v]> l) | _ => x end.
Definition SET_STRING_ELT (x : SEXP) (i : nat) (v : CHARSXP) : SEXP :=
  match x with STRSXP l => STRSXP (<[i := v]> l) | _ => x end.

Definition VECTOR_ELT (df : list SEXP) (j : nat) : SEXP := nth j df NILSXP.

(** ** [R_LoadStataData]: turn a .dta file into a data frame *)

(** Body of the loop over the type bytes; [df] and [types] are the
    vectors it fills. *)
Definition read_type (nobs : Z) (i : nat) (st : list SEXP * list Z)
  : io (list SEXP * list Z) :=
  abyte <- InByteBinary true ;;
  let df := st.1 in
  let types := <[i := abyte]> st.2 in
  if (abyte =? STATA_FLOAT) || (abyte =? STATA_DOUBLE) then
    (v <- allocVector 0 nobs ;; ret (<[i := REALSXP v]> df, types))
  else if (abyte =? STATA_INT) || (abyte =? STATA_SHORTINT) || (abyte =? STATA_BYTE) then
    (v <- allocVector 0 nobs ;; ret (<[i := INTSXP v]> df, types))
  else if abyte <? STATA_STRINGOFFSET then fail UnknownDataType
  else (v <- allocVector [] nobs ;; ret (<[i := STRSXP v]> df, types)).

(** Body of the loops that read one fixed-width string per variable
    into a local buffer and store [mkChar] of it. *)
Definition read_name (i : nat) (st : list Z * list CHARSXP)
  : io (list Z * list CHARSXP) :=
  aname <- InStringBinary 9 st.1 ;;
  let aname := nameMangle aname 9 in
  ret (aname, <[i := mkChar aname]> st.2).

Definition read_label (width : Z) (i : nat) (st : list Z * list CHARSXP)
  : io (list Z * list CHARSXP) :=
  buffer <- InStringBinary width st.1 ;;
  ret (buffer, <[i := mkChar buffer]> st.2).

Definition skip_byte (i : nat) (u : unit) : io unit :=
  _ <- InByteBinary true ;; ret u.

Definition skip_string (nchar : Z) (i : nat) (buffer : list Z) : io (list Z) :=
  InStringBinary nchar buffer.

(** The [while] loop over the variable characteristics.  Every turn
    consumes at least one byte, so that one more turn than the stream
    has bytes is enough fuel. *)
Fixpoint skip_characteristics (fuel : nat) (stata_endian : Z) (swapends : bool)
  : io unit :=
  match fuel with
  | O => fail OutOfFuel
  | S fuel' =>
      b <- InByteBinary true ;;
      if b =? 0 then ret tt
      else (charlen <- InShortIntBinary stata_endian true swapends ;;
            _ <- for_loop (Z.to_nat charlen) skip_byte tt ;;
            skip_characteristics fuel' stata_endian swapends)
  end.

Definition read_characteristics (stata_endian : Z) (swapends : bool) : io unit :=
  _ <- (fun fp => skip_characteristics (S (length fp)) stata_endian swapends fp) ;;
  charlen <- InShortIntBinary stata_endian true swapends ;;
  if negb (charlen =? 0) then fail Type0Characteristic else ret tt.

(** Body of the inner loop over the data: cell [i] of variable [j]. *)
Definition read_cell (m : machine) (stata_endian : Z) (swapends : bool)
    (types : list Z) (i j : nat) (df : list SEXP) : io (list SEXP) :=
  let t := nth j types 0 in
  if t =? STATA_FLOAT then
    (v <- InFloatBinary m false swapends ;;
     ret (<[j := set_REAL (VECTOR_ELT df j) i (float_to_double v)]> df))
  else if t =? STATA_DOUBLE then
    (v <- InDoubleBinary m false swapends ;;
     ret (<[j := set_REAL (VECTOR_ELT df j) i v]> df))
  else if t =? STATA_INT then
    (v <- InIntegerBinary m false swapends ;;
     ret (<[j := set_INTEGER (VECTOR_ELT df j) i v]> df))
  else if t =? STATA_SHORTINT then
    (v <- InShortIntBinary stata_endian false swapends ;;
     ret (<[j := set_INTEGER (VECTOR_ELT df j) i v]> df))
  else if t =? STATA_BYTE then
    (v <- InByteBinary false ;;
     ret (<[j := set_INTEGER (VECTOR_ELT df j) i v]> df))
  else
    let charlen := t - STATA_STRINGOFFSET in
    let tmp := replicate (Z.to_nat (charlen + 1)) 0 in
    (tmp <- InStringBinary charlen tmp ;;
     let tmp := <[Z.to_nat charlen := 0]> tmp in
     ret (<[j := SET_STRING_ELT (VECTOR_ELT df j) i tmp]> df)).

Definition read_row (m : machine) (stata_endian : Z) (swapends : bool)
    (types : list Z) (nvar : nat) (i : nat) (df : list SEXP) : io (list SEXP) :=
  for_loop nvar (read_cell m stata_endian swapends types i) df.

Definition row_name (i : nat) (st : list CHARSXP) : io (list CHARSXP) :=
  ret (<[i := mkChar (decimal (Z.of_nat i + 1) ++ [0])]> st).

(** The function is cut here into the blocks its comments announce:
    the header, the variable descriptors, the characteristics, the
    data.  The automatic arrays [datalabel], [timestamp] and [aname]
    are not initialised by the source; they start here as zeros. *)

Record header : Type := mk_header {
  h_version5 : bool;
  h_stata_endian : Z;
  h_swapends : bool;
  h_nvar : Z;
  h_nobs : Z;
  h_datalabel : list Z;
  h_timestamp : list Z
}.

(* first read the header *)
Definition read_header (m : machine) (endian : Z) : io header :=
  abyte <- InByteBinary true ;;
  version5 <- (if abyte =? 0x69 then ret true
               else if abyte =? chr "l" then ret false
               else fail NotStataError) ;;
  stata_endian <- InByteBinary true ;;
  let swapends := negb (endian =? stata_endian) in
  _ <- InByteBinary true ;;
  _ <- InByteBinary true ;;
  nvar <- InShortIntBinary stata_endian true swapends ;;
  nobs <- InIntegerBinary m true swapends ;;
  datalabel <- InStringBinary (if version5 : bool then 32 else 81) (replicate 81 0) ;;
  timestamp <- InStringBinary 18 (replicate 18 0) ;;
  ret (mk_header version5 stata_endian swapends nvar nobs datalabel timestamp).

Record descriptors : Type := mk_descriptors {
  d_df : list SEXP;
  d_types : list Z;
  d_names : list CHARSXP;
  d_formats : list CHARSXP;
  d_varlabels : list CHARSXP
}.

(* read variable descriptors *)
Definition read_descriptors (h : header) : io descriptors :=
  let nvar := h_nvar h in
  let width := if h_version5 h then 32 else 81 in
  df <- allocVector NILSXP nvar ;;
  (* types *)
  types <- allocVector 0 nvar ;;
  st <- for_loop (Z.to_nat nvar) (read_type (h_nobs h)) (df, types) ;;
  let df := st.1 in
  let types := st.2 in
  (* names *)
  names <- allocVector [] nvar ;;
  st <- for_loop (Z.to_nat nvar) read_name (replicate 9 0, names) ;;
  let names := st.2 in
  let aname := st.1 in
  (* sortlist *)
  _ <- for_loop (Z.to_nat (2 * (nvar + 1))) skip_byte tt ;;
  (* format list, read through the timestamp buffer *)
  tmp <- allocVector [] nvar ;;
  st <- for_loop (Z.to_nat nvar) (read_label 12) (h_timestamp h, tmp) ;;
  let formats := st.2 in
  (* value labels *)
  aname <- for_loop (Z.to_nat nvar) (skip_string 9) aname ;;
  (* variable labels, read through the datalabel buffer *)
  varlabels <- allocVector [] nvar ;;
  st <- for_loop (Z.to_nat nvar) (read_label width) (h_datalabel h, varlabels) ;;
  ret (mk_descriptors df types names formats st.2).

(* the data *)
Definition read_data (m : machine) (h : header) (d : descriptors) : io (list SEXP) :=
  for_loop (Z.to_nat (h_nobs h))
    (read_row m (h_stata_endian h) (h_swapends h) (d_types d) (Z.to_nat (h_nvar h)))
    (d_df d).

Definition R_LoadStataData (m : machine) : io data_frame :=
  match setup_consts m with
  | None => fail EndianError
  | Some endian =>
    h <- read_header m endian ;;
    d <- read_descriptors h ;;
    _ <- read_characteristics (h_stata_endian h) (h_swapends h) ;;
    df <- read_data m h d ;;
    row_names <- allocVector [] (h_nobs h) ;;
    row_names <- for_loop (Z.to_nat (h_nobs h)) row_name row_names ;;
    ret {| df_columns := df;
           df_names := d_names d;
           df_datalabel := mkChar (h_datalabel h);
           df_time_stamp := mkChar (h_timestamp h);
           df_formats := d_formats d;
           df_var_labels := d_varlabels d;
           df_class := bytes_of_string "data.frame";
           df_row_names := row_names |}
  end.

(** ** Low-level output

    The stream of a file opened for writing is the list of the bytes
    written so far; it is taken to accept every byte ([fwrite] fails
    only on an element of size zero, for which it returns 0). *)

Definition fwrite (buffer : list Z) (n : nat) : io unit := fun fp =>
  if (n =? 0)%nat then Err WriteError fp
  else if (n <=? length buffer)%nat then Ok tt (fp ++ take n buffer)
  else Err OutOfBounds fp.

Definition OutIntegerBinary (m : machine) (i : Z) (naok : bool) : io unit :=
  let i := if (i =? NA_INTEGER) && negb naok then STATA_INT_NA else i in
  fwrite (int_to_mem m i) 4.

Definition OutByteBinary (i : Z) : io unit :=
  fwrite [to_uchar i] 1.

Definition OutShortIntBinary (endian : Z) (i : Z) : io unit :=
  let first := if endian =? LOHI then to_uchar (Z.shiftr i 8) else to_uchar (Z.land i 0xff) in
  let second := if endian =? LOHI then to_uchar (Z.land i 0xff) else to_uchar (Z.shiftr i 8) in
  _ <- fwrite [first] 1 ;;
  fwrite [second] 1.

Definition OutDoubleBinary (m : machine) (d : Z) (naok : bool) : io unit :=
  let d := if R_FINITE d then d else STATA_DOUBLE_NA in
  fwrite (to_mem m 8 d) 8.

Definition OutStringBinary (buffer : list Z) (nchar : Z) : io unit :=
  fwrite buffer (Z.to_nat nchar).

Fixpoint nameMangleOut (stataname : list Z) (len : nat) : list Z :=
  match len, stataname with
  | S len', c :: rest =>
      (if c =? chr "." then chr "_" else c) :: nameMangleOut rest len'
  | _, _ => stataname
  end.

(** ** [R_SaveStataData]: write a data frame as a version 6 file *)

(** [length(x)] of R. *)
Definition R_length (x : SEXP) : Z :=
  match x with
  | NILSXP => 0
  | LGLSXP v | INTSXP v | REALSXP v => Z.of_nat (length v)
  | STRSXP v => Z.of_nat (length v)
  | OTHERSXP len => Z.of_nat len
  end.

(** Element [i] of a vector; the source does not check the index. *)
Definition elt {A} (v : list A) (i : nat) : io A :=
  match v !! i with
  | Some x => ret x
  | None => fail OutOfBounds
  end.

(** [strncpy(dst, src, n)], where [src] is the C string held by a
    [CHARSXP]: the copy stops at the first zero and pads with zeros. *)
Definition strncpy (dst : list Z) (src : CHARSXP) (n : nat) : list Z :=
  take n (mkChar src ++ replicate n 0) ++ drop n dst.

(** [sprintf(buffer, ...)] of a string, with its terminator, into a
    buffer that must hold it. *)
Definition sprintf (buffer text : list Z) : io (list Z) :=
  if (length text + 1 <=? length buffer)%nat
  then ret (text ++ [0] ++ drop (length text + 1) buffer)
  else fail OutOfBounds.

(** A char array initialised by a string literal: the rest is zero. *)
Definition char_array (size : nat) (init : string) : list Z :=
  take size (bytes_of_string init ++ replicate size 0).

(** The loop that, for a string column, reads the length of every cell
    into [k] and keeps the largest in [charlen]; its state is the pair
    [(k, charlen)]. *)
Definition scan_length (v : list CHARSXP) (j : nat) (st : Z * Z) : io (Z * Z) :=
  c <- elt v j ;;
  let k := Z.of_nat (length c) in
  let charlen := if st.2 <? k then k else st.2 in
  ret (k, charlen).

(** Body of the loop that writes the type bytes; its state is the
    variable [k] and the vector [types]. *)
Definition write_type (df : list SEXP) (nobs : Z) (i : nat) (st : Z * list Z)
  : io (Z * list Z) :=
  x <- elt df i ;;
  match x with
  | LGLSXP _ | INTSXP _ => _ <- OutByteBinary STATA_INT ;; ret st
  | REALSXP _ => _ <- OutByteBinary STATA_DOUBLE ;; ret st
  | STRSXP v =>
      kc <- for_loop (Z.to_nat nobs) (scan_length v) (st.1, 0) ;;
      let k := kc.1 in
      _ <- OutByteBinary (k + STATA_STRINGOFFSET) ;;
      ret (k, <[i := k]> st.2)
  | _ => fail UnknownDataType
  end.

Definition write_name (names : list CHARSXP) (i : nat) (aname : list Z)
  : io (list Z) :=
  name <- elt names i ;;
  let aname := strncpy aname name 8 in
  let aname := nameMangleOut aname 8 in
  _ <- OutStringBinary aname 8 ;;
  _ <- OutByteBinary 0 ;;
  ret aname.

Definition write_zero (i : nat) (u : unit) : io unit := OutByteBinary 0.

Definition write_format (df : list SEXP) (types : list Z) (format9g : list Z)
    (i : nat) (strformat : list Z) : io (list Z) :=
  x <- elt df i ;;
  match x with
  | STRSXP _ =>
      width <- elt types i ;;
      strformat <- sprintf strformat
                     (bytes_of_string "%" ++ decimal width ++ bytes_of_string "s") ;;
      _ <- OutStringBinary strformat 12 ;;
      ret strformat
  | _ => _ <- OutStringBinary format9g 12 ;; ret strformat
  end.

Definition write_value_label (aname : list Z) (i : nat) (u : unit) : io unit :=
  OutStringBinary aname 9.

Definition write_label (names : list CHARSXP) (i : nat) (datalabel : list Z)
  : io (list Z) :=
  name <- elt names i ;;
  let datalabel := strncpy datalabel name 81 in
  let datalabel := <[80%nat := 0]> datalabel in
  _ <- OutStringBinary datalabel 81 ;;
  ret datalabel.

(** Body of the inner loop over the data: cell [i] of variable [j]. *)
Definition write_cell (m : machine) (df : list SEXP) (types : list Z)
    (i j : nat) (u : unit) : io unit :=
  x <- elt df j ;;
  match x with
  | LGLSXP v => c <- elt v i ;; OutIntegerBinary m c false
  | INTSXP v => c <- elt v i ;; OutIntegerBinary m c false
  | REALSXP v => c <- elt v i ;; OutDoubleBinary m c false
  | STRSXP v =>
      c <- elt v i ;;
      let k := Z.of_nat (length c) in
      _ <- OutStringBinary c k ;;
      width <- elt types j ;;
      for_loop (Z.to_nat (width - k)) write_zero tt
  | _ => fail CantHappen
  end.

Definition write_row (m : machine) (df : list SEXP) (types : list Z)
    (nvar : nat) (i : nat) (u : unit) : io unit :=
  for_loop nvar (write_cell m df types i) u.

(* first write the header; the result is [nobs] *)
Definition write_header (m : machine) (endian : Z) (df : list SEXP) : io Z :=
  let datalabel := char_array 81 "Written by R.              " in
  _ <- OutByteBinary 108 ;;
  _ <- OutByteBinary endian ;;
  _ <- OutByteBinary 1 ;;
  _ <- OutByteBinary 0 ;;
  let nvar := Z.of_nat (length df) in
  _ <- OutShortIntBinary endian nvar ;;
  x0 <- elt df 0 ;;
  let nobs := R_length x0 in
  _ <- OutIntegerBinary m nobs true ;;
  _ <- OutStringBinary datalabel 81 ;;
  let timestamp := replicate 18 0 in
  _ <- OutStringBinary timestamp 18 ;;
  ret nobs.

(* write variable descriptors; the result is the vector [types] *)
Definition write_descriptors (d : data_frame) (nobs : Z) : io (list Z) :=
  let df := df_columns d in
  let nvar := Z.of_nat (length df) in
  let datalabel := char_array 81 "Written by R.              " in
  let format9g := char_array 12 "%9.0g" in
  let strformat := char_array 12 "" in
  (* types *)
  types <- allocVector 0 nvar ;;
  st <- for_loop (Z.to_nat nvar) (write_type df nobs) (0, types) ;;
  let types := st.2 in
  (* names truncated to 8 characters *)
  let names := df_names d in
  aname <- for_loop (Z.to_nat nvar) (write_name names) (replicate 9 0) ;;
  (* sortlist *)
  _ <- for_loop (Z.to_nat (2 * (nvar + 1))) write_zero tt ;;
  (* format list *)
  _ <- for_loop (Z.to_nat nvar) (write_format df types format9g) strformat ;;
  (* value labels *)
  let aname := replicate 9 0 in
  _ <- for_loop (Z.to_nat nvar) (write_value_label aname) tt ;;
  (* variable labels: full R name of column *)
  _ <- for_loop (Z.to_nat nvar) (write_label names) datalabel ;;
  ret types.

(* the data *)
Definition write_data (m : machine) (df : list SEXP) (types : list Z) (nobs : Z)
  : io unit :=
  for_loop (Z.to_nat nobs) (write_row m df types (length df)) tt.

Definition R_SaveStataData (m : machine) (d : data_frame) : io unit :=
  match setup_consts m with
  | None => fail EndianError
  | Some endian =>
    nobs <- write_header m endian (df_columns d) ;;
    types <- write_descriptors d nobs ;;
    (* variable characteristics *)
    _ <- OutByteBinary 0 ;;
    _ <- OutByteBinary 0 ;;
    _ <- OutByteBinary 0 ;;
    write_data m (df_columns d) types nobs
  end.

(** ** Auxiliary notions used in the statements *)

(** The bytes a computation has written, starting from an empty file,
    and the value it returns. *)
Definition stream_of {A} (r : result A) : stream :=
  match r with Ok _ fp => fp | Err _ fp => fp end.

Definition written {A} (c : io A) : stream := stream_of (c []).

Definition value_of {A} (dflt : A) (r : result A) : A :=
  match r with Ok a _ => a | Err _ _ => dflt end.

(** Reversal of the bytes of an [n]-byte pattern. *)
Definition mirror (n : nat) (x : Z) : Z := le_value (rev (le_bytes n x)).

(** The value of [endian] on a machine, and the value [swapends] takes
    in [read_header] on machine [reader] for a file whose byte-order
    flag was written on machine [writer]. *)
Definition endian_of (m : machine) : Z :=
  match setup_consts m with Some e => e | None => 0 end.

Definition swapends_of (reader writer : machine) : bool :=
  negb (endian_of reader =? endian_of writer).

(** The source has no 16-bit swap function: a short is written byte by
    byte by [OutShortIntBinary] and read byte by byte by
    [InShortIntBinary].  Its bytes are exchanged when it is written
    under one byte order and read under the other. *)
Definition short_cross (v : Z) : Z :=
  value_of 0 (InShortIntBinary HILO true true (written (OutShortIntBinary LOHI v))).

(** The bytes of a short in a file whose byte-order flag is
    [stata_endian], as [InShortIntBinary] expects them. *)
Definition short_file_bytes (stata_endian : Z) (v : Z) : list Z :=
  if stata_endian =? LOHI then [v / 256; v mod 256] else [v mod 256; v / 256].

(** The bytes an [n]-byte pattern [x] occupies in a file that machine
    [m] reads with the flag [swapends]: the machine's own layout, or
    its reversal. *)
Definition file_bytes (m : machine) (swapends : bool) (n : nat) (x : Z) : list Z :=
  if swapends then rev (to_mem m n x) else to_mem m n x.

(** The infinities of R ([R_PosInf], [R_NegInf]). *)
Definition R_PosInf : Z := Eval cbv in mk_double 0 2047 0.
Definition R_NegInf : Z := Eval cbv in mk_double 1 2047 0.

(** The float [pow(2,127)]. *)
Definition float_sentinel : Z := Eval cbv in mk_float 0 254 0.

(** A one-cell numeric column that holds R's missing value. *)
Definition missing_cell (x : SEXP) : Prop :=
  x = LGLSXP [NA_LOGICAL] \/ x = INTSXP [NA_INTEGER] \/ x = REALSXP [NA_REAL].


(** The five type bytes of the numeric storage kinds. *)
Definition fixed_width_tag (tag : Z) : Prop :=
  tag = STATA_FLOAT \/ tag = STATA_DOUBLE \/ tag = STATA_INT \/
  tag = STATA_SHORTINT \/ tag = STATA_BYTE.

(** A characteristic record as it lies in the file: a type byte, a
    two-byte length, and that many bytes of contents.  It is well
    formed when its type is not the terminator and its contents fit the
    length field. *)
Definition record_bytes (stata_endian : Z) (r : Z * list Z) : list Z :=
  r.1 :: short_file_bytes stata_endian (Z.of_nat (length r.2)) ++ r.2.

Definition well_formed_record (r : Z * list Z) : Prop :=
  r.1 <> 0 /\ Z.of_nat (length r.2) < 65536.

Definition characteristics_bytes (stata_endian : Z) (rs : list (Z * list Z)) : list Z :=
  concat (map (record_bytes stata_endian) rs).

(** The two substitutions on the characters of a name, as the
    specification words them. *)
Definition underscore_to_dot (c : Z) : Z := if c =? chr "_" then chr "." else c.
Definition dot_to_underscore (c : Z) : Z := if c =? chr "." then chr "_" else c.

(** The longest cell of a string column, and a data frame given by its
    columns and their names (the other attributes play no part in
    writing). *)
Definition max_cell_length (v : list (list Z)) : Z :=
  foldr Z.max 0 (map (fun c => Z.of_nat (length c)) v).

Definition data_frame_of (columns : list SEXP) (names : list (list Z)) : data_frame :=
  mk_data_frame columns names [] [] [] [] (bytes_of_string "data.frame") [].

(** A computation only appends to the file. *)
Definition extends {A} (c : io A) : Prop :=
  forall fp, exists sfx, stream_of (c fp) = fp ++ sfx.

(** Two columns of the same type that agree on their first [n] cells. *)
Definition same_upto (n : nat) (x y : SEXP) : Prop :=
  match x, y with
  | NILSXP, NILSXP => True
  | LGLSXP v, LGLSXP w => take n v = take n w
  | INTSXP v, INTSXP w => take n v = take n w
  | REALSXP v, REALSXP w => take n v = take n w
  | STRSXP v, STRSXP w => take n v = take n w
  | OTHERSXP _, OTHERSXP _ => True
  | _, _ => False
  end.

(** A vector column with fewer than [n] cells. *)
Definition shorter_than (n : Z) (x : SEXP) : Prop :=
  match x with
  | LGLSXP v | INTSXP v | REALSXP v => Z.of_nat (length v) < n
  | STRSXP v => Z.of_nat (length v) < n
  | _ => False
  end.

(** A computation never stops for want of fuel, and a computation
    never leaves more to read than it found. *)
Definition no_fuel_error {A} (c : io A) : Prop :=
  forall fp e fp', c fp = Err e fp' -> e <> OutOfFuel.

Definition shrinks {A} (c : io A) : Prop :=
  forall fp a fp', c fp = Ok a fp' -> (length fp' <= length fp)%nat.

(** ** The layout of a .dta file

    A version 5 or 6 file described field by field, the bytes it
    consists of, and the data frame it holds.  The description is
    independent of the machine that reads the file. *)

(** A word of [n] bytes in the byte order a file announces ([LOHI]:
    most significant byte first), and the value of such a word. *)
Definition ordered (e : Z) (n : nat) (x : Z) : list Z :=
  if e =? LOHI then rev (le_bytes n x) else le_bytes n x.

Definition ordered_value (e : Z) (bs : list Z) : Z :=
  if e =? LOHI then le_value (rev bs) else le_value bs.

Record variable : Type := mk_variable {
  v_type : Z;                (* the type byte *)
  v_name : list Z;           (* 9 bytes *)
  v_format : list Z;         (* 12 bytes *)
  v_value_label : list Z;    (* 9 bytes *)
  v_label : list Z;          (* 32 or 81 bytes *)
  v_cells : list (list Z)    (* the bytes of its cell in every observation *)
}.

Record dta : Type := mk_dta {
  dta_release : Z;
  dta_byteorder : Z;
  dta_filetype : Z;
  dta_padding : Z;
  dta_nobs : nat;
  dta_datalabel : list Z;    (* 32 or 81 bytes *)
  dta_timestamp : list Z;    (* 18 bytes *)
  dta_variables : list variable;
  dta_sortlist : list Z;     (* 2 * (nvar + 1) bytes *)
  dta_characteristics : list (Z * list Z)
}.

(** The width of the data label and of the variable labels. *)
Definition label_width (release : Z) : nat := if release =? 0x69 then 32 else 81.

(** The number of bytes of a cell of a variable of type [t]. *)
Definition storage_width (t : Z) : nat :=
  if t =? STATA_FLOAT then 4
  else if t =? STATA_DOUBLE then 8
  else if t =? STATA_INT then 4
  else if t =? STATA_SHORTINT then 2
  else if t =? STATA_BYTE then 1
  else Z.to_nat (t - STATA_STRINGOFFSET).

Definition dta_bytes (f : dta) : list Z :=
  let e := dta_byteorder f in
  let vars := dta_variables f in
  [dta_release f; e; dta_filetype f; dta_padding f] ++
  short_file_bytes e (Z.of_nat (length vars)) ++
  ordered e 4 (Z.of_nat (dta_nobs f)) ++
  dta_datalabel f ++
  dta_timestamp f ++
  map v_type vars ++
  concat (map v_name vars) ++
  dta_sortlist f ++
  concat (map v_format vars) ++
  concat (map v_value_label vars) ++
  concat (map v_label vars) ++
  characteristics_bytes e (dta_characteristics f) ++
  [0; 0; 0] ++
  concat (map (fun i => concat (map (fun v => nth i (v_cells v) []) vars))
            (seq 0 (dta_nobs f))).

(** The value of a cell of each storage kind.  A missing float is the
    NaN that [NA_REAL] becomes when narrowed to a float and widened
    again.  A string cell keeps all the bytes of its field and counts
    the terminator the reader appends. *)
Definition float_cell (e : Z) (bs : list Z) : Z :=
  let f := ordered_value e bs in
  float_to_double
    (if double_eq (float_to_double f) STATA_FLOAT_NA then double_to_float NA_REAL else f).

Definition double_cell (e : Z) (bs : list Z) : Z :=
  let d := ordered_value e bs in
  if double_eq d STATA_DOUBLE_NA then NA_REAL else d.

Definition int_cell (e : Z) (bs : list Z) : Z :=
  let i := int_of_bits (ordered_value e bs) in
  if i =? STATA_INT_NA then NA_INTEGER else i.

Definition short_cell (e : Z) (bs : list Z) : Z :=
  let i := ordered_value e bs in
  if i =? STATA_SHORTINT_NA then NA_INTEGER else i.

Definition byte_cell (bs : list Z) : Z :=
  let i := nth 0 bs 0 in
  if i =? STATA_BYTE_NA then NA_INTEGER else i.

Definition string_cell (bs : list Z) : list Z := bs ++ [0].

(** The column of a variable once its first [k] cells are read, the
    others being as allocated; and the whole column. *)
Definition column_upto (e : Z) (nobs k : nat) (v : variable) : SEXP :=
  let t := v_type v in
  let cells := take k (v_cells v) in
  if t =? STATA_FLOAT then REALSXP (map (float_cell e) cells ++ replicate (nobs - k) 0)
  else if t =? STATA_DOUBLE then REALSXP (map (double_cell e) cells ++ replicate (nobs - k) 0)
  else if t =? STATA_INT then INTSXP (map (int_cell e) cells ++ replicate (nobs - k) 0)
  else if t =? STATA_SHORTINT then INTSXP (map (short_cell e) cells ++ replicate (nobs - k) 0)
  else if t =? STATA_BYTE then INTSXP (map byte_cell cells ++ replicate (nobs - k) 0)
  else STRSXP (map string_cell cells ++ replicate (nobs - k) []).

Definition column_of (e : Z) (v : variable) : SEXP :=
  let t := v_type v in
  let cells := v_cells v in
  if t =? STATA_FLOAT then REALSXP (map (float_cell e) cells)
  else if t =? STATA_DOUBLE then REALSXP (map (double_cell e) cells)
  else if t =? STATA_INT then INTSXP (map (int_cell e) cells)
  else if t =? STATA_SHORTINT then INTSXP (map (short_cell e) cells)
  else if t =? STATA_BYTE then INTSXP (map byte_cell cells)
  else STRSXP (map string_cell cells).

(** The data frame of a file.  A format that fills its 12 bytes runs
    on into what the buffer holds behind them: the last 6 bytes of the
    time stamp. *)
Definition dta_frame (f : dta) : data_frame :=
  let vars := dta_variables f in
  {| df_columns := map (column_of (dta_byteorder f)) vars;
     df_names := map (fun v => map underscore_to_dot (mkChar (v_name v))) vars;
     df_datalabel := mkChar (dta_datalabel f);
     df_time_stamp := mkChar (dta_timestamp f);
     df_formats := map (fun v => mkChar (v_format v ++ drop 12 (dta_timestamp f))) vars;
     df_var_labels := map (fun v => mkChar (v_label v)) vars;
     df_class := bytes_of_string "data.frame";
     df_row_names := map (fun i => decimal (Z.of_nat i + 1)) (seq 0 (dta_nobs f)) |}.

(** A file is well formed when its fields have the widths of the
    format, its strings are terminated within the buffers they are read
    into, its types are among the five numeric types and the string
    types of non-zero width, and its counts fit their fields. *)
Definition well_formed_variable (w nobs : nat) (timestamp : list Z) (v : variable)
  : Prop :=
  (fixed_width_tag (v_type v) \/ STATA_STRINGOFFSET < v_type v) /\
  (length (v_name v) = 9%nat /\ In 0 (v_name v)) /\
  (length (v_format v) = 12%nat /\ In 0 (v_format v ++ drop 12 timestamp)) /\
  length (v_value_label v) = 9%nat /\
  (length (v_label v) = w /\ In 0 (v_label v)) /\
  length (v_cells v) = nobs /\
  Forall (fun c => length c = storage_width (v_type v) /\ Forall is_byte c) (v_cells v).

Definition well_formed (f : dta) : Prop :=
  (dta_release f = 0x69 \/ dta_release f = chr "l") /\
  (dta_byteorder f = LOHI \/ dta_byteorder f = HILO) /\
  Z.of_nat (length (dta_variables f)) < 65536 /\
  Z.of_nat (dta_nobs f) < 2 ^ 31 /\
  (length (dta_datalabel f) = label_width (dta_release f) /\ In 0 (dta_datalabel f)) /\
  (length (dta_timestamp f) = 18%nat /\ In 0 (dta_timestamp f)) /\
  length (dta_sortlist f) = Z.to_nat (2 * (Z.of_nat (length (dta_variables f)) + 1)) /\
  Forall (well_formed_variable (label_width (dta_release f)) (dta_nobs f)
            (dta_timestamp f)) (dta_variables f) /\
  Forall well_formed_record (dta_characteristics f).

(** ** Notions used for the files that [R_SaveStataData] writes *)

(** A column of integers, logicals or reals with [n] cells, each in
    the range of its C type. *)
Definition numeric_column (n : nat) (x : SEXP) : Prop :=
  match x with
  | LGLSXP v | INTSXP v => length v = n /\ Forall is_int v
  | REALSXP v => length v = n /\ Forall is_bits64 v
  | _ => False
  end.

(** The width a string column is given: the length of its last cell. *)
Definition string_width (v : list (list Z)) : nat := length (List.last v []).

(** A column that is written without error into a file of [n]
    observations: a numeric column, or a column of [n] strings, at
    least one, none of them empty, the last one of at most 128
    characters. *)
Definition writable_column (n : nat) (x : SEXP) : Prop :=
  match x with
  | STRSXP v =>
      length v = n /\ v <> [] /\ (string_width v <= 128)%nat /\
      Forall (fun c => c <> [] /\ Forall is_byte c) v
  | _ => numeric_column n x
  end.

(** A string column none of whose cells is longer than the last. *)
Definition aligned_column (x : SEXP) : Prop :=
  match x with
  | STRSXP v => Forall (fun c => (length c <= string_width v)%nat) v
  | _ => True
  end.

(** What a cell is read back as: the long-int sentinel as
    [NA_INTEGER], a double that is not finite or is the sentinel as
    [NA_REAL], a string padded with zeros to the width of its column
    and with a terminator, anything else as itself. *)
Definition read_back_int (i : Z) : Z :=
  if i =? STATA_INT_NA then NA_INTEGER else i.

Definition read_back_real (d : Z) : Z :=
  if R_FINITE d && negb (d =? STATA_DOUBLE_NA) then d else NA_REAL.

Definition pad (k : nat) (c : list Z) : list Z := c ++ replicate (k - length c) 0.

Definition read_back_column (x : SEXP) : SEXP :=
  match x with
  | LGLSXP v | INTSXP v => INTSXP (map read_back_int v)
  | REALSXP v => REALSXP (map read_back_real v)
  | STRSXP v => STRSXP (map (fun c => pad (string_width v) c ++ [0]) v)
  | _ => x
  end.

(** The fields of a variable in the file. *)
Definition type_byte (x : SEXP) : Z :=
  match x with
  | REALSXP _ => STATA_DOUBLE
  | STRSXP v => Z.of_nat (string_width v) + STATA_STRINGOFFSET
  | _ => STATA_INT
  end.

Definition name_field (name : list Z) : list Z :=
  map dot_to_underscore (take 8 (mkChar name ++ replicate 8 0)) ++ [0].

Definition label_field (name : list Z) : list Z :=
  <[80%nat := 0]> (take 81 (mkChar name ++ replicate 81 0)).

(** The format of a column, and the array [strformat] after the formats
    of some columns have been printed into it one after the other. *)
Definition format_text (x : SEXP) : list Z :=
  match x with
  | STRSXP v =>
      bytes_of_string "%" ++ decimal (Z.of_nat (string_width v)) ++ bytes_of_string "s"
  | _ => bytes_of_string "%9.0g"
  end.

Definition next_strformat (strformat : list Z) (x : SEXP) : list Z :=
  match x with
  | STRSXP _ =>
      format_text x ++ [0] ++ drop (length (format_text x) + 1) strformat
  | _ => strformat
  end.

Definition strformat_after (columns : list SEXP) : list Z :=
  fold_left next_strformat columns (char_array 12 "").

Definition format_field (columns : list SEXP) (j : nat) : list Z :=
  match nth j columns NILSXP with
  | STRSXP _ => strformat_after (take (S j) columns)
  | _ => char_array 12 "%9.0g"
  end.

(** The entry of the vector [types], which only string columns set. *)
Definition types_entry (x : SEXP) : Z :=
  match x with STRSXP v => Z.of_nat (string_width v) | _ => 0 end.

Definition cell_field (m : machine) (x : SEXP) (i : nat) : list Z :=
  match x with
  | LGLSXP v | INTSXP v =>
      let c := nth i v 0 in
      int_to_mem m (if c =? NA_INTEGER then STATA_INT_NA else c)
  | REALSXP v =>
      let c := nth i v 0 in
      to_mem m 8 (if R_FINITE c then c else STATA_DOUBLE_NA)
  | STRSXP v => pad (string_width v) (nth i v [])
  | _ => []
  end.

(** The number of bytes of a cell of a column. *)
Definition cell_width (x : SEXP) : nat :=
  match x with
  | REALSXP _ => 8
  | STRSXP v => string_width v
  | _ => 4
  end.

(** The file written on machine [m] for the frame with the given
    columns and names. *)
Definition saved_variable (m : machine) (columns : list SEXP) (names : list (list Z))
    (nobs : nat) (j : nat) : variable :=
  let x := nth j columns NILSXP in
  let name := nth j names [] in
  {| v_type := type_byte x;
     v_name := name_field name;
     v_format := format_field columns j;
     v_value_label := replicate 9 0;
     v_label := label_field name;
     v_cells := map (cell_field m x) (seq 0 nobs) |}.

Definition saved_dta (m : machine) (columns : list SEXP) (names : list (list Z))
    (nobs : nat) : dta :=
  {| dta_release := 108;
     dta_byteorder := endian_of m;
     dta_filetype := 1;
     dta_padding := 0;
     dta_nobs := nobs;
     dta_datalabel := char_array 81 "Written by R.              ";
     dta_timestamp := replicate 18 0;
     dta_variables := map (saved_variable m columns names nobs) (seq 0 (length columns));
     dta_sortlist := replicate (Z.to_nat (2 * (Z.of_nat (length columns) + 1))) 0;
     dta_characteristics := [] |}.

(** The data frame read from that file. *)
Definition read_back_frame (columns : list SEXP) (names : list (list Z)) (nobs : nat)
  : data_frame :=
  {| df_columns := map read_back_column columns;
     df_names := map (fun name => map underscore_to_dot (take 8 (mkChar name))) names;
     df_datalabel := bytes_of_string "Written by R.              ";
     df_time_stamp := [];
     df_formats := map format_text columns;
     df_var_labels := map (fun name => take 80 (mkChar name)) names;
     df_class := bytes_of_string "data.frame";
     df_row_names := map (fun i => decimal (Z.of_nat i + 1)) (seq 0 nobs) |}.

(** The frame read from the file written for a frame that was itself
    read from a file: the variable labels are by then the names. *)
Definition labelled_by_names (d : data_frame) : data_frame :=
  mk_data_frame (df_columns d) (df_names d) (df_datalabel d) (df_time_stamp d)
    (df_formats d) (df_names d) (df_class d) (df_row_names d).

(** A string without a zero byte. *)
Definition no_zero (l : list Z) : Prop := Forall (fun c => c <> 0) l.

(** ** Notions used for the errors *)

(** Every error a computation can end with satisfies [P]. *)
Definition fails_only {A} (P : error -> Prop) (c : io A) : Prop :=
  forall fp e fp', c fp = Err e fp' -> P e.

(** The errors of writing: the write error of the source, its
    "Unknown data type", and the accesses that C leaves undefined. *)
Definition save_error (e : error) : Prop :=
  e = WriteError \/ e = UnknownDataType \/ e = OutOfBounds.

(** The errors of reading. *)
Definition load_error (e : error) : Prop :=
  e = ReadError \/ e = NotStataError \/ e = UnknownDataType \/
  e = Type0Characteristic \/ e = NegativeLength.

(** The four types of column that [R_SaveStataData] writes. *)
Definition is_vector (x : SEXP) : Prop :=
  match x with
  | LGLSXP _ | INTSXP _ | REALSXP _ | STRSXP _ => True
  | _ => False
  end.

(** A file with a variable of each storage type, in the byte order
    [LOHI], with one characteristic. *)
Definition example_dta : dta :=
  {| dta_release := 0x69;
     dta_byteorder := LOHI;
     dta_filetype := 1;
     dta_padding := 0;
     dta_nobs := 2;
     dta_datalabel := char_array 32 "survey";
     dta_timestamp := char_array 18 "30 Oct 1999 12:00";
     dta_variables :=
       [ mk_variable STATA_FLOAT (char_array 9 "f_1") (char_array 12 "%9.0g")
           (replicate 9 0) (char_array 32 "a float")
           [[0x3F; 0x80; 0; 0]; [0x7F; 0; 0; 0]];
         mk_variable STATA_DOUBLE (char_array 9 "d") (char_array 12 "%10.0g")
           (replicate 9 0) (char_array 32 "a double")
           [[0x3F; 0xF0; 0; 0; 0; 0; 0; 0]; [0x7F; 0xE0; 0; 0; 0; 0; 0; 0]];
         mk_variable STATA_INT (char_array 9 "l") (char_array 12 "%12.0g")
           (replicate 9 0) (char_array 32 "a long")
           [[0xFF; 0xFF; 0xFF; 0xFE]; [0x7F; 0xFF; 0xFF; 0xFF]];
         mk_variable STATA_SHORTINT (char_array 9 "i") (char_array 12 "%8.0g")
           (replicate 9 0) (char_array 32 "an int")
           [[0xFF; 0xFE]; [0x7F; 0xFF]];
         mk_variable STATA_BYTE (char_array 9 "b") (char_array 12 "%8.0g")
           (replicate 9 0) (char_array 32 "a byte")
           [[0xFE]; [0x7F]];
         mk_variable (STATA_STRINGOFFSET + 3) (char_array 9 "s") (char_array 12 "%3s")
           (replicate 9 0) (char_array 32 "a string")
           [bytes_of_string "abc"; char_array 3 "de"] ];
     dta_sortlist := replicate 14 0;
     dta_characteristics := [(1, [5; 6; 7])] |}.

(** ** Notions used for the frames that [R_LoadStataData] returns *)

(** A column of [n] cells as the reader allocates it: an integer, a
    real or a string vector. *)
Definition loaded_column (n : nat) (x : SEXP) : Prop :=
  match x with
  | INTSXP v | REALSXP v => length v = n
  | STRSXP v => length v = n
  | _ => False
  end.

(** A computation that reads the file from its current position on:
    what it leaves is the end of what it found. *)
Definition reads_on {A} (c : io A) : Prop :=
  forall fp a fp', c fp = Ok a fp' -> exists pre, fp = pre ++ fp'.

(** ** The entry points [do_readStata] and [do_writeStata]

    R calls the two functions with the file name and, for writing, the
    data frame.  They act on the files and on the streams that are
    open.  Of the file system the model keeps the contents of the
    files by name; of R it keeps [isValidString], [inherits] and
    [error], which leaves the function at once, so that nothing that
    follows it is run.  [R_ExpandFileName] and the cases in which
    [fopen] cannot create a file are left open.  The sizes of [double],
    [int] and [float] that the functions test first are those of the
    two machines of the model. *)

Inductive call_error : Type :=
| NotAFileName          (* first argument must be a file name *)
| CannotOpen            (* unable to open file *)
| NotADataFrame         (* data to be saved must be in a data frame. *)
| Failed (e : error).   (* an error of R_LoadStataData or R_SaveStataData *)

Definition call_error_message (e : call_error) : string :=
  match e with
  | NotAFileName => String.append "first argument must be a file name" (String "010" EmptyString)
  | CannotOpen => "unable to open file"
  | NotADataFrame => "data to be saved must be in a data frame."
  | Failed e => error_message e
  end.

Record world : Type := mk_world {
  w_files : list (list Z * list Z);   (* name and contents; the first entry of a name counts *)
  w_open : nat                        (* the streams opened and not closed *)
}.

Fixpoint file_contents (path : list Z) (files : list (list Z * list Z))
  : option (list Z) :=
  match files with
  | [] => None
  | (p, bytes) :: rest =>
      if bool_decide (p = path) then Some bytes else file_contents path rest
  end.

(** A character vector with a first element. *)
Definition isValidString (x : SEXP) : bool :=
  match x with STRSXP (_ :: _) => true | _ => false end.

(** [CHAR(STRING_ELT(x, 0))], a C string. *)
Definition first_string (x : SEXP) : list Z :=
  match x with STRSXP (s :: _) => mkChar s | _ => [] end.

Definition inherits (d : data_frame) (class : string) : bool :=
  bool_decide (df_class d = bytes_of_string class).

Section entry_points.
Variable R_ExpandFileName : list Z -> list Z.
Variable creatable : list Z -> bool.

Definition do_readStata (m : machine) (fname : SEXP) (w : world)
  : (call_error + data_frame) * world :=
  if negb (isValidString fname) then (inl NotAFileName, w)
  else
    match file_contents (R_ExpandFileName (first_string fname)) (w_files w) with
    | None => (inl CannotOpen, w)
    | Some bytes =>
        match R_LoadStataData m bytes with
        | Ok result _ => (inr result, w)
        | Err e _ => (inl (Failed e), mk_world (w_files w) (S (w_open w)))
        end
    end.

Definition do_writeStata (m : machine) (fname : SEXP) (df : data_frame) (w : world)
  : (call_error + unit) * world :=
  if negb (isValidString fname) then (inl NotAFileName, w)
  else
    let path := R_ExpandFileName (first_string fname) in
    if negb (creatable path) then (inl CannotOpen, w)
    else
      (* the file is open for writing: it exists and is empty *)
      if negb (inherits df "data.frame")
      then (inl NotADataFrame, mk_world ((path, []) :: w_files w) (S (w_open w)))
      else
        match R_SaveStataData m df [] with
        | Ok _ out => (inr tt, mk_world ((path, out) :: w_files w) (w_open w))
        | Err e out => (inl (Failed e), mk_world ((path, out) :: w_files w) (S (w_open w)))
        end.
End entry_points.

(** ** Notions used for truncated files *)

(** What [c] does on a file, [c'] does on the same file followed by
    more bytes, unless [c] stops for want of bytes (or of fuel). *)
Definition carries_over {A} (c c' : io A) : Prop :=
  forall fp q,
    match c fp with
    | Ok a fp' => c' (fp ++ q) = Ok a (fp' ++ q)
    | Err e _ => e = ReadError \/ e = OutOfFuel \/ exists fp', c' (fp ++ q) = Err e fp'
    end.

(** * Properties *)

(** ** Object representation *)

Lemma length_le_bytes n x : length (le_bytes n x) = n.
Proof. revert x; induction n as [|n IH]; intros x; simpl; [reflexivity | by rewrite IH]. Qed.

Lemma le_bytes_are_bytes n x : Forall is_byte (le_bytes n x).
Proof.
  revert x; induction n as [|n IH]; intros x; simpl; constructor.
  - unfold is_byte. apply Z.mod_pos_bound. lia.
  - apply IH.
Qed.

Lemma le_value_bound bs :
  Forall is_byte bs -> 0 <= le_value bs < 256 ^ Z.of_nat (length bs).
Proof.
  induction 1 as [|b bs Hb _ IH]; simpl length; simpl le_value.
  - simpl. lia.
  - rewrite Nat2Z.inj_succ, Z.pow_succ_r by lia. unfold is_byte in Hb. lia.
Qed.

Lemma le_value_le_bytes n x :
  0 <= x < 256 ^ Z.of_nat n -> le_value (le_bytes n x) = x.
Proof.
  revert x; induction n as [|n IH]; intros x Hx.
  - simpl in *. lia.
  - simpl le_bytes. simpl le_value.
    rewrite Nat2Z.inj_succ, Z.pow_succ_r in Hx by lia.
    rewrite IH.
    + pose proof (Z.div_mod x 256). lia.
    + split; [apply Z.div_pos; lia | apply Z.div_lt_upper_bound; lia].
Qed.

Lemma le_bytes_le_value bs :
  Forall is_byte bs -> le_bytes (length bs) (le_value bs) = bs.
Proof.
  induction 1 as [|b bs Hb _ IH]; simpl; [reflexivity|].
  unfold is_byte in Hb.
  replace (b + 256 * le_value bs) with (b + le_value bs * 256) by lia.
  rewrite Z.mod_add, Z.div_add by lia.
  rewrite Z.mod_small, Z.div_small by lia. by rewrite Z.add_0_l, IH.
Qed.

Lemma mirror_bound n x : 0 <= mirror n x < 256 ^ Z.of_nat n.
Proof.
  unfold mirror.
  pose proof (le_value_bound (rev (le_bytes n x))) as H.
  rewrite length_rev, length_le_bytes in H. apply H.
  apply Forall_rev, le_bytes_are_bytes.
Qed.

Lemma mirror_involutive n x :
  0 <= x < 256 ^ Z.of_nat n -> mirror n (mirror n x) = x.
Proof.
  intros Hx. unfold mirror.
  replace n with (length (rev (le_bytes n x))) at 1
    by (rewrite length_rev; apply length_le_bytes).
  rewrite le_bytes_le_value by (apply Forall_rev, le_bytes_are_bytes).
  rewrite rev_involutive. by apply le_value_le_bytes.
Qed.

Lemma of_mem_to_mem m n x :
  0 <= x < 256 ^ Z.of_nat n -> of_mem m (to_mem m n x) = x.
Proof.
  intros Hx. destruct m; simpl.
  - rewrite rev_involutive. by apply le_value_le_bytes.
  - by apply le_value_le_bytes.
Qed.

Lemma length_to_mem m n x : length (to_mem m n x) = n.
Proof. destruct m; simpl; rewrite ?length_rev; apply length_le_bytes. Qed.

Lemma swap4_rev (l : list Z) :
  length l = 4%nat ->
  [byte_at l 3; byte_at l 2; byte_at l 1; byte_at l 0] = rev l.
Proof.
  destruct l as [|a [|b [|c [|d [|e l]]]]]; simpl; intros H; try discriminate.
  reflexivity.
Qed.

Lemma swap8_rev (l : list Z) :
  length l = 8%nat ->
  [byte_at l 7; byte_at l 6; byte_at l 5; byte_at l 4;
   byte_at l 3; byte_at l 2; byte_at l 1; byte_at l 0] = rev l.
Proof.
  do 9 (destruct l as [|? l]; simpl; try discriminate).
  reflexivity.
Qed.

Lemma of_mem_rev_to_mem m n x : of_mem m (rev (to_mem m n x)) = mirror n x.
Proof. destruct m; simpl; unfold mirror; by rewrite ?rev_involutive. Qed.

Lemma swapd_mirror m d : swapd m d = mirror 8 d.
Proof.
  unfold swapd. cbv zeta.
  rewrite swap8_rev by apply length_to_mem. apply of_mem_rev_to_mem.
Qed.

Lemma swapi_mirror m i : swapi m i = int_of_bits (mirror 4 (bits_of_int i)).
Proof.
  unfold swapi, int_of_mem, int_to_mem. cbv zeta.
  rewrite swap4_rev by apply length_to_mem. by rewrite of_mem_rev_to_mem.
Qed.

Lemma swapf_mirror m f : swapf m f = float_to_double (mirror 4 f).
Proof.
  unfold swapf. cbv zeta.
  rewrite swap4_rev by apply length_to_mem. by rewrite of_mem_rev_to_mem.
Qed.

Lemma bits_of_int_of_bits p : is_bits32 p -> bits_of_int (int_of_bits p) = p.
Proof.
  unfold is_bits32, bits_of_int, int_of_bits. intros Hp.
  destruct (Z.ltb_spec p (2 ^ 31)).
  - apply Z.mod_small; lia.
  - replace (p - 2 ^ 32) with (p + (-1) * 2 ^ 32) by lia.
    rewrite Z.mod_add by lia. apply Z.mod_small; lia.
Qed.

Lemma int_of_bits_of_int i : is_int i -> int_of_bits (bits_of_int i) = i.
Proof.
  unfold is_int, bits_of_int, int_of_bits. intros Hi.
  destruct (Z.ltb_spec (i mod 2 ^ 32) (2 ^ 31)) as [H|H];
    pose proof (Z.mod_pos_bound i (2 ^ 32) ltac:(lia));
    pose proof (Z.div_mod i (2 ^ 32) ltac:(lia)); lia.
Qed.

Lemma bits_of_int_range i : is_bits32 (bits_of_int i).
Proof. unfold is_bits32, bits_of_int. apply Z.mod_pos_bound. lia. Qed.

Lemma int_of_bits_range p : is_bits32 p -> is_int (int_of_bits p).
Proof.
  unfold is_bits32, is_int, int_of_bits. intros Hp.
  destruct (Z.ltb_spec p (2 ^ 31)); lia.
Qed.

Lemma swapi_involutive m i : is_int i -> swapi m (swapi m i) = i.
Proof.
  intros Hi. rewrite !swapi_mirror.
  rewrite bits_of_int_of_bits by (apply (mirror_bound 4)).
  rewrite mirror_involutive by (apply (bits_of_int_range i)).
  by apply int_of_bits_of_int.
Qed.

Lemma swapd_involutive m d : is_bits64 d -> swapd m (swapd m d) = d.
Proof.
  intros Hd. rewrite !swapd_mirror. apply mirror_involutive. exact Hd.
Qed.

(** ** Conversions between float and double *)

Lemma mk_double_fields s e fr :
  0 <= s <= 1 -> 0 <= e < 2048 -> 0 <= fr < 2 ^ 52 ->
  dbl_sign (mk_double s e fr) = s /\
  dbl_exp (mk_double s e fr) = e /\
  dbl_frac (mk_double s e fr) = fr.
Proof.
  intros Hs He Hf. unfold dbl_sign, dbl_exp, dbl_frac, mk_double.
  change (2 ^ 63) with 9223372036854775808.
  change (2 ^ 52) with 4503599627370496 in *.
  repeat split; Z.div_mod_to_equations; lia.
Qed.

Lemma float_fields f :
  is_bits32 f ->
  f = mk_float (flt_sign f) (flt_exp f) (flt_frac f) /\
  0 <= flt_sign f <= 1 /\ 0 <= flt_exp f < 256 /\ 0 <= flt_frac f < 2 ^ 23.
Proof.
  unfold is_bits32, mk_float, flt_sign, flt_exp, flt_frac.
  change (2 ^ 32) with 4294967296. change (2 ^ 31) with 2147483648.
  change (2 ^ 23) with 8388608.
  intros Hf. repeat split; Z.div_mod_to_equations; lia.
Qed.

Lemma round_shift_exact q shift :
  0 < shift -> 0 <= q -> round_shift (q * 2 ^ shift) shift = q.
Proof.
  intros Hs Hq. unfold round_shift.
  assert (0 < 2 ^ shift) by (apply Z.pow_pos_nonneg; lia).
  assert (0 < 2 ^ (shift - 1)) by (apply Z.pow_pos_nonneg; lia).
  rewrite Z.div_mul, Z.mod_mul by lia.
  destruct (Z.ltb_spec (2 ^ (shift - 1)) 0); [lia|].
  destruct (Z.eqb_spec 0 (2 ^ (shift - 1))); [lia|]. reflexivity.
Qed.

Lemma double_to_float_to_double f :
  is_bits32 f -> double_to_float (float_to_double f) = f.
Proof.
  intros Hf. destruct (float_fields f Hf) as (Heq & Hs & He & Hm).
  unfold float_to_double. cbv zeta.
  set (s := flt_sign f) in *. set (e := flt_exp f) in *. set (m := flt_frac f) in *.
  clearbody s e m.
  change (2 ^ 23) with 8388608 in Hm.
  destruct (Z.eqb_spec e 255) as [E255|E255].
  { (* infinities and NaNs *)
    destruct (mk_double_fields s 2047 (m * 2 ^ 29)) as (H1 & H2 & H3);
      [lia | lia | change (2 ^ 29) with 536870912; change (2 ^ 52) with 4503599627370496; lia |].
    unfold double_to_float. cbv zeta. rewrite H1, H2, H3. simpl (2047 =? 2047).
    cbv iota.
    destruct (Z.eqb_spec (m * 2 ^ 29) 0) as [Hz|Hz].
    - subst f e. unfold mk_float. lia.
    - rewrite Z.div_mul by lia.
      destruct (Z.eqb_spec m 0); [lia|]. by subst f e. }
  destruct (Z.eqb_spec e 0) as [E0|E0].
  { destruct (Z.eqb_spec m 0) as [M0|M0].
    - (* zeros *)
      destruct (mk_double_fields s 0 0) as (H1 & H2 & H3); [lia | lia | lia |].
      unfold double_to_float. cbv zeta. rewrite H1, H2. simpl. by subst f e m.
    - (* subnormal floats *)
      assert (Hm' : 0 < m) by lia.
      pose proof (Z.log2_spec m Hm') as Hlog.
      pose proof (Z.log2_nonneg m) as Hk0.
      assert (Hk : Z.log2 m < 23).
      { apply Z.log2_lt_pow2; [lia|]. change (2 ^ 23) with 8388608. lia. }
      set (k := Z.log2 m) in *. clearbody k.
      assert (Hp : 0 < 2 ^ (52 - k)) by (apply Z.pow_pos_nonneg; lia).
      assert (Hpk : 2 ^ k * 2 ^ (52 - k) = 2 ^ 52).
      { rewrite <- Z.pow_add_r by lia. f_equal. lia. }
      rewrite Z.pow_succ_r in Hlog by lia.
      destruct (mk_double_fields s (k - 149 + 1023) ((m - 2 ^ k) * 2 ^ (52 - k)))
        as (H1 & H2 & H3); [lia | lia | nia |].
      unfold double_to_float. cbv zeta. rewrite H1, H2, H3.
      destruct (Z.eqb_spec (k - 149 + 1023) 2047); [lia|].
      destruct (Z.eqb_spec (k - 149 + 1023) 0); [lia|].
      destruct (Z.ltb_spec (k - 149 + 1023 - 1023) (-126)); [|lia].
      replace (29 + (-126 - (k - 149 + 1023 - 1023))) with (52 - k) by lia.
      destruct (Z.ltb_spec 54 (52 - k)); [lia|].
      replace (2 ^ 52 + (m - 2 ^ k) * 2 ^ (52 - k)) with (m * 2 ^ (52 - k)) by lia.
      rewrite round_shift_exact by lia. subst f e. unfold mk_float. lia. }
  (* normal floats *)
  destruct (mk_double_fields s (e - 127 + 1023) (m * 2 ^ 29)) as (H1 & H2 & H3);
    [lia | lia | change (2 ^ 29) with 536870912; change (2 ^ 52) with 4503599627370496; lia |].
  unfold double_to_float. cbv zeta. rewrite H1, H2, H3.
  destruct (Z.eqb_spec (e - 127 + 1023) 2047); [lia|].
  destruct (Z.eqb_spec (e - 127 + 1023) 0); [lia|].
  destruct (Z.ltb_spec (e - 127 + 1023 - 1023) (-126)); [lia|].
  rewrite round_shift_exact by lia.
  replace (e - 127 + 1023 - 1023 + 127) with e by lia.
  destruct (Z.leb_spec (mk_float s 255 0) (mk_float s e 0 + m)) as [Hle|Hle].
  - unfold mk_float in Hle. lia.
  - subst f. unfold mk_float. lia.
Qed.

Lemma mirror4_bits32 x : is_bits32 (mirror 4 x).
Proof. apply (mirror_bound 4). Qed.

Lemma swapf_involutive m f :
  is_bits32 f -> swapf m (double_to_float (swapf m f)) = float_to_double f.
Proof.
  intros Hf. rewrite !swapf_mirror.
  rewrite double_to_float_to_double by apply mirror4_bits32.
  by rewrite mirror_involutive.
Qed.

(** ** Running the primitives *)

Lemma bind_Ok {A B} (c : io A) (k : A -> io B) fp a fp' :
  c fp = Ok a fp' -> bind c k fp = k a fp'.
Proof. unfold bind. by intros ->. Qed.

Lemma bind_Err {A B} (c : io A) (k : A -> io B) fp e fp' :
  c fp = Err e fp' -> bind c k fp = Err e fp'.
Proof. unfold bind. by intros ->. Qed.

Lemma fread_app n bs rest :
  length bs = n -> n <> 0%nat -> fread n (bs ++ rest) = Ok bs rest.
Proof.
  intros Hn Hz. unfold fread.
  destruct (Nat.eqb_spec n 0); [contradiction|].
  destruct (Nat.leb_spec n (length (bs ++ rest))) as [_|Hlt].
  - subst n. by rewrite take_app_length, drop_app_length.
  - rewrite length_app in Hlt. lia.
Qed.

Lemma InByteBinary_cons naok b rest :
  InByteBinary naok (b :: rest) =
  Ok (if (b =? STATA_BYTE_NA) && negb naok then NA_INTEGER else b) rest.
Proof. reflexivity. Qed.

Lemma InShortIntBinary_cons stata_endian naok swapends b1 b2 rest :
  InShortIntBinary stata_endian naok swapends (b1 :: b2 :: rest) =
  let result :=
    if stata_endian =? LOHI
    then to_ushort (Z.lor (Z.shiftl (to_ushort b1) 8) (to_ushort b2))
    else to_ushort (Z.lor (Z.shiftl (to_ushort b2) 8) (to_ushort b1)) in
  Ok (if (result =? STATA_SHORTINT_NA) && negb naok then NA_INTEGER else result) rest.
Proof.
  unfold InShortIntBinary, bind.
  rewrite InByteBinary_cons. simpl negb. rewrite andb_false_r.
  rewrite InByteBinary_cons. simpl negb. rewrite andb_false_r.
  reflexivity.
Qed.

Lemma InIntegerBinary_app m naok swapends bs rest :
  length bs = 4%nat ->
  InIntegerBinary m naok swapends (bs ++ rest) =
  let i := int_of_mem m bs in
  let i := if swapends then swapi m i else i in
  Ok (if (i =? STATA_INT_NA) && negb naok then NA_INTEGER else i) rest.
Proof.
  intros H. unfold InIntegerBinary.
  by rewrite (bind_Ok _ _ _ _ _ (fread_app 4 bs rest H ltac:(lia))).
Qed.

Lemma InDoubleBinary_app m naok swapends bs rest :
  length bs = 8%nat ->
  InDoubleBinary m naok swapends (bs ++ rest) =
  let i := of_mem m bs in
  let i := if swapends then swapd m i else i in
  Ok (if double_eq i STATA_DOUBLE_NA && negb naok then NA_REAL else i) rest.
Proof.
  intros H. unfold InDoubleBinary.
  by rewrite (bind_Ok _ _ _ _ _ (fread_app 8 bs rest H ltac:(lia))).
Qed.

Lemma fwrite_exact bs n fp :
  length bs = n -> n <> 0%nat -> fwrite bs n fp = Ok tt (fp ++ bs).
Proof.
  intros Hn Hz. unfold fwrite.
  destruct (Nat.eqb_spec n 0); [contradiction|].
  destruct (Nat.leb_spec n (length bs)); [|lia].
  subst n. by rewrite firstn_all.
Qed.

Lemma OutIntegerBinary_run m i naok fp :
  OutIntegerBinary m i naok fp =
  Ok tt (fp ++ int_to_mem m (if (i =? NA_INTEGER) && negb naok then STATA_INT_NA else i)).
Proof.
  unfold OutIntegerBinary. apply fwrite_exact; [apply length_to_mem | lia].
Qed.

Lemma OutDoubleBinary_run m d naok fp :
  OutDoubleBinary m d naok fp =
  Ok tt (fp ++ to_mem m 8 (if R_FINITE d then d else STATA_DOUBLE_NA)).
Proof.
  unfold OutDoubleBinary. apply fwrite_exact; [apply length_to_mem | lia].
Qed.

Lemma OutByteBinary_run i fp : OutByteBinary i fp = Ok tt (fp ++ [to_uchar i]).
Proof. reflexivity. Qed.

Lemma OutShortIntBinary_run endian i fp :
  OutShortIntBinary endian i fp =
  Ok tt (fp ++ (if endian =? LOHI
                then [to_uchar (Z.shiftr i 8); to_uchar (Z.land i 0xff)]
                else [to_uchar (Z.land i 0xff); to_uchar (Z.shiftr i 8)])).
Proof.
  unfold OutShortIntBinary, bind, fwrite. simpl.
  rewrite <- app_assoc. by destruct (endian =? LOHI).
Qed.

(** ** Values across machines *)

Lemma of_mem_to_mem_cross m m' n x :
  0 <= x < 256 ^ Z.of_nat n ->
  of_mem m' (to_mem m n x) = if swapends_of m' m then mirror n x else x.
Proof.
  intros Hx. destruct m, m'; simpl; unfold mirror;
    rewrite ?rev_involutive; try reflexivity; by apply le_value_le_bytes.
Qed.

Lemma read_double_written m m' d :
  is_bits64 d ->
  (if swapends_of m' m then swapd m' (of_mem m' (to_mem m 8 d))
   else of_mem m' (to_mem m 8 d)) = d.
Proof.
  intros Hd. rewrite of_mem_to_mem_cross by exact Hd.
  destruct (swapends_of m' m); [|reflexivity].
  rewrite swapd_mirror. by apply mirror_involutive.
Qed.

Lemma read_int_written m m' i :
  is_int i ->
  (if swapends_of m' m then swapi m' (int_of_mem m' (int_to_mem m i))
   else int_of_mem m' (int_to_mem m i)) = i.
Proof.
  intros Hi. unfold int_of_mem, int_to_mem.
  rewrite of_mem_to_mem_cross by apply (bits_of_int_range i).
  destruct (swapends_of m' m).
  - rewrite swapi_mirror, bits_of_int_of_bits by apply mirror4_bits32.
    rewrite mirror_involutive by apply (bits_of_int_range i).
    by apply int_of_bits_of_int.
  - by apply int_of_bits_of_int.
Qed.

(** ** Shorts *)

Lemma lor_shiftl_8 hi lo :
  0 <= lo < 256 -> Z.lor (Z.shiftl hi 8) lo = hi * 256 + lo.
Proof.
  intros Hlo.
  assert (Hand : Z.land (Z.shiftl hi 8) lo = 0).
  { apply Z.bits_inj'. intros n Hn. rewrite Z.land_spec, Z.bits_0.
    destruct (Z.lt_ge_cases n 8).
    - by rewrite Z.shiftl_spec_low.
    - replace (Z.testbit lo n) with false; [apply andb_false_r|].
      symmetry. destruct (Z.eq_dec lo 0) as [->|]; [apply Z.bits_0|].
      apply Z.bits_above_log2; [lia|].
      apply Z.log2_lt_pow2; [lia|].
      assert (2 ^ 8 <= 2 ^ n) by (apply Z.pow_le_mono_r; lia).
      change (2 ^ 8) with 256 in *. lia. }
  pose proof (Z.add_lor_land (Z.shiftl hi 8) lo) as Hadd.
  rewrite Hand in Hadd. rewrite (Z.shiftl_mul_pow2 hi 8) in Hadd |- * by lia.
  change (2 ^ 8) with 256 in Hadd |- *. lia.
Qed.

Lemma InShortIntBinary_file_bytes stata_endian swapends v rest :
  0 <= v < 65536 ->
  InShortIntBinary stata_endian true swapends (short_file_bytes stata_endian v ++ rest)
  = Ok v rest.
Proof.
  intros Hv. unfold short_file_bytes.
  assert (0 <= v / 256 < 256) by (split; [apply Z.div_pos | apply Z.div_lt_upper_bound]; lia).
  assert (0 <= v mod 256 < 256) by (apply Z.mod_pos_bound; lia).
  pose proof (Z.div_mod v 256 ltac:(lia)).
  destruct (Z.eqb_spec stata_endian LOHI) as [E|E]; simpl app;
    rewrite InShortIntBinary_cons; cbv zeta;
    destruct (Z.eqb_spec stata_endian LOHI); try contradiction;
    rewrite andb_false_r; unfold to_ushort;
    rewrite (Z.mod_small (v / 256)), (Z.mod_small (v mod 256)) by lia;
    rewrite lor_shiftl_8 by lia; rewrite Z.mod_small by lia; f_equal; lia.
Qed.

Lemma OutShortIntBinary_file_bytes endian v :
  0 <= v < 65536 ->
  written (OutShortIntBinary endian v) = short_file_bytes endian v.
Proof.
  intros Hv. unfold written. rewrite OutShortIntBinary_run. simpl.
  unfold short_file_bytes, to_uchar.
  rewrite Z.shiftr_div_pow2 by lia. change (2 ^ 8) with 256.
  change 255 with (Z.ones 8). rewrite Z.land_ones by lia. change (2 ^ 8) with 256.
  assert (0 <= v / 256 < 256) by (split; [apply Z.div_pos | apply Z.div_lt_upper_bound]; lia).
  rewrite Z.mod_mod by lia. rewrite (Z.mod_small (v / 256)) by lia.
  by destruct (endian =? LOHI).
Qed.

Lemma short_cross_spec v :
  0 <= v < 65536 -> short_cross v = (v mod 256) * 256 + v / 256.
Proof.
  intros Hv. unfold short_cross.
  rewrite OutShortIntBinary_file_bytes by exact Hv.
  change (short_file_bytes LOHI v) with [v / 256; v mod 256].
  rewrite InShortIntBinary_cons. cbv zeta. change (HILO =? LOHI) with false.
  cbv iota. rewrite andb_false_r. simpl value_of.
  assert (0 <= v / 256 < 256) by (split; [apply Z.div_pos | apply Z.div_lt_upper_bound]; lia).
  assert (0 <= v mod 256 < 256) by (apply Z.mod_pos_bound; lia).
  unfold to_ushort.
  rewrite (Z.mod_small (v / 256)), (Z.mod_small (v mod 256)) by lia.
  rewrite lor_shiftl_8 by lia. apply Z.mod_small. lia.
Qed.

Lemma short_cross_involutive v :
  0 <= v < 65536 -> short_cross (short_cross v) = v.
Proof.
  intros Hv.
  assert (0 <= v / 256 < 256) by (split; [apply Z.div_pos | apply Z.div_lt_upper_bound]; lia).
  assert (0 <= v mod 256 < 256) by (apply Z.mod_pos_bound; lia).
  pose proof (Z.div_mod v 256 ltac:(lia)).
  rewrite (short_cross_spec v Hv).
  rewrite short_cross_spec by lia.
  replace ((v mod 256 * 256 + v / 256) mod 256) with (v / 256)
    by (rewrite Z.add_comm, Z.mod_add by lia; symmetry; apply Z.mod_small; lia).
  replace ((v mod 256 * 256 + v / 256) / 256) with (v mod 256)
    by (rewrite Z.add_comm, Z.div_add by lia; rewrite Z.div_small by lia; lia).
  lia.
Qed.



(** ** Sentinels and missing values *)

Lemma double_eq_sentinel d :
  double_eq d STATA_DOUBLE_NA = (d =? STATA_DOUBLE_NA).
Proof.
  unfold double_eq.
  change (dbl_isnan STATA_DOUBLE_NA) with false.
  change (dbl_iszero STATA_DOUBLE_NA) with false.
  rewrite andb_false_r, orb_false_r. simpl negb. rewrite andb_true_r.
  destruct (Z.eqb_spec d STATA_DOUBLE_NA) as [->|]; [reflexivity|].
  apply andb_false_r.
Qed.

Lemma written_OutIntegerBinary m i naok :
  written (OutIntegerBinary m i naok) =
  int_to_mem m (if (i =? NA_INTEGER) && negb naok then STATA_INT_NA else i).
Proof. unfold written. by rewrite OutIntegerBinary_run. Qed.

Lemma written_OutDoubleBinary m d naok :
  written (OutDoubleBinary m d naok) =
  to_mem m 8 (if R_FINITE d then d else STATA_DOUBLE_NA).
Proof. unfold written. by rewrite OutDoubleBinary_run. Qed.

Lemma read_written_int writer reader i rest :
  is_int i ->
  InIntegerBinary reader false (swapends_of reader writer)
    (written (OutIntegerBinary writer i false) ++ rest) =
  Ok (if i =? STATA_INT_NA then NA_INTEGER else i) rest.
Proof.
  intros Hi. rewrite written_OutIntegerBinary. simpl negb. rewrite andb_true_r.
  rewrite InIntegerBinary_app by apply length_to_mem. cbv zeta.
  destruct (Z.eqb_spec i NA_INTEGER) as [->|Hna].
  - rewrite (read_int_written writer reader STATA_INT_NA)
      by (unfold is_int, STATA_INT_NA; lia).
    reflexivity.
  - rewrite (read_int_written writer reader i Hi). by rewrite andb_true_r.
Qed.

Lemma read_written_double writer reader d rest :
  is_bits64 d ->
  InDoubleBinary reader false (swapends_of reader writer)
    (written (OutDoubleBinary writer d false) ++ rest) =
  Ok (if R_FINITE d && negb (d =? STATA_DOUBLE_NA) then d else NA_REAL) rest.
Proof.
  intros Hd. rewrite written_OutDoubleBinary.
  rewrite InDoubleBinary_app by apply length_to_mem. cbv zeta.
  destruct (R_FINITE d); simpl andb.
  - rewrite (read_double_written writer reader d Hd).
    rewrite double_eq_sentinel, andb_true_r. by destruct (d =? STATA_DOUBLE_NA).
  - rewrite (read_double_written writer reader STATA_DOUBLE_NA)
      by (unfold is_bits64, STATA_DOUBLE_NA; lia).
    reflexivity.
Qed.

Lemma float_to_double_finite f :
  is_bits32 f -> flt_exp f <> 255 ->
  is_bits64 (float_to_double f) /\ dbl_exp (float_to_double f) <= 1150.
Proof.
  intros Hf Hfin. destruct (float_fields f Hf) as (_ & Hs & He & Hm).
  unfold float_to_double. cbv zeta.
  set (s := flt_sign f) in *. set (e := flt_exp f) in *. set (m := flt_frac f) in *.
  clearbody s e m. change (2 ^ 23) with 8388608 in Hm.
  assert (Hbits : forall e' fr, 0 <= e' < 2048 -> 0 <= fr < 2 ^ 52 ->
                                is_bits64 (mk_double s e' fr)).
  { intros e' fr He' Hfr. unfold is_bits64, mk_double.
    change (2 ^ 52) with 4503599627370496 in *. lia. }
  destruct (Z.eqb_spec e 255); [contradiction|].
  destruct (Z.eqb_spec e 0).
  - destruct (Z.eqb_spec m 0).
    + destruct (mk_double_fields s 0 0) as (_ & H2 & _); [lia | lia | lia |].
      rewrite H2. split; [apply Hbits|]; lia.
    + assert (Hm' : 0 < m) by lia.
      pose proof (Z.log2_spec m Hm') as Hlog.
      pose proof (Z.log2_nonneg m) as Hk0.
      assert (Hk : Z.log2 m < 23).
      { apply Z.log2_lt_pow2; [lia|]. change (2 ^ 23) with 8388608. lia. }
      set (k := Z.log2 m) in *. clearbody k.
      assert (Hp : 0 < 2 ^ (52 - k)) by (apply Z.pow_pos_nonneg; lia).
      assert (Hpk : 2 ^ k * 2 ^ (52 - k) = 2 ^ 52).
      { rewrite <- Z.pow_add_r by lia. f_equal. lia. }
      rewrite Z.pow_succ_r in Hlog by lia.
      assert (Hfr : 0 <= (m - 2 ^ k) * 2 ^ (52 - k) < 2 ^ 52) by nia.
      destruct (mk_double_fields s (k - 149 + 1023) ((m - 2 ^ k) * 2 ^ (52 - k)))
        as (_ & H2 & _); [lia | lia | exact Hfr |].
      rewrite H2. split; [apply Hbits|]; lia.
  - assert (Hfr : 0 <= m * 2 ^ 29 < 2 ^ 52)
      by (change (2 ^ 29) with 536870912; change (2 ^ 52) with 4503599627370496; lia).
    destruct (mk_double_fields s (e - 127 + 1023) (m * 2 ^ 29)) as (_ & H2 & _);
      [lia | lia | exact Hfr |].
    rewrite H2. split; [apply Hbits|]; lia.
Qed.

(** C2, as stated, fails: plus infinity is a representable double other
    than the sentinel, and it is not restored by decoding its encoding. *)
Lemma infinity_is_not_restored :
  ~ (forall d, is_bits64 d -> d <> STATA_DOUBLE_NA ->
       InDoubleBinary LSB_first false false
         (written (OutDoubleBinary LSB_first d false)) = Ok d []).
Proof.
  intros H. specialize (H R_PosInf).
  assert (Hr : is_bits64 R_PosInf) by (unfold is_bits64, R_PosInf; lia).
  assert (Hn : R_PosInf <> STATA_DOUBLE_NA) by discriminate.
  specialize (H Hr Hn). vm_compute in H. discriminate H.
Qed.

(** C2, amended: for every [int] other than the sentinel 2147483647,
    every finite double other than the sentinel 2^1023, and every finite
    float once widened to the double the reader stores, decoding the
    encoding gives back the value exactly, whatever the byte orders of
    the writing and of the reading machine; the sentinel of either
    kind comes back as the missing value. *)
Theorem finite_value_roundtrip (writer reader : machine) (rest : stream) :
  let sw := swapends_of reader writer in
  (forall i, is_int i -> i <> STATA_INT_NA ->
     InIntegerBinary reader false sw
       (written (OutIntegerBinary writer i false) ++ rest) = Ok i rest) /\
  (forall d, is_bits64 d -> R_FINITE d = true -> d <> STATA_DOUBLE_NA ->
     InDoubleBinary reader false sw
       (written (OutDoubleBinary writer d false) ++ rest) = Ok d rest) /\
  (forall f, is_bits32 f -> flt_exp f <> 255 ->
     InDoubleBinary reader false sw
       (written (OutDoubleBinary writer (float_to_double f) false) ++ rest)
     = Ok (float_to_double f) rest) /\
  InIntegerBinary reader false sw
    (written (OutIntegerBinary writer STATA_INT_NA false) ++ rest)
  = Ok NA_INTEGER rest /\
  InDoubleBinary reader false sw
    (written (OutDoubleBinary writer STATA_DOUBLE_NA false) ++ rest)
  = Ok NA_REAL rest.
Proof.
  cbv zeta. split; [|split; [|split; [|split]]].
  - intros i Hi Hne. rewrite read_written_int by exact Hi.
    destruct (Z.eqb_spec i STATA_INT_NA); [contradiction | reflexivity].
  - intros d Hd Hfin Hne. rewrite read_written_double by exact Hd.
    rewrite Hfin. destruct (Z.eqb_spec d STATA_DOUBLE_NA); [contradiction | reflexivity].
  - intros f Hf Hfin.
    destruct (float_to_double_finite f Hf Hfin) as [Hd Hexp].
    rewrite read_written_double by exact Hd.
    unfold R_FINITE.
    destruct (Z.eqb_spec (dbl_exp (float_to_double f)) 2047) as [E|_]; [lia|].
    destruct (Z.eqb_spec (float_to_double f) STATA_DOUBLE_NA) as [E|_]; [|reflexivity].
    rewrite E in Hexp. vm_compute in Hexp. by destruct Hexp.
  - by rewrite read_written_int by (unfold is_int, STATA_INT_NA; lia).
  - by rewrite read_written_double by (unfold is_bits64, STATA_DOUBLE_NA; lia).
Qed.

Lemma finite_value_roundtrip_witness :
  InIntegerBinary MSB_first false (swapends_of MSB_first LSB_first)
    (written (OutIntegerBinary LSB_first (-5) false) ++ [7]) = Ok (-5) [7] /\
  InDoubleBinary MSB_first false (swapends_of MSB_first LSB_first)
    (written (OutDoubleBinary LSB_first one_double false) ++ [7]) = Ok one_double [7] /\
  InDoubleBinary MSB_first false (swapends_of MSB_first LSB_first)
    (written (OutDoubleBinary LSB_first (float_to_double float_sentinel) false) ++ [7])
  = Ok (float_to_double float_sentinel) [7].
Proof.
  destruct (finite_value_roundtrip LSB_first MSB_first [7]) as (Hi & Hd & Hf & _).
  split; [|split].
  - apply Hi; [unfold is_int; lia | discriminate].
  - apply Hd; [unfold is_bits64, one_double; lia | reflexivity | discriminate].
  - apply Hf; [unfold is_bits32, float_sentinel; lia | vm_compute; discriminate].
Defined.

(** C8: encode maps every non-finite double (plus infinity, minus
    infinity and every NaN, of which R's missing value is only one) to
    the double sentinel 2^1023, at the primitive and in a cell of a real
    column, so that decoding the encoding gives the missing value. *)
Theorem non_finite_becomes_missing (writer reader : machine) (d : Z) (rest : stream) :
  is_bits64 d ->
  d = R_PosInf \/ d = R_NegInf \/ ISNAN d = true ->
  written (OutDoubleBinary writer d false) = to_mem writer 8 STATA_DOUBLE_NA /\
  (forall df types i j v fp,
     df !! j = Some (REALSXP v) -> v !! i = Some d ->
     write_cell writer df types i j tt fp = Ok tt (fp ++ to_mem writer 8 STATA_DOUBLE_NA)) /\
  InDoubleBinary reader false (swapends_of reader writer)
    (written (OutDoubleBinary writer d false) ++ rest) = Ok NA_REAL rest /\
  R_IsNA NA_REAL = true.
Proof.
  intros Hd Hnf.
  assert (Hfin : R_FINITE d = false).
  { unfold R_FINITE. destruct Hnf as [-> | [-> | Hnan]]; [reflexivity | reflexivity |].
    unfold ISNAN, dbl_isnan in Hnan. apply andb_prop in Hnan as [-> _]. reflexivity. }
  split; [|split; [|split]].
  - by rewrite written_OutDoubleBinary, Hfin.
  - intros df types i j v fp Hj Hi. unfold write_cell, elt.
    rewrite Hj. unfold bind at 1, ret. cbv iota beta.
    rewrite Hi. unfold bind, ret. by rewrite OutDoubleBinary_run, Hfin.
  - rewrite read_written_double by exact Hd. by rewrite Hfin.
  - reflexivity.
Qed.

Lemma non_finite_becomes_missing_witness :
  written (OutDoubleBinary LSB_first R_NegInf false) = to_mem LSB_first 8 STATA_DOUBLE_NA /\
  InDoubleBinary MSB_first false (swapends_of MSB_first LSB_first)
    (written (OutDoubleBinary LSB_first R_NegInf false) ++ [1; 2]) = Ok NA_REAL [1; 2].
Proof.
  assert (Hd : is_bits64 R_NegInf) by (unfold is_bits64, R_NegInf; lia).
  destruct (non_finite_becomes_missing LSB_first MSB_first R_NegInf [1; 2] Hd
              (or_intror (or_introl eq_refl))) as (H1 & _ & H3 & _).
  split; [exact H1 | exact H3].
Defined.

(** ** Decoding and encoding the sentinels *)

Lemma InFloatBinary_app m naok swapends bs rest :
  length bs = 4%nat ->
  InFloatBinary m naok swapends (bs ++ rest) =
  let i := of_mem m bs in
  let i := if swapends then double_to_float (swapf m i) else i in
  Ok (if double_eq (float_to_double i) STATA_FLOAT_NA && negb naok
      then double_to_float NA_REAL else i) rest.
Proof.
  intros H. unfold InFloatBinary.
  by rewrite (bind_Ok _ _ _ _ _ (fread_app 4 bs rest H ltac:(lia))).
Qed.

Lemma length_file_bytes m swapends n x : length (file_bytes m swapends n x) = n.
Proof.
  unfold file_bytes. destruct swapends; rewrite ?length_rev; apply length_to_mem.
Qed.

Lemma read_cell_fixed m stata_endian swapends types i j df :
  let store_int v := ret (<[j := set_INTEGER (VECTOR_ELT df j) i v]> df) in
  let store_real v := ret (<[j := set_REAL (VECTOR_ELT df j) i v]> df) in
  (nth j types 0 = STATA_FLOAT ->
   read_cell m stata_endian swapends types i j df =
   bind (InFloatBinary m false swapends) (fun v => store_real (float_to_double v))) /\
  (nth j types 0 = STATA_DOUBLE ->
   read_cell m stata_endian swapends types i j df =
   bind (InDoubleBinary m false swapends) store_real) /\
  (nth j types 0 = STATA_INT ->
   read_cell m stata_endian swapends types i j df =
   bind (InIntegerBinary m false swapends) store_int) /\
  (nth j types 0 = STATA_SHORTINT ->
   read_cell m stata_endian swapends types i j df =
   bind (InShortIntBinary stata_endian false swapends) store_int) /\
  (nth j types 0 = STATA_BYTE ->
   read_cell m stata_endian swapends types i j df =
   bind (InByteBinary false) store_int).
Proof.
  cbv zeta. unfold read_cell.
  split; [|split; [|split; [|split]]]; intros ->; reflexivity.
Qed.




(** ** The version byte *)

Lemma setup_consts_total m : setup_consts m = Some (endian_of m).
Proof. by destruct m. Qed.

(** C4: a stream whose first byte is neither 0x69 (version 5) nor 0x6C
    (the letter l, version 6) is rejected with the error "Not a Stata v5
    or v6 file", and nothing but that first byte has been read. *)
Theorem unsupported_version_is_rejected (m : machine) (b : Z) (rest : stream) :
  b <> 0x69 -> b <> 0x6C ->
  R_LoadStataData m (b :: rest) = Err NotStataError rest.
Proof.
  intros H5 H6. unfold R_LoadStataData. rewrite setup_consts_total.
  unfold read_header, bind. rewrite InByteBinary_cons.
  simpl negb. rewrite andb_false_r.
  destruct (Z.eqb_spec b 105); [contradiction|].
  change (chr "l") with 108.
  destruct (Z.eqb_spec b 108); [contradiction|].
  reflexivity.
Qed.

Lemma unsupported_version_is_rejected_witness :
  R_LoadStataData LSB_first [0x71; 2; 1; 0; 0; 0] = Err NotStataError [2; 1; 0; 0; 0].
Proof.
  apply unsupported_version_is_rejected; discriminate.
Defined.

(** ** Type tags *)

Lemma read_type_cons nobs i st tag rest :
  read_type nobs i st (tag :: rest) =
  let df := st.1 in
  let types := <[i := tag]> st.2 in
  (if (tag =? STATA_FLOAT) || (tag =? STATA_DOUBLE) then
     (v <- allocVector 0 nobs ;; ret (<[i := REALSXP v]> df, types))
   else if (tag =? STATA_INT) || (tag =? STATA_SHORTINT) || (tag =? STATA_BYTE) then
     (v <- allocVector 0 nobs ;; ret (<[i := INTSXP v]> df, types))
   else if tag <? STATA_STRINGOFFSET then fail UnknownDataType
   else (v <- allocVector [] nobs ;; ret (<[i := STRSXP v]> df, types))) rest.
Proof.
  unfold read_type. unfold bind at 1. rewrite InByteBinary_cons.
  simpl negb. by rewrite andb_false_r.
Qed.

Lemma allocVector_run {A} (dflt : A) n fp :
  allocVector dflt n fp =
  if n <? 0 then Err NegativeLength fp else Ok (replicate (Z.to_nat n) dflt) fp.
Proof. unfold allocVector. by destruct (n <? 0). Qed.

Lemma read_cell_string m stata_endian swapends types i j df cell rest :
  STATA_STRINGOFFSET < nth j types 0 ->
  length cell = Z.to_nat (nth j types 0 - STATA_STRINGOFFSET) ->
  read_cell m stata_endian swapends types i j df (cell ++ rest) =
  Ok (<[j := SET_STRING_ELT (VECTOR_ELT df j) i (cell ++ [0])]> df) rest.
Proof.
  unfold STATA_STRINGOFFSET. intros Ht Hlen. unfold read_cell.
  set (t := nth j types 0) in *. clearbody t.
  unfold STATA_FLOAT, STATA_DOUBLE, STATA_INT, STATA_SHORTINT, STATA_BYTE,
    STATA_STRINGOFFSET.
  repeat match goal with
         | |- context [?a =? ?b] => destruct (Z.eqb_spec a b); [lia|]
         end.
  cbv zeta. unfold InStringBinary, bind.
  rewrite fread_app by lia. unfold ret. do 2 f_equal.
  rewrite drop_replicate.
  replace (Z.to_nat (t - 127 + 1) - Z.to_nat (t - 127))%nat with 1%nat by lia.
  simpl replicate. rewrite insert_app_r_alt by lia.
  by replace (Z.to_nat (t - 127) - length cell)%nat with 0%nat by lia.
Qed.

(** A string column of width zero passes the descriptors, but none of
    its cells can be read: [fread] of an element of size zero reports
    that no element was read. *)
Lemma read_cell_empty_string m stata_endian swapends types i j df fp :
  nth j types 0 = STATA_STRINGOFFSET ->
  read_cell m stata_endian swapends types i j df fp = Err ReadError fp.
Proof. intros Ht. unfold read_cell. by rewrite Ht. Qed.

(** C10: at the time the descriptors are read, every type byte greater
    than or equal to 0x7f is accepted as a string column, 0x7f (width 0)
    and 0xff (width 128) included; a cell of such a column is read as
    [tag - 0x7f] bytes; and "Unknown data type" is raised exactly for
    the bytes below 0x7f that are not one of the five fixed-width
    tags. *)
Theorem string_tags_are_not_bounded
    (nobs : Z) (i : nat) (st : list SEXP * list Z) (tag : Z) (rest : stream) :
  (0 <= nobs -> STATA_STRINGOFFSET <= tag ->
   read_type nobs i st (tag :: rest) =
   Ok (<[i := STRSXP (replicate (Z.to_nat nobs) [])]> st.1, <[i := tag]> st.2) rest) /\
  (forall m stata_endian swapends types r j df cell,
     nth j types 0 = tag -> STATA_STRINGOFFSET < tag ->
     Z.of_nat (length cell) = tag - STATA_STRINGOFFSET ->
     read_cell m stata_endian swapends types r j df (cell ++ rest) =
     Ok (<[j := SET_STRING_ELT (VECTOR_ELT df j) r (cell ++ [0])]> df) rest) /\
  ((exists fp, read_type nobs i st (tag :: rest) = Err UnknownDataType fp) <->
   tag < STATA_STRINGOFFSET /\ ~ fixed_width_tag tag).
Proof.
  split; [|split].
  - intros Hn Ht. rewrite read_type_cons. cbv zeta.
    unfold STATA_FLOAT, STATA_DOUBLE, STATA_INT, STATA_SHORTINT, STATA_BYTE,
      STATA_STRINGOFFSET in *.
    repeat match goal with
           | |- context [?a =? ?b] => destruct (Z.eqb_spec a b); [lia|]
           end.
    destruct (Z.ltb_spec tag 127); [lia|]. cbv [orb]. cbv iota.
    unfold bind. rewrite allocVector_run.
    destruct (Z.ltb_spec nobs 0); [lia|]. reflexivity.
  - intros m stata_endian swapends types r j df cell Hj Ht Hlen.
    apply read_cell_string; rewrite Hj; [exact Ht | lia].
  - rewrite read_type_cons. cbv zeta. unfold fixed_width_tag.
    unfold STATA_FLOAT, STATA_DOUBLE, STATA_INT, STATA_SHORTINT, STATA_BYTE,
      STATA_STRINGOFFSET.
    assert (Halloc : forall (A : Type) (dflt : A) (k : list A -> io (list SEXP * list Z)),
              (forall v fp, exists a, k v fp = Ok a fp) ->
              ~ exists fp, bind (allocVector dflt nobs) k rest = Err UnknownDataType fp).
    { intros A dflt k Hk [fp Hfp]. unfold bind in Hfp. rewrite allocVector_run in Hfp.
      destruct (nobs <? 0); [discriminate Hfp|].
      destruct (Hk (replicate (Z.to_nat nobs) dflt) rest) as [a Ha].
      rewrite Ha in Hfp. discriminate Hfp. }
    destruct (Z.eqb_spec tag 102); [|destruct (Z.eqb_spec tag 100)];
      [| |destruct (Z.eqb_spec tag 108);
           [|destruct (Z.eqb_spec tag 105); [|destruct (Z.eqb_spec tag 98)]]];
      cbv [orb]; cbv iota;
      try (split; [intros Hex; exfalso; revert Hex; apply Halloc; by eexists
                  | intros [_ Hn]; exfalso; apply Hn; lia]).
    destruct (Z.ltb_spec tag 127).
    + split; [intros _|intros _; by eexists]. split; [lia|]. lia.
    + split; [intros Hex; exfalso; revert Hex; apply Halloc; by eexists
             | intros [Hlt _]; lia].
Qed.

Lemma string_tags_are_not_bounded_witness :
  read_type 2 0 ([NILSXP], [0]) [0x7f; 9] = Ok ([STRSXP [[]; []]], [0x7f]) [9] /\
  read_type 2 0 ([NILSXP], [0]) [0xff; 9] = Ok ([STRSXP [[]; []]], [0xff]) [9] /\
  read_cell LSB_first HILO false [0x81] 1 0 [STRSXP [[]; []]] ([104; 105] ++ [9]) =
  Ok [STRSXP [[]; [104; 105; 0]]] [9] /\
  (exists fp, read_type 2 0 ([NILSXP], [0]) [0x41; 9] = Err UnknownDataType fp).
Proof.
  destruct (string_tags_are_not_bounded 2 0 ([NILSXP], [0]) 0x7f [9]) as (H7f & _ & _).
  destruct (string_tags_are_not_bounded 2 0 ([NILSXP], [0]) 0xff [9]) as (Hff & _ & _).
  destruct (string_tags_are_not_bounded 2 0 ([NILSXP], [0]) 0x81 [9]) as (_ & Hcell & _).
  destruct (string_tags_are_not_bounded 2 0 ([NILSXP], [0]) 0x41 [9]) as (_ & _ & Hbad).
  split; [|split; [|split]].
  - apply H7f; [lia | unfold STATA_STRINGOFFSET; lia].
  - apply Hff; [lia | unfold STATA_STRINGOFFSET; lia].
  - apply (Hcell LSB_first HILO false [0x81] 1%nat 0%nat [STRSXP [[]; []]] [104; 105]);
      [reflexivity | unfold STATA_STRINGOFFSET; lia | reflexivity].
  - apply Hbad. split; [unfold STATA_STRINGOFFSET; lia|].
    unfold fixed_width_tag, STATA_FLOAT, STATA_DOUBLE, STATA_INT, STATA_SHORTINT,
      STATA_BYTE. lia.
Defined.

(** ** The characteristics block *)

Lemma for_from_skip_bytes payload i rest :
  for_from (length payload) i skip_byte tt (payload ++ rest) = Ok tt rest.
Proof.
  revert i. induction payload as [|b payload IH]; intros i; [reflexivity|].
  simpl length. simpl for_from. unfold bind at 1. unfold skip_byte at 1.
  unfold bind at 1. simpl app. rewrite InByteBinary_cons. unfold ret at 1. apply IH.
Qed.

Lemma skip_characteristics_records stata_endian swapends rs :
  Forall well_formed_record rs ->
  forall fuel rest,
    (length rs < fuel)%nat ->
    skip_characteristics fuel stata_endian swapends
      (characteristics_bytes stata_endian rs ++ 0 :: rest) = Ok tt rest.
Proof.
  induction 1 as [|[t payload] rs [Ht Hlen] _ IH]; intros fuel rest Hfuel.
  - destruct fuel as [|fuel]; [simpl in Hfuel; lia|]. reflexivity.
  - destruct fuel as [|fuel]; [simpl in Hfuel; lia|].
    simpl in Ht, Hlen. simpl length in Hfuel.
    unfold characteristics_bytes. simpl map. simpl concat.
    fold (characteristics_bytes stata_endian rs). unfold record_bytes. simpl fst. simpl snd.
    simpl skip_characteristics. rewrite <- !app_assoc. simpl app.
    unfold bind at 1. rewrite InByteBinary_cons. simpl negb. rewrite andb_false_r.
    destruct (Z.eqb_spec t 0); [contradiction|].
    unfold bind at 1.
    rewrite InShortIntBinary_file_bytes by lia.
    unfold bind at 1. unfold for_loop. rewrite Nat2Z.id.
    rewrite for_from_skip_bytes. apply IH. lia.
Qed.

Lemma length_characteristics_bytes stata_endian rs :
  (length rs <= length (characteristics_bytes stata_endian rs))%nat.
Proof.
  induction rs as [|r rs IH]; [simpl; lia|].
  unfold characteristics_bytes in *. cbn [map concat].
  rewrite length_app. unfold record_bytes at 1. cbn [length]. lia.
Qed.

Lemma read_characteristics_records stata_endian swapends rs len rest :
  Forall well_formed_record rs -> 0 <= len < 65536 ->
  read_characteristics stata_endian swapends
    (characteristics_bytes stata_endian rs ++
     0 :: short_file_bytes stata_endian len ++ rest) =
  if len =? 0 then Ok tt rest else Err Type0Characteristic rest.
Proof.
  intros Hrs Hlen. unfold read_characteristics. unfold bind at 1.
  rewrite (skip_characteristics_records stata_endian swapends rs Hrs).
  - unfold bind. rewrite InShortIntBinary_file_bytes by exact Hlen.
    by destruct (len =? 0).
  - rewrite length_app.
    pose proof (length_characteristics_bytes stata_endian rs). lia.
Qed.

(** C5: when the header and the descriptors of a file have been read,
    and what follows is a sequence of well-formed characteristic
    records, the zero byte that ends them, and a two-byte length that is
    not zero, the whole file is rejected with the error "Type 0
    characteristic of nonzero length", however well formed the records
    are. *)
Theorem nonzero_final_length_is_rejected
    (m : machine) (fp fp0 fp1 rest : stream) (h : header) (d : descriptors)
    (rs : list (Z * list Z)) (len : Z) :
  read_header m (endian_of m) fp = Ok h fp0 ->
  read_descriptors h fp0 = Ok d fp1 ->
  Forall well_formed_record rs ->
  0 < len < 65536 ->
  fp1 = characteristics_bytes (h_stata_endian h) rs ++
        0 :: short_file_bytes (h_stata_endian h) len ++ rest ->
  R_LoadStataData m fp = Err Type0Characteristic rest.
Proof.
  intros Hh Hd Hrs Hlen ->. unfold R_LoadStataData. rewrite setup_consts_total.
  rewrite (bind_Ok _ _ _ _ _ Hh), (bind_Ok _ _ _ _ _ Hd).
  apply bind_Err. rewrite read_characteristics_records by (trivial; lia).
  destruct (Z.eqb_spec len 0); [lia | reflexivity].
Qed.

Lemma nonzero_final_length_is_rejected_witness :
  R_LoadStataData LSB_first
    ([108; 2; 1; 0; 0; 0; 0; 0; 0; 0] ++ replicate 99 0 ++ [0; 0] ++
     [7; 2; 0; 65; 66] ++ [0; 5; 0] ++ [42])
  = Err Type0Characteristic [42].
Proof.
  set (file := [108; 2; 1; 0; 0; 0; 0; 0; 0; 0] ++ replicate 99 0 ++ [0; 0] ++
               [7; 2; 0; 65; 66] ++ [0; 5; 0] ++ [42]).
  pose (rh := read_header LSB_first (endian_of LSB_first) file).
  pose (h := value_of (mk_header false 0 false 0 0 [] []) rh).
  pose (rd := read_descriptors h (stream_of rh)).
  pose (d := value_of (mk_descriptors [] [] [] [] []) rd).
  apply (nonzero_final_length_is_rejected LSB_first file (stream_of rh) (stream_of rd)
           [42] h d [(7, [65; 66])] 5).
  - vm_compute. reflexivity.
  - vm_compute. reflexivity.
  - constructor; [|constructor]. split; simpl; [discriminate | lia].
  - lia.
  - vm_compute. reflexivity.
Defined.

(** ** Names *)

Lemma nameMangle_spec s len :
  nameMangle s len = map underscore_to_dot (take len s) ++ drop len s.
Proof.
  revert s; induction len as [|len IH]; intros [|c s]; simpl; try reflexivity.
  by rewrite IH.
Qed.

Lemma nameMangleOut_spec s len :
  nameMangleOut s len = map dot_to_underscore (take len s) ++ drop len s.
Proof.
  revert s; induction len as [|len IH]; intros [|c s]; simpl; try reflexivity.
  by rewrite IH.
Qed.

Lemma mkChar_underscore_to_dot s :
  mkChar (map underscore_to_dot s) = map underscore_to_dot (mkChar s).
Proof.
  induction s as [|c s IH]; [reflexivity|]. simpl.
  unfold underscore_to_dot at 1. change (chr "_") with 95. change (chr ".") with 46.
  destruct (Z.eqb_spec c 95) as [->|]; simpl; [by rewrite IH|].
  destruct (Z.eqb_spec c 0); [reflexivity|]. simpl. by rewrite IH.
Qed.

Lemma read_name_run i buf names bytes rest :
  length bytes = 9%nat -> length buf = 9%nat ->
  read_name i (buf, names) (bytes ++ rest) =
  Ok (map underscore_to_dot bytes,
      <[i := map underscore_to_dot (mkChar bytes)]> names) rest.
Proof.
  intros Hb Hbuf. unfold read_name, InStringBinary, bind.
  change (Z.to_nat 9) with 9%nat.
  rewrite fread_app by lia. unfold ret. simpl fst. simpl snd.
  change (Z.to_nat 9) with 9%nat.
  rewrite (drop_ge buf) by lia. rewrite app_nil_r.
  rewrite nameMangle_spec, take_ge, drop_ge, app_nil_r by lia.
  by rewrite mkChar_underscore_to_dot.
Qed.

Lemma length_strncpy_prefix (src : CHARSXP) n :
  length (take n (mkChar src ++ replicate n 0)) = n.
Proof. rewrite length_take, length_app, length_replicate. lia. Qed.

Lemma write_name_run names i name aname fp :
  names !! i = Some name -> length aname = 9%nat ->
  write_name names i aname fp =
  Ok (map dot_to_underscore (take 8 (mkChar name ++ replicate 8 0)) ++ drop 8 aname)
     (fp ++ map dot_to_underscore (take 8 (mkChar name ++ replicate 8 0)) ++ [0]).
Proof.
  intros Hi Ha. unfold write_name, elt. rewrite Hi. unfold bind at 1, ret at 1.
  unfold strncpy. rewrite nameMangleOut_spec.
  pose proof (length_strncpy_prefix name 8) as H8.
  rewrite take_app_length', drop_app_length' by (symmetry; exact H8).
  unfold bind at 1. unfold OutStringBinary. change (Z.to_nat 8) with 8%nat.
  unfold fwrite at 1. simpl (8 =? 0)%nat. cbv iota.
  set (w := map dot_to_underscore (take 8 (mkChar name ++ replicate 8 0))).
  assert (Hw : length w = 8%nat) by (unfold w; by rewrite length_map).
  destruct (Nat.leb_spec 8 (length (w ++ drop 8 aname))) as [_|Hlt];
    [|rewrite length_app in Hlt; lia].
  rewrite take_app_length' by (symmetry; exact Hw).
  unfold bind, ret. rewrite OutByteBinary_run. by rewrite <- app_assoc.
Qed.

(** C7: on decode every underscore of a variable name becomes a dot;
    on encode every dot of the (truncated, zero-padded) name becomes an
    underscore; so encoding then decoding does not restore every name:
    ["a_b.c"] comes back as ["a.b.c"]. *)
Theorem names_are_mangled :
  (forall i buf names bytes rest,
     length bytes = 9%nat -> length buf = 9%nat ->
     read_name i (buf, names) (bytes ++ rest) =
     Ok (map underscore_to_dot bytes,
         <[i := map underscore_to_dot (mkChar bytes)]> names) rest) /\
  (forall names i name aname fp,
     names !! i = Some name -> length aname = 9%nat ->
     stream_of (write_name names i aname fp) =
     fp ++ map dot_to_underscore (take 8 (mkChar name ++ replicate 8 0)) ++ [0]) /\
  (let name := bytes_of_string "a_b.c" in
   read_name 0 (replicate 9 0, [[]]) (written (write_name [name] 0 (replicate 9 0)))
   = Ok (bytes_of_string "a.b.c" ++ replicate 4 0, [bytes_of_string "a.b.c"]) [] /\
   bytes_of_string "a.b.c" <> name).
Proof.
  split; [|split].
  - apply read_name_run.
  - intros names i name aname fp Hi Ha. by rewrite (write_name_run _ _ _ _ _ Hi Ha).
  - split; [reflexivity | discriminate].
Qed.

Lemma names_are_mangled_witness :
  read_name 1 (replicate 9 0, [[]; []]) (bytes_of_string "a_b_c" ++ [0; 0; 0; 0] ++ [5]) =
  Ok (bytes_of_string "a.b.c" ++ [0; 0; 0; 0], [[]; bytes_of_string "a.b.c"]) [5] /\
  stream_of (write_name [bytes_of_string "x.y_z"] 0 (replicate 9 0) [1]) =
  [1] ++ bytes_of_string "x_y_z" ++ [0; 0; 0; 0].
Proof.
  destruct names_are_mangled as (Hr & Hw & _).
  split.
  - apply (Hr 1%nat (replicate 9 0) [[]; []] (bytes_of_string "a_b_c" ++ [0; 0; 0; 0]) [5]);
      reflexivity.
  - apply (Hw [bytes_of_string "x.y_z"] 0%nat (bytes_of_string "x.y_z")
             (replicate 9 0) [1]); reflexivity.
Defined.

(** ** The declared width of a string column *)

Lemma scan_length_loop (pre suf : list (list Z)) (k c : Z) fp :
  0 <= c ->
  for_from (length suf) (length pre) (scan_length (pre ++ suf)) (k, c) fp =
  Ok (match reverse suf with [] => k | l :: _ => Z.of_nat (length l) end,
      Z.max c (max_cell_length suf)) fp.
Proof.
  revert pre k c. induction suf as [|x suf IH]; intros pre k c Hc.
  - simpl. unfold ret, max_cell_length. simpl. f_equal. f_equal. lia.
  - simpl length. simpl for_from. unfold bind at 1. unfold scan_length at 1.
    unfold bind at 1, elt.
    rewrite lookup_app_r, Nat.sub_diag by lia.
    change ((x :: suf) !! 0%nat) with (Some x). cbv beta iota.
    unfold ret at 1. cbv beta iota. simpl fst. simpl snd.
    replace (pre ++ x :: suf) with ((pre ++ [x]) ++ suf) by (by rewrite <- app_assoc).
    replace (S (length pre)) with (length (pre ++ [x]))
      by (rewrite length_app; simpl; lia).
    unfold ret at 1. cbv beta iota.
    rewrite IH by (destruct (Z.ltb_spec c (Z.of_nat (length x))); lia). f_equal.
    f_equal.
    + rewrite reverse_cons. destruct (reverse suf) as [|l ls] eqn:E; reflexivity.
    + unfold max_cell_length. simpl.
      destruct (Z.ltb_spec c (Z.of_nat (length x))); lia.
Qed.

Lemma length_of_last_cell (v : list (list Z)) (k : Z) :
  match reverse v with [] => k | l :: _ => Z.of_nat (length l) end =
  match v with [] => k | _ :: _ => Z.of_nat (length (List.last v [])) end.
Proof.
  induction v as [|x v' _] using rev_ind; [reflexivity|].
  rewrite reverse_app, List.last_last. simpl. by destruct v'.
Qed.

(** What the loop over the types writes for a string column: the
    length of its last cell (or the stale value of [k] when the frame
    has no rows), not the largest length it has just computed. *)
Lemma write_type_string df i v st fp :
  df !! i = Some (STRSXP v) ->
  write_type df (Z.of_nat (length v)) i st fp =
  let k := match v with [] => st.1 | _ :: _ => Z.of_nat (length (List.last v [])) end in
  Ok (k, <[i := k]> st.2) (fp ++ [to_uchar (k + STATA_STRINGOFFSET)]).
Proof.
  intros Hi. unfold write_type, elt. rewrite Hi. unfold bind at 1, ret at 1.
  unfold bind at 1. unfold for_loop. rewrite Nat2Z.id.
  pose proof (scan_length_loop [] v st.1 0 fp ltac:(lia)) as Hloop. simpl in Hloop.
  rewrite Hloop. simpl fst. rewrite length_of_last_cell.
  unfold bind, ret. by rewrite OutByteBinary_run.
Qed.

(** C1, at the failing input: a frame whose only column holds the
    strings ["cde"] and ["ab"] is written with the type byte 0x7f + 2,
    the length of the last cell, although the longest cell has 3
    characters; the first row then fills 3 bytes of a column declared 2
    bytes wide. *)
Theorem string_width_is_that_of_the_last_cell :
  let v := [bytes_of_string "cde"; bytes_of_string "ab"] in
  let d := data_frame_of [STRSXP v] [bytes_of_string "s"] in
  exists out,
    R_SaveStataData LSB_first d [] = Ok tt out /\
    out !! 109%nat = Some (STATA_STRINGOFFSET + 2) /\
    max_cell_length v = 3 /\
    drop 228 out = bytes_of_string "cdeab".
Proof.
  cbv zeta. eexists. split; [vm_compute; reflexivity|].
  split; [reflexivity|]. split; reflexivity.
Qed.

(** ** Writing only appends *)

Lemma extends_ret {A} (a : A) : extends (ret a).
Proof. intros fp. exists []. simpl. by rewrite app_nil_r. Qed.

Lemma extends_fail {A} e : extends (@fail A e).
Proof. intros fp. exists []. simpl. by rewrite app_nil_r. Qed.

Lemma extends_bind {A B} (c : io A) (k : A -> io B) :
  extends c -> (forall a, extends (k a)) -> extends (bind c k).
Proof.
  intros Hc Hk fp. destruct (Hc fp) as [s1 H1]. unfold bind.
  destruct (c fp) as [a fp'|e fp']; simpl in H1; subst fp'.
  - destruct (Hk a (fp ++ s1)) as [s2 H2]. exists (s1 ++ s2).
    by rewrite H2, app_assoc.
  - by exists s1.
Qed.

Lemma extends_for_from {A} (body : nat -> A -> io A) n :
  (forall i a, extends (body i a)) -> forall i a, extends (for_from n i body a).
Proof.
  intros Hb. induction n as [|n IH]; intros i a; simpl.
  - apply extends_ret.
  - apply extends_bind; [apply Hb | intros a'; apply IH].
Qed.

Lemma extends_for_loop {A} (body : nat -> A -> io A) n a :
  (forall i a, extends (body i a)) -> extends (for_loop n body a).
Proof. intros Hb. by apply extends_for_from. Qed.

Lemma extends_fwrite buffer n : extends (fwrite buffer n).
Proof.
  intros fp. unfold fwrite.
  destruct (n =? 0)%nat; [exists []; simpl; by rewrite app_nil_r|].
  destruct (n <=? length buffer)%nat; [by eexists|].
  exists []. simpl. by rewrite app_nil_r.
Qed.

Lemma extends_elt {A} (v : list A) i : extends (elt v i).
Proof. unfold elt. destruct (v !! i); [apply extends_ret | apply extends_fail]. Qed.

Lemma extends_allocVector {A} (dflt : A) n : extends (allocVector dflt n).
Proof. unfold allocVector. destruct (n <? 0); [apply extends_fail | apply extends_ret]. Qed.

Lemma extends_sprintf buffer text : extends (sprintf buffer text).
Proof.
  unfold sprintf.
  destruct (length text + 1 <=? length buffer)%nat; [apply extends_ret | apply extends_fail].
Qed.

Lemma extends_OutByteBinary i : extends (OutByteBinary i).
Proof. apply extends_fwrite. Qed.

Lemma extends_OutIntegerBinary m i naok : extends (OutIntegerBinary m i naok).
Proof. apply extends_fwrite. Qed.

Lemma extends_OutDoubleBinary m d naok : extends (OutDoubleBinary m d naok).
Proof. apply extends_fwrite. Qed.

Lemma extends_OutStringBinary buffer n : extends (OutStringBinary buffer n).
Proof. apply extends_fwrite. Qed.

Create HintDb extends.
#[local] Hint Resolve extends_ret extends_fail extends_fwrite extends_elt
  extends_allocVector extends_sprintf extends_OutByteBinary
  extends_OutIntegerBinary extends_OutDoubleBinary extends_OutStringBinary : extends.

Ltac extends_step :=
  first [ apply extends_bind; [|intros ?]
        | apply extends_for_loop; intros ? ?
        | solve [auto with extends] ].

Lemma extends_write_type df nobs i st : extends (write_type df nobs i st).
Proof.
  unfold write_type. extends_step; [extends_step|].
  destruct a; repeat extends_step.
Qed.

Lemma extends_write_name names i aname : extends (write_name names i aname).
Proof. unfold write_name. repeat extends_step. Qed.

Lemma extends_write_zero i u : extends (write_zero i u).
Proof. apply extends_OutByteBinary. Qed.

Lemma extends_write_format df types format9g i strformat :
  extends (write_format df types format9g i strformat).
Proof.
  unfold write_format. extends_step; [extends_step|].
  destruct a; repeat extends_step.
Qed.

Lemma extends_write_label names i datalabel : extends (write_label names i datalabel).
Proof. unfold write_label. repeat extends_step. Qed.

Lemma extends_write_cell m df types i j u : extends (write_cell m df types i j u).
Proof.
  unfold write_cell. extends_step; [extends_step|].
  destruct a; repeat extends_step. apply extends_write_zero.
Qed.

Lemma extends_write_row m df types nvar i u : extends (write_row m df types nvar i u).
Proof. unfold write_row. apply extends_for_loop. intros. apply extends_write_cell. Qed.

Lemma extends_write_descriptors d nobs : extends (write_descriptors d nobs).
Proof.
  unfold write_descriptors. cbv zeta.
  repeat first [ apply extends_write_type | apply extends_write_name
               | apply extends_write_zero | apply extends_write_format
               | apply extends_write_label | apply extends_OutStringBinary
               | extends_step ].
Qed.

Lemma extends_write_data m df types nobs : extends (write_data m df types nobs).
Proof. unfold write_data. apply extends_for_loop. intros. apply extends_write_row. Qed.

(** ** The observation count *)

Lemma write_header_run m endian x0 cols fp :
  write_header m endian (x0 :: cols) fp =
  Ok (R_length x0)
     (fp ++ [108; to_uchar endian; 1; 0] ++
      written (OutShortIntBinary endian (Z.of_nat (length (x0 :: cols)))) ++
      int_to_mem m (R_length x0) ++
      char_array 81 "Written by R.              " ++ replicate 18 0).
Proof.
  unfold write_header, written.
  do 4 (unfold bind at 1; rewrite OutByteBinary_run).
  unfold bind at 1. rewrite !OutShortIntBinary_run.
  unfold bind at 1. unfold elt. change ((x0 :: cols) !! 0%nat) with (Some x0).
  cbv iota. unfold ret at 1.
  unfold bind at 1. rewrite OutIntegerBinary_run. simpl negb. rewrite andb_false_r.
  unfold bind at 1. unfold OutStringBinary.
  rewrite fwrite_exact by (try reflexivity; simpl; lia).
  unfold bind at 1. rewrite fwrite_exact by (try reflexivity; simpl; lia).
  unfold ret. f_equal. simpl stream_of. rewrite <- !app_assoc. reflexivity.
Qed.

(** *** Loops whose bodies agree *)

Lemma bind_ext {A B} (c c' : io A) (k k' : A -> io B) fp :
  c fp = c' fp -> (forall a fp', k a fp' = k' a fp') -> bind c k fp = bind c' k' fp.
Proof. intros Hc Hk. unfold bind. rewrite Hc. destruct (c' fp); [apply Hk | reflexivity]. Qed.

Lemma for_from_ext {A} (body body' : nat -> A -> io A) n :
  forall i a fp,
    (forall j a fp, (i <= j < i + n)%nat -> body j a fp = body' j a fp) ->
    for_from n i body a fp = for_from n i body' a fp.
Proof.
  induction n as [|n IH]; intros i a fp Hb; [reflexivity|]. simpl.
  apply bind_ext; [apply Hb; lia|]. intros a' fp'. apply IH.
  intros j a'' fp'' Hj. apply Hb. lia.
Qed.

Lemma for_loop_ext {A} (body body' : nat -> A -> io A) n a fp :
  (forall j a fp, (j < n)%nat -> body j a fp = body' j a fp) ->
  for_loop n body a fp = for_loop n body' a fp.
Proof. intros Hb. apply for_from_ext. intros j a' fp' Hj. apply Hb. lia. Qed.

Lemma elt_take {A} (v w : list A) n j fp :
  take n v = take n w -> (j < n)%nat -> elt v j fp = elt w j fp.
Proof.
  intros Htake Hj. unfold elt.
  rewrite <- (lookup_take_lt v n j), <- (lookup_take_lt w n j) by exact Hj.
  by rewrite Htake.
Qed.

Lemma same_upto_refl n x : same_upto n x x.
Proof. by destruct x. Qed.

Section agreeing_frames.
Variables (n : nat) (df df' : list SEXP).
Hypothesis Hsame : Forall2 (same_upto n) df df'.

Lemma elt_same_upto i fp :
  (elt df i fp = Err OutOfBounds fp /\ elt df' i fp = Err OutOfBounds fp) \/
  (exists x y, same_upto n x y /\ elt df i fp = Ok x fp /\ elt df' i fp = Ok y fp).
Proof using Hsame.
  unfold elt. pose proof (proj1 (Forall2_lookup _ _ _) Hsame i) as Hi.
  inversion Hi as [x y Hxy|]; [right; by exists x, y | by left].
Qed.

Lemma write_type_same i st fp :
  write_type df' (Z.of_nat n) i st fp = write_type df (Z.of_nat n) i st fp.
Proof using Hsame.
  unfold write_type.
  destruct (elt_same_upto i fp) as [[E E'] | (x & y & Hxy & E & E')];
    [by rewrite (bind_Err _ _ _ _ _ E), (bind_Err _ _ _ _ _ E')|];
    rewrite (bind_Ok _ _ _ _ _ E), (bind_Ok _ _ _ _ _ E').
  destruct x, y; simpl in Hxy; try contradiction; try reflexivity.
  apply bind_ext; [|reflexivity]. rewrite Nat2Z.id.
  apply for_loop_ext. intros j a fp' Hj. unfold scan_length.
  apply bind_ext; [|reflexivity]. symmetry. by apply (elt_take _ _ n).
Qed.

Lemma write_format_same types format9g i strformat fp :
  write_format df' types format9g i strformat fp =
  write_format df types format9g i strformat fp.
Proof using Hsame.
  unfold write_format.
  destruct (elt_same_upto i fp) as [[E E'] | (x & y & Hxy & E & E')];
    [by rewrite (bind_Err _ _ _ _ _ E), (bind_Err _ _ _ _ _ E')|];
    rewrite (bind_Ok _ _ _ _ _ E), (bind_Ok _ _ _ _ _ E').
  destruct x, y; simpl in Hxy; try contradiction; reflexivity.
Qed.

Lemma write_cell_same m types i j u fp :
  (i < n)%nat ->
  write_cell m df' types i j u fp = write_cell m df types i j u fp.
Proof using Hsame.
  intros Hi. unfold write_cell.
  destruct (elt_same_upto j fp) as [[E E'] | (x & y & Hxy & E & E')];
    [by rewrite (bind_Err _ _ _ _ _ E), (bind_Err _ _ _ _ _ E')|];
    rewrite (bind_Ok _ _ _ _ _ E), (bind_Ok _ _ _ _ _ E').
  destruct x, y; simpl in Hxy; try contradiction; try reflexivity;
    (apply bind_ext; [symmetry; by apply (elt_take _ _ n) | reflexivity]).
Qed.
End agreeing_frames.

Lemma R_length_nonneg x : 0 <= R_length x.
Proof. destruct x; simpl; lia. Qed.

Section first_column_decides.
Variables (m : machine) (d d' : data_frame) (x0 : SEXP) (cols cols' : list SEXP).
Hypothesis Hd : df_columns d = x0 :: cols.
Hypothesis Hd' : df_columns d' = x0 :: cols'.
Hypothesis Hnames : df_names d' = df_names d.
Hypothesis Hsame : Forall2 (same_upto (Z.to_nat (R_length x0))) cols cols'.

Let nobs := R_length x0.

Lemma columns_same :
  Forall2 (same_upto (Z.to_nat nobs)) (df_columns d) (df_columns d').
Proof using Hd Hd' Hsame.
  rewrite Hd, Hd'. constructor; [apply same_upto_refl | exact Hsame].
Qed.

Lemma columns_length : length (df_columns d') = length (df_columns d).
Proof using Hd Hd' Hsame. symmetry. eapply Forall2_length, columns_same. Qed.

Lemma nobs_nat : Z.of_nat (Z.to_nat nobs) = nobs.
Proof. apply Z2Nat.id, R_length_nonneg. Qed.

Lemma write_descriptors_same fp :
  write_descriptors d' nobs fp = write_descriptors d nobs fp.
Proof using Hd Hd' Hnames Hsame.
  unfold write_descriptors. cbv zeta. rewrite columns_length, Hnames.
  apply bind_ext; [reflexivity|]. intros types fp1.
  apply bind_ext.
  { apply for_loop_ext. intros j a fp2 _. rewrite <- nobs_nat.
    apply write_type_same, columns_same. }
  intros st fp2.
  do 2 (apply bind_ext; [reflexivity|]; intros ? ?).
  apply bind_ext; [|reflexivity].
  apply for_loop_ext. intros j a1 fp5 _.
  apply write_format_same with (n := Z.to_nat nobs), columns_same.
Qed.

Lemma write_data_same types fp :
  write_data m (df_columns d') types nobs fp = write_data m (df_columns d) types nobs fp.
Proof using Hd Hd' Hsame.
  unfold write_data. rewrite columns_length.
  apply for_loop_ext. intros i u fp1 Hi. unfold write_row.
  apply for_loop_ext. intros j u' fp2 _.
  apply write_cell_same with (n := Z.to_nat nobs); [apply columns_same | exact Hi].
Qed.

Lemma save_same fp : R_SaveStataData m d' fp = R_SaveStataData m d fp.
Proof using Hd Hd' Hnames Hsame.
  unfold R_SaveStataData. rewrite setup_consts_total.
  pose proof columns_length as Hlen.
  pose proof (write_header_run m (endian_of m) x0 cols fp) as Hh.
  pose proof (write_header_run m (endian_of m) x0 cols' fp) as Hh'.
  rewrite <- Hd in Hh. rewrite <- Hd' in Hh'. rewrite Hlen in Hh'.
  rewrite (bind_Ok _ _ _ _ _ Hh), (bind_Ok _ _ _ _ _ Hh').
  fold nobs. apply bind_ext; [apply write_descriptors_same|].
  intros types fp1.
  do 3 (apply bind_ext; [reflexivity|]; intros ? ?).
  apply write_data_same.
Qed.
End first_column_decides.

Lemma bind_Ok_inv {A B} (c : io A) (k : A -> io B) fp b fp' :
  bind c k fp = Ok b fp' -> exists a fp1, c fp = Ok a fp1 /\ k a fp1 = Ok b fp'.
Proof.
  unfold bind. destruct (c fp) as [a fp1|e fp1]; [|discriminate].
  intros H. by exists a, fp1.
Qed.

Lemma for_from_Ok_body {A} (body : nat -> A -> io A) n :
  forall i a fp a' fp',
    for_from n i body a fp = Ok a' fp' ->
    forall k, (i <= k < i + n)%nat -> exists b q b' q', body k b q = Ok b' q'.
Proof.
  induction n as [|n IH]; intros i a fp a' fp' Hrun k Hk; [lia|].
  simpl in Hrun. apply bind_Ok_inv in Hrun as (a1 & fp1 & Hbody & Hrest).
  destruct (Nat.eq_dec k i) as [->|Hne]; [by exists a, fp, a1, fp1|].
  apply (IH _ _ _ _ _ Hrest). lia.
Qed.

Lemma write_cell_short m df types i j x u fp :
  df !! j = Some x -> shorter_than (Z.of_nat i + 1) x ->
  write_cell m df types i j u fp = Err OutOfBounds fp.
Proof.
  intros Hj Hshort. unfold write_cell, elt. rewrite Hj. unfold bind at 1, ret at 1.
  destruct x as [|v|v|v|v|]; simpl in Hshort; try contradiction;
    (rewrite (lookup_ge_None_2 v i) by lia; reflexivity).
Qed.



(** A frame whose columns have 1 and 3 cells is written without
    complaint as a file of one observation. *)
Example unequal_columns_are_written :
  exists out,
    R_SaveStataData LSB_first
      (data_frame_of [INTSXP [7]; INTSXP [1; 2; 3]]
         [bytes_of_string "a"; bytes_of_string "b"]) [] = Ok tt out /\
    take 4 (drop 6 out) = [1; 0; 0; 0] /\
    drop 342 out = [7; 0; 0; 0; 1; 0; 0; 0].
Proof. eexists. split; [vm_compute; reflexivity|]. split; reflexivity. Qed.


(** ** The fuel of the characteristics loop is never exhausted *)

Lemma no_fuel_ret {A} (a : A) : no_fuel_error (ret a).
Proof. intros fp e fp' H. discriminate H. Qed.

Lemma no_fuel_fail {A} e : e <> OutOfFuel -> no_fuel_error (@fail A e).
Proof. intros He fp e' fp' H. injection H as <- _. exact He. Qed.

Lemma no_fuel_bind {A B} (c : io A) (k : A -> io B) :
  no_fuel_error c -> (forall a, no_fuel_error (k a)) -> no_fuel_error (bind c k).
Proof.
  intros Hc Hk fp e fp' H. unfold bind in H.
  destruct (c fp) as [a fp1|e1 fp1] eqn:E.
  - by apply (Hk a fp1 e fp').
  - injection H as <- _. by apply (Hc fp e1 fp1).
Qed.

Lemma no_fuel_for_from {A} (body : nat -> A -> io A) n :
  (forall i a, no_fuel_error (body i a)) ->
  forall i a, no_fuel_error (for_from n i body a).
Proof.
  intros Hb. induction n as [|n IH]; intros i a; simpl.
  - apply no_fuel_ret.
  - apply no_fuel_bind; [apply Hb | intros a'; apply IH].
Qed.

Lemma no_fuel_for_loop {A} (body : nat -> A -> io A) n a :
  (forall i a, no_fuel_error (body i a)) -> no_fuel_error (for_loop n body a).
Proof. intros Hb. by apply no_fuel_for_from. Qed.

Lemma no_fuel_fread n : no_fuel_error (fread n).
Proof.
  intros fp e fp' H. unfold fread in H.
  destruct (n =? 0)%nat; [injection H as <- _; discriminate|].
  destruct (n <=? length fp)%nat; [discriminate H|].
  injection H as <- _. discriminate.
Qed.

Lemma no_fuel_allocVector {A} (dflt : A) n : no_fuel_error (allocVector dflt n).
Proof.
  unfold allocVector. destruct (n <? 0); [by apply no_fuel_fail | apply no_fuel_ret].
Qed.

Create HintDb no_fuel.
#[local] Hint Resolve no_fuel_ret no_fuel_fread no_fuel_allocVector : no_fuel.

Ltac no_fuel_step :=
  first [ solve [auto with no_fuel]
        | apply no_fuel_fail; discriminate
        | apply no_fuel_for_loop; intros ? ?
        | apply no_fuel_bind; [|intros ?] ].

Lemma no_fuel_InByteBinary naok : no_fuel_error (InByteBinary naok).
Proof. unfold InByteBinary. repeat no_fuel_step. Qed.

Lemma no_fuel_InShortIntBinary e naok sw : no_fuel_error (InShortIntBinary e naok sw).
Proof.
  unfold InShortIntBinary.
  do 2 (apply no_fuel_bind; [apply no_fuel_InByteBinary|]; intros ?).
  apply no_fuel_ret.
Qed.

Lemma no_fuel_InIntegerBinary m naok sw : no_fuel_error (InIntegerBinary m naok sw).
Proof. unfold InIntegerBinary. repeat no_fuel_step. Qed.

Lemma no_fuel_InDoubleBinary m naok sw : no_fuel_error (InDoubleBinary m naok sw).
Proof. unfold InDoubleBinary. repeat no_fuel_step. Qed.

Lemma no_fuel_InFloatBinary m naok sw : no_fuel_error (InFloatBinary m naok sw).
Proof. unfold InFloatBinary. repeat no_fuel_step. Qed.

Lemma no_fuel_InStringBinary n buffer : no_fuel_error (InStringBinary n buffer).
Proof. unfold InStringBinary. repeat no_fuel_step. Qed.

#[local] Hint Resolve no_fuel_InByteBinary no_fuel_InShortIntBinary
  no_fuel_InIntegerBinary no_fuel_InDoubleBinary no_fuel_InFloatBinary
  no_fuel_InStringBinary : no_fuel.

Lemma no_fuel_skip_byte i u : no_fuel_error (skip_byte i u).
Proof. unfold skip_byte. repeat no_fuel_step. Qed.

(** *** What is left to read *)

Lemma fread_length n fp bs fp' :
  fread n fp = Ok bs fp' -> (length fp = n + length fp')%nat /\ n <> 0%nat.
Proof.
  unfold fread. destruct (Nat.eqb_spec n 0); [discriminate|].
  destruct (Nat.leb_spec n (length fp)); [|discriminate].
  intros Hr. injection Hr as _ <-. rewrite length_drop. lia.
Qed.

Lemma InByteBinary_length naok fp a fp' :
  InByteBinary naok fp = Ok a fp' -> length fp = S (length fp').
Proof.
  unfold InByteBinary. intros H. apply bind_Ok_inv in H as (bs & fp1 & Hr & H).
  injection H as _ <-. apply fread_length in Hr. lia.
Qed.

Lemma InShortIntBinary_length e naok sw fp a fp' :
  InShortIntBinary e naok sw fp = Ok a fp' -> length fp = S (S (length fp')).
Proof.
  unfold InShortIntBinary. intros H.
  apply bind_Ok_inv in H as (b1 & fp1 & H1 & H).
  apply bind_Ok_inv in H as (b2 & fp2 & H2 & H).
  injection H as _ <-.
  apply InByteBinary_length in H1. apply InByteBinary_length in H2. lia.
Qed.

Lemma skip_bytes_shrinks n : forall i u, shrinks (for_from n i skip_byte u).
Proof.
  induction n as [|n IH]; intros i u fp a fp' H; simpl in H.
  - injection H as _ <-. lia.
  - apply bind_Ok_inv in H as (u1 & fp1 & Hb & H).
    unfold skip_byte in Hb. apply bind_Ok_inv in Hb as (b & fp2 & Hb & Hret).
    injection Hret as _ <-. apply InByteBinary_length in Hb.
    apply IH in H. lia.
Qed.

Lemma skip_characteristics_fuel stata_endian swapends fuel :
  forall fp e fp',
    (length fp < fuel)%nat ->
    skip_characteristics fuel stata_endian swapends fp = Err e fp' ->
    e <> OutOfFuel.
Proof.
  induction fuel as [|fuel IH]; intros fp e fp' Hlen H; [lia|].
  simpl in H. unfold bind at 1 in H.
  destruct (InByteBinary true fp) as [b fp1|e1 fp1] eqn:Eb.
  - apply InByteBinary_length in Eb.
    destruct (b =? 0); [discriminate H|].
    unfold bind at 1 in H.
    destruct (InShortIntBinary stata_endian true swapends fp1) as [charlen fp2|e2 fp2] eqn:Es.
    + apply InShortIntBinary_length in Es.
      unfold bind at 1 in H.
      destruct (for_loop (Z.to_nat charlen) skip_byte tt fp2) as [u fp3|e3 fp3] eqn:El.
      * apply skip_bytes_shrinks in El. apply (IH fp3 e fp'); [lia | exact H].
      * injection H as <- _.
        eapply (no_fuel_for_loop skip_byte); [|exact El].
        intros. apply no_fuel_skip_byte.
    + injection H as <- _. by eapply no_fuel_InShortIntBinary.
  - injection H as <- _. by eapply no_fuel_InByteBinary.
Qed.

Lemma no_fuel_read_characteristics e sw : no_fuel_error (read_characteristics e sw).
Proof.
  unfold read_characteristics. apply no_fuel_bind.
  - intros fp err fp' H. eapply skip_characteristics_fuel; [|exact H]. lia.
  - intros _. repeat no_fuel_step. destruct (negb (a =? 0)); repeat no_fuel_step.
Qed.

Lemma no_fuel_read_type nobs i st : no_fuel_error (read_type nobs i st).
Proof.
  unfold read_type. apply no_fuel_bind; [apply no_fuel_InByteBinary|].
  intros abyte. cbv zeta.
  repeat match goal with
         | |- no_fuel_error (if ?b then _ else _) => destruct b
         end; repeat no_fuel_step.
Qed.

Lemma no_fuel_read_cell m e sw types i j df : no_fuel_error (read_cell m e sw types i j df).
Proof.
  unfold read_cell. cbv zeta.
  repeat match goal with
         | |- no_fuel_error (if ?b then _ else _) => destruct b
         end; repeat no_fuel_step.
Qed.

Lemma no_fuel_read_header m endian : no_fuel_error (read_header m endian).
Proof.
  unfold read_header. apply no_fuel_bind; [apply no_fuel_InByteBinary|].
  intros abyte. apply no_fuel_bind.
  { repeat match goal with
           | |- no_fuel_error (if ?b then _ else _) => destruct b
           end; repeat no_fuel_step. }
  intros version5. repeat no_fuel_step.
Qed.

Lemma no_fuel_read_descriptors h : no_fuel_error (read_descriptors h).
Proof.
  unfold read_descriptors. cbv zeta.
  repeat first [ apply no_fuel_read_type | apply no_fuel_skip_byte
               | progress unfold read_name, read_label, skip_string
               | no_fuel_step ].
Qed.

(** Whatever the file, [R_LoadStataData] ends with a data frame or
    with one of the errors of the source: the fuel given to the loop
    over the characteristics always suffices. *)
Lemma load_never_out_of_fuel m fp fp' : R_LoadStataData m fp <> Err OutOfFuel fp'.
Proof.
  intros H. revert H. generalize (eq_refl OutOfFuel).
  generalize OutOfFuel at 1 3. intros e He H. revert He.
  assert (Hno : no_fuel_error (R_LoadStataData m)); [|by apply (Hno fp e fp')].
  unfold R_LoadStataData. rewrite setup_consts_total.
  apply no_fuel_bind; [apply no_fuel_read_header|]. intros h.
  apply no_fuel_bind; [apply no_fuel_read_descriptors|]. intros d.
  apply no_fuel_bind; [apply no_fuel_read_characteristics|]. intros _.
  apply no_fuel_bind.
  { unfold read_data, read_row. apply no_fuel_for_loop. intros i df.
    apply no_fuel_for_loop. intros j df'. apply no_fuel_read_cell. }
  intros df. unfold row_name. repeat no_fuel_step.
Qed.

(** ** The header, written and read back *)

Lemma InIntegerBinary_written writer reader i rest :
  is_int i ->
  InIntegerBinary reader true (swapends_of reader writer) (int_to_mem writer i ++ rest)
  = Ok i rest.
Proof.
  intros Hi. rewrite InIntegerBinary_app by apply length_to_mem. cbv zeta.
  rewrite (read_int_written writer reader i Hi). by rewrite andb_false_r.
Qed.

(** The header written on one machine is read on another with the
    counts it was written with, and with [swapends] set exactly when
    the two machines differ in byte order. *)
Lemma read_header_of_written writer reader x0 cols sfx :
  Z.of_nat (length (x0 :: cols)) < 65536 -> R_length x0 < 2 ^ 31 ->
  exists h,
    read_header reader (endian_of reader)
      (stream_of (write_header writer (endian_of writer) (x0 :: cols) []) ++ sfx)
    = Ok h sfx /\
    h_version5 h = false /\
    h_stata_endian h = endian_of writer /\
    h_swapends h = swapends_of reader writer /\
    h_nvar h = Z.of_nat (length (x0 :: cols)) /\
    h_nobs h = R_length x0.
Proof.
  intros Hnvar Hnobs. rewrite write_header_run. cbn [stream_of].
  rewrite OutShortIntBinary_file_bytes by lia.
  set (nvar := Z.of_nat (length (x0 :: cols))) in *.
  replace (to_uchar (endian_of writer)) with (endian_of writer) by (by destruct writer).
  assert (Hlabel : length (char_array 81 "Written by R.              ") = 81%nat)
    by reflexivity.
  set (label := char_array 81 "Written by R.              ") in *. clearbody label.
  assert (Hzeros : length (replicate 18 0) = 18%nat) by reflexivity.
  set (zeros := replicate 18 0) in *. clearbody zeros.
  unfold read_header.
  rewrite app_nil_l, <- !app_assoc. cbn [app].
  unfold bind at 1. rewrite InByteBinary_cons. simpl negb. rewrite ?andb_false_r.
  change (108 =? 105) with false. change (108 =? chr "l") with true. cbv iota.
  unfold bind at 1. unfold ret at 1.
  do 3 (unfold bind at 1; rewrite InByteBinary_cons; simpl negb; rewrite ?andb_false_r).
  unfold bind at 1. rewrite InShortIntBinary_file_bytes by lia.
  unfold bind at 1. fold (swapends_of reader writer).
  rewrite InIntegerBinary_written
    by (pose proof (R_length_nonneg x0); unfold is_int; lia).
  unfold bind at 1. unfold InStringBinary at 1. unfold bind at 1.
  change (Z.to_nat 81) with 81%nat.
  rewrite fread_app by lia. unfold ret at 1.
  unfold bind at 1. unfold InStringBinary at 1. unfold bind at 1.
  change (Z.to_nat 18) with 18%nat.
  rewrite fread_app by lia. unfold ret.
  eexists. split; [reflexivity|]. simpl. repeat split.
Qed.

(** ** Examples *)

Example setup_consts_MSB : setup_consts MSB_first = Some LOHI.
Proof. reflexivity. Qed.

Example setup_consts_LSB : setup_consts LSB_first = Some HILO.
Proof. reflexivity. Qed.

Example float_to_double_one : float_to_double 0x3F800000 = one_double.
Proof. reflexivity. Qed.

Example float_to_double_sentinel : float_to_double float_sentinel = STATA_FLOAT_NA.
Proof. reflexivity. Qed.

Example float_to_double_tiny : float_to_double 1 = 0x36A0000000000000.
Proof. reflexivity. Qed.

Example double_to_float_NA : double_to_float NA_REAL = 0x7FC00000.
Proof. reflexivity. Qed.

Example double_to_float_third :
  (* 1/3 *) double_to_float 0x3FD5555555555555 = 0x3EAAAAAB.
Proof. reflexivity. Qed.

Example double_to_float_huge : double_to_float STATA_DOUBLE_NA = 0x7F800000.
Proof. reflexivity. Qed.

(** A frame with an integer, a real and a string column, written on a
    machine of one byte order and read on a machine of the other.  The
    integers come back, the infinity comes back as missing, the strings
    come back with their terminator counted in their length, and the
    name ["a_b.c"] comes back as ["a.b.c"]. *)
Example written_then_read :
  let d := data_frame_of
             [INTSXP [1; NA_INTEGER; 3];
              REALSXP [one_double; NA_REAL; R_PosInf];
              STRSXP [bytes_of_string "ab"; bytes_of_string "cde"; bytes_of_string "cde"]]
             [bytes_of_string "a_b.c"; bytes_of_string "x"; bytes_of_string "verylongname"] in
  forall out, R_SaveStataData LSB_first d [] = Ok tt out ->
  R_LoadStataData MSB_first out =
  Ok {| df_columns :=
          [INTSXP [1; NA_INTEGER; 3];
           REALSXP [one_double; NA_REAL; NA_REAL];
           STRSXP [bytes_of_string "ab" ++ [0; 0]; bytes_of_string "cde" ++ [0]; bytes_of_string "cde" ++ [0]]];
        df_names := [bytes_of_string "a.b.c"; bytes_of_string "x"; bytes_of_string "verylong"];
        df_datalabel := bytes_of_string "Written by R.              ";
        df_time_stamp := [];
        df_formats := [bytes_of_string "%9.0g"; bytes_of_string "%9.0g"; bytes_of_string "%3s"];
        df_var_labels := [bytes_of_string "a_b.c"; bytes_of_string "x"; bytes_of_string "verylongname"];
        df_class := bytes_of_string "data.frame";
        df_row_names := [bytes_of_string "1"; bytes_of_string "2"; bytes_of_string "3"] |} [].
Proof.
  cbv zeta. intros out Hout. vm_compute in Hout. injection Hout as <-.
  vm_compute. reflexivity.
Qed.

(** ** Loops that write and loops that read *)

Lemma for_from_written {A} (body : nat -> A -> io A) (w : nat -> list Z)
    (I : A -> Prop) n :
  forall lo,
    (forall i a fp, (lo <= i < lo + n)%nat -> I a ->
       exists a', body i a fp = Ok a' (fp ++ w i) /\ I a') ->
    forall a fp, I a ->
      exists a', for_from n lo body a fp = Ok a' (fp ++ concat (map w (seq lo n))) /\ I a'.
Proof.
  induction n as [|n IH]; intros lo Hb a fp Ha.
  - exists a. simpl. by rewrite app_nil_r.
  - destruct (Hb lo a fp ltac:(lia) Ha) as (a1 & H1 & Ha1).
    destruct (IH (S lo) (fun i a fp Hi => Hb i a fp ltac:(lia)) a1 (fp ++ w lo) Ha1)
      as (a2 & H2 & Ha2).
    exists a2. split; [|exact Ha2].
    simpl. rewrite (bind_Ok _ _ _ _ _ H1), H2. by rewrite <- app_assoc.
Qed.

Lemma for_from_read {A} (body : nat -> A -> io A) (w : nat -> list Z)
    (I : nat -> A -> Prop) n :
  forall lo,
    (forall i a rest, (lo <= i < lo + n)%nat -> I i a ->
       exists a', body i a (w i ++ rest) = Ok a' rest /\ I (S i) a') ->
    forall a rest, I lo a ->
      exists a', for_from n lo body a (concat (map w (seq lo n)) ++ rest) = Ok a' rest
                 /\ I (lo + n)%nat a'.
Proof.
  induction n as [|n IH]; intros lo Hb a rest Ha.
  - exists a. simpl. by rewrite Nat.add_0_r.
  - simpl seq. simpl map. simpl concat. rewrite <- app_assoc.
    destruct (Hb lo a (concat (map w (seq (S lo) n)) ++ rest) ltac:(lia) Ha)
      as (a1 & H1 & Ha1).
    destruct (IH (S lo) (fun i a rest Hi => Hb i a rest ltac:(lia)) a1 rest Ha1)
      as (a2 & H2 & Ha2).
    exists a2. split.
    + simpl for_from. by rewrite (bind_Ok _ _ _ _ _ H1).
    + by replace (lo + S n)%nat with (S lo + n)%nat by lia.
Qed.

Lemma for_loop_written {A} (body : nat -> A -> io A) (w : nat -> list Z)
    (I : A -> Prop) n a fp :
  (forall i a fp, (i < n)%nat -> I a ->
     exists a', body i a fp = Ok a' (fp ++ w i) /\ I a') ->
  I a ->
  exists a', for_loop n body a fp = Ok a' (fp ++ concat (map w (seq 0 n))) /\ I a'.
Proof.
  intros Hb Ha. apply (for_from_written body w I n 0); [|exact Ha].
  intros i a0 fp0 Hi. apply Hb. lia.
Qed.

Lemma for_loop_read {A} (body : nat -> A -> io A) (w : nat -> list Z)
    (I : nat -> A -> Prop) n a rest :
  (forall i a rest, (i < n)%nat -> I i a ->
     exists a', body i a (w i ++ rest) = Ok a' rest /\ I (S i) a') ->
  I 0%nat a ->
  exists a', for_loop n body a (concat (map w (seq 0 n)) ++ rest) = Ok a' rest /\ I n a'.
Proof.
  intros Hb Ha. destruct (for_from_read body w I n 0) with (a := a) (rest := rest)
    as (a' & H1 & H2); [|exact Ha|by exists a'].
  intros i a0 rest0 Hi. apply Hb. lia.
Qed.

(** ** Lists *)

Lemma map_seq_nth {A B} (f : A -> B) (d : A) (l : list A) :
  map (fun i => f (nth i l d)) (seq 0 (length l)) = map f l.
Proof.
  induction l as [|a l IH]; [reflexivity|].
  simpl length. simpl seq. simpl map. f_equal.
  rewrite <- seq_shift, map_map. exact IH.
Qed.

Lemma concat_map_singleton (x : Z) lo n :
  concat (map (fun _ : nat => [x]) (seq lo n)) = replicate n x.
Proof. revert lo; induction n as [|n IH]; intros lo; simpl; [reflexivity | by rewrite IH]. Qed.

Lemma concat_map_seq_nth {A} (f : A -> Z) (d : A) (l : list A) :
  concat (map (fun i => [f (nth i l d)]) (seq 0 (length l))) = map f l.
Proof.
  rewrite (map_seq_nth (fun x => [f x]) d l).
  induction l as [|a l IH]; simpl; [reflexivity | by rewrite IH].
Qed.

Lemma lookup_nth {A} (l : list A) i d :
  (i < length l)%nat -> l !! i = Some (nth i l d).
Proof.
  intros Hi. destruct (lookup_lt_is_Some_2 l i Hi) as [x Hx].
  by rewrite (nth_lookup_Some _ _ d _ Hx).
Qed.

Lemma elt_nth {A} (l : list A) i d fp :
  (i < length l)%nat -> elt l i fp = Ok (nth i l d) fp.
Proof.
  intros Hi. unfold elt.
  destruct (lookup_lt_is_Some_2 l i Hi) as [x Hx]. rewrite Hx.
  by rewrite (nth_lookup_Some _ _ d _ Hx).
Qed.

Lemma insert_fill {A} (pre : list A) (d y : A) n i :
  length pre = i -> (i < n)%nat ->
  <[i := y]> (pre ++ replicate (n - i) d) = (pre ++ [y]) ++ replicate (n - S i) d.
Proof.
  intros Hp Hi. rewrite insert_app_r_alt by lia.
  replace (i - length pre)%nat with 0%nat by lia.
  replace (n - i)%nat with (S (n - S i)) by lia. simpl. by rewrite <- app_assoc.
Qed.

Lemma map_take_S {A B} (f : A -> B) (l : list A) (d : A) i :
  (i < length l)%nat -> map f (take (S i) l) = map f (take i l) ++ [f (nth i l d)].
Proof.
  intros Hi. rewrite (take_S_r l i (nth i l d)) by (by apply lookup_nth).
  by rewrite map_app.
Qed.

Lemma nth_middle_app {A} (pre post : list A) (x d : A) j :
  length pre = j -> nth j (pre ++ x :: post) d = x.
Proof. intros <-. by rewrite app_nth2, Nat.sub_diag by lia. Qed.

Lemma insert_middle_app {A} (pre post : list A) (x y : A) j :
  length pre = j -> <[j := y]> (pre ++ x :: post) = (pre ++ [y]) ++ post.
Proof.
  intros Hj. rewrite insert_app_r_alt by lia.
  replace (j - length pre)%nat with 0%nat by lia. simpl. by rewrite <- app_assoc.
Qed.

Lemma fill_cell {A B} (g : A -> B) (cells : list A) (d0 : B) (da : A) nobs i :
  length cells = nobs -> (i < nobs)%nat ->
  <[i := g (nth i cells da)]> (map g (take i cells) ++ replicate (nobs - i) d0) =
  map g (take (S i) cells) ++ replicate (nobs - S i) d0.
Proof.
  intros Hlen Hi. rewrite insert_fill by (rewrite ?length_map, ?length_take; lia).
  by rewrite (map_take_S g cells da) by lia.
Qed.

(** ** Loops that fill an array from the fields of a list *)

Lemma for_loop_read_fill {A B X} (body : nat -> A * list B -> io (A * list B))
    (w : X -> list Z) (g : X -> B) (J : A -> Prop) (l : list X) (d : B) (dx : X)
    a rest :
  (forall i a arr rest, (i < length l)%nat -> J a ->
     exists a', body i (a, arr) (w (nth i l dx) ++ rest) =
                Ok (a', <[i := g (nth i l dx)]> arr) rest /\ J a') ->
  J a ->
  exists a', for_loop (length l) body (a, replicate (length l) d)
               (concat (map w l) ++ rest) = Ok (a', map g l) rest /\ J a'.
Proof.
  intros Hb Ha.
  destruct (for_loop_read body (fun i => w (nth i l dx))
              (fun i st => J st.1 /\
                           st.2 = map g (take i l) ++ replicate (length l - i) d)
              (length l) (a, replicate (length l) d) rest)
    as ([a' arr] & Hrun & Ha' & Harr).
  - intros i [a0 arr] rest0 Hi [Ha0 Harr]. simpl in Ha0, Harr. subst arr.
    destruct (Hb i a0 (map g (take i l) ++ replicate (length l - i) d) rest0 Hi Ha0)
      as (a1 & Hrun & Ha1).
    eexists. split; [exact Hrun|]. split; [exact Ha1|]. simpl.
    rewrite insert_fill by (rewrite ?length_map, ?length_take; lia).
    by rewrite (map_take_S g l dx) by exact Hi.
  - split; [exact Ha|]. simpl. by rewrite Nat.sub_0_r.
  - exists a'. simpl in Ha', Harr. subst arr. split; [|exact Ha'].
    rewrite map_seq_nth in Hrun. rewrite Hrun.
    by rewrite firstn_all, Nat.sub_diag, app_nil_r.
Qed.

(** ** C strings *)

Lemma mkChar_no_zero l : no_zero (mkChar l).
Proof.
  induction l as [|c l IH]; simpl; [constructor|].
  destruct (Z.eqb_spec c 0); [constructor | by constructor].
Qed.

Lemma mkChar_app_zero l rest : no_zero l -> mkChar (l ++ 0 :: rest) = l.
Proof.
  induction 1 as [|c l Hc _ IH]; simpl; [reflexivity|].
  destruct (Z.eqb_spec c 0); [contradiction | by rewrite IH].
Qed.

Lemma take_pad (s : list Z) n :
  take n (s ++ replicate n 0) = take n s ++ replicate (n - length s) 0.
Proof. rewrite take_app, take_replicate. f_equal. f_equal. lia. Qed.

Lemma mkChar_padded l k rest : no_zero l -> mkChar (l ++ replicate k 0 ++ 0 :: rest) = l.
Proof.
  intros Hl. destruct k; simpl; by apply mkChar_app_zero.
Qed.

Lemma no_zero_take l n : no_zero l -> no_zero (take n l).
Proof. apply Forall_take. Qed.

Lemma mkChar_terminated l rest : In 0 l -> mkChar (l ++ rest) = mkChar l.
Proof.
  induction l as [|c l IH]; intros Hin; [destruct Hin|]. simpl.
  destruct (Z.eqb_spec c 0) as [->|Hc]; [reflexivity|].
  destruct Hin as [Hin|Hin]; [congruence|]. by rewrite IH.
Qed.

Lemma mkChar_name_field name :
  map underscore_to_dot (mkChar (name_field name)) =
  map underscore_to_dot (take 8 (mkChar name)).
Proof.
  unfold name_field. rewrite take_pad, map_app, <- app_assoc.
  assert (Hz : map dot_to_underscore (replicate (8 - length (mkChar name)) 0) =
               replicate (8 - length (mkChar name)) 0).
  { induction (8 - length (mkChar name))%nat; simpl; [reflexivity | by f_equal]. }
  rewrite Hz, mkChar_padded.
  - rewrite map_map. apply map_ext. intros c.
    unfold underscore_to_dot, dot_to_underscore. change (chr "_") with 95.
    change (chr ".") with 46.
    destruct (Z.eqb_spec c 46) as [->|]; [reflexivity|].
    destruct (Z.eqb_spec c 95); reflexivity.
  - apply Forall_map.
    pose proof (no_zero_take _ 8 (mkChar_no_zero name)) as Hnz.
    unfold no_zero in Hnz. rewrite Forall_forall in Hnz. rewrite Forall_forall.
    intros c Hin. specialize (Hnz c Hin). rename Hnz into Hc. simpl. unfold dot_to_underscore. change (chr "_") with 95.
    change (chr ".") with 46. destruct (Z.eqb_spec c 46); [discriminate | exact Hc].
Qed.

Lemma length_name_field name : length (name_field name) = 9%nat.
Proof.
  unfold name_field. rewrite length_app, length_map, length_strncpy_prefix. reflexivity.
Qed.

Lemma mkChar_label_field name : mkChar (label_field name) = take 80 (mkChar name).
Proof.
  unfold label_field.
  set (L := take 81 (mkChar name ++ replicate 81 0)).
  assert (HL : length L = 81%nat) by apply length_strncpy_prefix.
  assert (Hins : <[80%nat := 0]> L = take 80 L ++ [0]).
  { rewrite <- (take_drop 80 L) at 1. rewrite insert_app_r_alt by (rewrite length_take; lia).
    rewrite length_take. replace (80 - 80 `min` length L)%nat with 0%nat by lia.
    destruct (drop 80 L) as [|x [|y t]] eqn:E;
      pose proof (f_equal length E) as El; rewrite length_drop in El; simpl in El;
      try lia. reflexivity. }
  rewrite Hins. unfold L. rewrite take_take. change (80 `min` 81)%nat with 80%nat.
  rewrite take_app, take_replicate, <- app_assoc.
  apply mkChar_padded, no_zero_take, mkChar_no_zero.
Qed.

Lemma length_label_field name : length (label_field name) = 81%nat.
Proof. unfold label_field. rewrite length_insert. apply length_strncpy_prefix. Qed.

Lemma no_zero_decimal z : no_zero (decimal z).
Proof.
  unfold decimal.
  assert (He : forall d, no_zero (bytes_of_string (NilEmpty.string_of_uint d))).
  { unfold no_zero, bytes_of_string.
    induction d; simpl; [constructor | (constructor; [discriminate | assumption]) ..]. }
  assert (Hu : forall d, no_zero (bytes_of_string (NilZero.string_of_uint d))).
  { intros d. destruct d; try apply He.
    unfold no_zero, bytes_of_string. simpl. constructor; [discriminate | constructor]. }
  destruct (Z.to_int z); [apply Hu|].
  unfold no_zero, bytes_of_string. simpl. constructor; [discriminate | apply Hu].
Qed.

Lemma mkChar_decimal z : mkChar (decimal z ++ [0]) = decimal z.
Proof. apply mkChar_app_zero, no_zero_decimal. Qed.

Lemma row_names_loop n :
  forall lo pre fp,
    length pre = lo ->
    for_from n lo row_name (pre ++ replicate n []) fp =
    Ok (pre ++ map (fun i => decimal (Z.of_nat i + 1)) (seq lo n)) fp.
Proof.
  induction n as [|n IH]; intros lo pre fp Hpre; [reflexivity|].
  simpl for_from. unfold bind at 1. unfold row_name at 1, ret at 1.
  rewrite mkChar_decimal.
  rewrite insert_app_r_alt by lia. replace (lo - length pre)%nat with 0%nat by lia.
  change (<[0%nat := ?y]> ([] :: replicate n [])) with (y :: replicate n []).
  rewrite (cons_middle _ pre), app_assoc.
  rewrite IH by (rewrite length_app; simpl; lia).
  simpl seq. simpl map. by rewrite <- app_assoc.
Qed.


(** ** Reading a well-formed file *)

(** *** Words in the byte order of the file *)

Lemma endian_of_cases m : endian_of m = LOHI \/ endian_of m = HILO.
Proof. destruct m; [by left | by right]. Qed.

Lemma ordered_value_ordered e n x :
  0 <= x < 256 ^ Z.of_nat n -> ordered_value e (ordered e n x) = x.
Proof.
  intros Hx. unfold ordered_value, ordered. destruct (e =? LOHI);
    rewrite ?rev_involutive; by apply le_value_le_bytes.
Qed.

Lemma length_ordered e n x : length (ordered e n x) = n.
Proof. unfold ordered. destruct (e =? LOHI); by rewrite ?length_rev, length_le_bytes. Qed.

Lemma ordered_are_bytes e n x : Forall is_byte (ordered e n x).
Proof.
  unfold ordered. destruct (e =? LOHI); [apply Forall_rev|]; apply le_bytes_are_bytes.
Qed.

(** Whatever the machine, a word read with [swapends] as [read_header]
    sets it is the word in the byte order of the file. *)
Lemma of_mem_ordered r e bs :
  e = LOHI \/ e = HILO -> Forall is_byte bs ->
  (if negb (endian_of r =? e) then mirror (length bs) (of_mem r bs) else of_mem r bs) =
  ordered_value e bs.
Proof.
  intros He Hbs. unfold mirror, ordered_value.
  destruct r, He as [-> | ->]; simpl; try reflexivity.
  - rewrite <- (length_rev bs), le_bytes_le_value by (by apply Forall_rev).
    by rewrite rev_involutive.
  - by rewrite le_bytes_le_value.
Qed.

Lemma InIntegerBinary_ordered r e naok bs rest :
  e = LOHI \/ e = HILO -> Forall is_byte bs -> length bs = 4%nat ->
  InIntegerBinary r naok (negb (endian_of r =? e)) (bs ++ rest) =
  Ok (let i := int_of_bits (ordered_value e bs) in
      if (i =? STATA_INT_NA) && negb naok then NA_INTEGER else i) rest.
Proof.
  intros He Hbs Hlen. rewrite InIntegerBinary_app by exact Hlen. cbv zeta.
  pose proof (of_mem_ordered r e bs He Hbs) as H. rewrite Hlen in H.
  assert (Hb : is_bits32 (of_mem r bs)).
  { unfold is_bits32. destruct r; simpl.
    - pose proof (le_value_bound (rev bs) (Forall_rev Hbs)) as Hv.
      rewrite length_rev, Hlen in Hv. exact Hv.
    - pose proof (le_value_bound bs Hbs) as Hv. rewrite Hlen in Hv. exact Hv. }
  unfold int_of_mem. rewrite swapi_mirror, (bits_of_int_of_bits _ Hb).
  destruct (negb (endian_of r =? e)); by rewrite H.
Qed.

Lemma InDoubleBinary_ordered r e naok bs rest :
  e = LOHI \/ e = HILO -> Forall is_byte bs -> length bs = 8%nat ->
  InDoubleBinary r naok (negb (endian_of r =? e)) (bs ++ rest) =
  Ok (let d := ordered_value e bs in
      if double_eq d STATA_DOUBLE_NA && negb naok then NA_REAL else d) rest.
Proof.
  intros He Hbs Hlen. rewrite InDoubleBinary_app by exact Hlen. cbv zeta.
  pose proof (of_mem_ordered r e bs He Hbs) as H. rewrite Hlen in H.
  rewrite swapd_mirror. destruct (negb (endian_of r =? e)); by rewrite H.
Qed.

Lemma InFloatBinary_ordered r e naok bs rest :
  e = LOHI \/ e = HILO -> Forall is_byte bs -> length bs = 4%nat ->
  InFloatBinary r naok (negb (endian_of r =? e)) (bs ++ rest) =
  Ok (let f := ordered_value e bs in
      if double_eq (float_to_double f) STATA_FLOAT_NA && negb naok
      then double_to_float NA_REAL else f) rest.
Proof.
  intros He Hbs Hlen. rewrite InFloatBinary_app by exact Hlen. cbv zeta.
  pose proof (of_mem_ordered r e bs He Hbs) as H. rewrite Hlen in H.
  rewrite swapf_mirror, double_to_float_to_double by apply mirror4_bits32.
  destruct (negb (endian_of r =? e)); by rewrite H.
Qed.

Lemma InShortIntBinary_ordered e naok swapends bs rest :
  Forall is_byte bs -> length bs = 2%nat ->
  InShortIntBinary e naok swapends (bs ++ rest) =
  Ok (let i := ordered_value e bs in
      if (i =? STATA_SHORTINT_NA) && negb naok then NA_INTEGER else i) rest.
Proof.
  intros Hbs Hlen.
  destruct bs as [|b1 [|b2 [|]]]; try discriminate Hlen.
  pose proof (Forall_inv Hbs) as H1. pose proof (Forall_inv (Forall_inv_tail Hbs)) as H2.
  unfold is_byte in H1, H2.
  simpl app. rewrite InShortIntBinary_cons. cbv zeta. unfold ordered_value.
  unfold to_ushort. rewrite (Z.mod_small b1), (Z.mod_small b2) by lia.
  rewrite !lor_shiftl_8 by lia.
  destruct (e =? LOHI); simpl le_value; rewrite Z.mod_small by lia;
    (replace (b2 + 256 * (b1 + 256 * 0)) with (b1 * 256 + b2) by lia);
    (replace (b1 + 256 * (b2 + 256 * 0)) with (b2 * 256 + b1) by lia); reflexivity.
Qed.

(** *** The types *)

Lemma tag_cases t :
  fixed_width_tag t \/ STATA_STRINGOFFSET < t ->
  t = STATA_FLOAT \/ t = STATA_DOUBLE \/ t = STATA_INT \/ t = STATA_SHORTINT \/
  t = STATA_BYTE \/
  (STATA_STRINGOFFSET < t /\
   (t =? STATA_FLOAT) = false /\ (t =? STATA_DOUBLE) = false /\
   (t =? STATA_INT) = false /\ (t =? STATA_SHORTINT) = false /\
   (t =? STATA_BYTE) = false /\ (t <? STATA_STRINGOFFSET) = false).
Proof.
  intros [[H|[H|[H|[H|H]]]]|H]; auto 6.
  do 5 right. unfold STATA_STRINGOFFSET in *. split; [exact H|].
  unfold STATA_FLOAT, STATA_DOUBLE, STATA_INT, STATA_SHORTINT, STATA_BYTE.
  repeat split; lia.
Qed.

Ltac tag_cases H :=
  let Ht := fresh "Ht" in
  destruct (tag_cases _ H)
    as [Ht|[Ht|[Ht|[Ht|[Ht|(Ht & ? & ? & ? & ? & ? & ?)]]]]].

Lemma column_upto_all e nobs v :
  length (v_cells v) = nobs -> column_upto e nobs nobs v = column_of e v.
Proof.
  intros Hlen. unfold column_upto, column_of. cbv zeta.
  rewrite take_ge, Nat.sub_diag by lia. by rewrite !app_nil_r.
Qed.

Lemma read_type_layout e nobs i df types v rest :
  fixed_width_tag (v_type v) \/ STATA_STRINGOFFSET < v_type v ->
  read_type (Z.of_nat nobs) i (df, types) (v_type v :: rest) =
  Ok (<[i := column_upto e nobs 0 v]> df, <[i := v_type v]> types) rest.
Proof.
  intros Htag. rewrite read_type_cons. cbv zeta. simpl fst. simpl snd.
  assert (Halloc : forall (A : Type) (d : A) fp,
            allocVector d (Z.of_nat nobs) fp = Ok (replicate nobs d) fp).
  { intros A d fp. rewrite allocVector_run.
    destruct (Z.ltb_spec (Z.of_nat nobs) 0); [lia|]. by rewrite Nat2Z.id. }
  unfold column_upto. cbv zeta. rewrite Nat.sub_0_r. simpl take. simpl map. simpl app.
  tag_cases Htag.
  1-5: rewrite Ht; simpl; unfold bind; rewrite Halloc; reflexivity.
  repeat match goal with E : (_ =? _) = false |- _ => rewrite E; clear E end.
  match goal with E : (_ <? _) = false |- _ => rewrite E end.
  cbv [orb]. unfold bind. rewrite Halloc. reflexivity.
Qed.

Section reading_a_file.
Variables (r : machine) (f : dta).
Hypothesis Hwf : well_formed f.

Let e := dta_byteorder f.
Let vars := dta_variables f.
Let nobs := dta_nobs f.
Let w := label_width (dta_release f).
Let sw := negb (endian_of r =? e).
Let dv := mk_variable 0 [] [] [] [] [].

Lemma variable_well_formed j :
  (j < length vars)%nat ->
  well_formed_variable w nobs (dta_timestamp f) (nth j vars dv).
Proof using Hwf.
  intros Hj. destruct Hwf as (_ & _ & _ & _ & _ & _ & _ & Hv & _).
  rewrite Forall_forall in Hv. by apply Hv, nth_In.
Qed.

Lemma read_header_layout rest :
  read_header r (endian_of r)
    ([dta_release f; e; dta_filetype f; dta_padding f] ++
     short_file_bytes e (Z.of_nat (length vars)) ++
     ordered e 4 (Z.of_nat nobs) ++
     dta_datalabel f ++ dta_timestamp f ++ rest) =
  Ok (mk_header (dta_release f =? 0x69) e sw (Z.of_nat (length vars)) (Z.of_nat nobs)
        (dta_datalabel f ++ drop w (replicate 81 0)) (dta_timestamp f)) rest.
Proof using Hwf.
  destruct Hwf as (Hrel & He & Hnvar & Hnobs & [Hdl _] & [Hts _] & _).
  fold e vars nobs w in He, Hnvar, Hnobs, Hdl.
  unfold read_header. cbn [app].
  unfold bind at 1. rewrite InByteBinary_cons. simpl negb. rewrite andb_false_r.
  unfold bind at 1.
  assert (Hver : (if dta_release f =? 105
                  then ret true
                  else if dta_release f =? chr "l" then ret false
                       else fail NotStataError) =
                 ret (dta_release f =? 105)).
  { destruct Hrel as [-> | ->]; reflexivity. }
  rewrite Hver. unfold ret at 1.
  do 3 (unfold bind at 1; rewrite InByteBinary_cons; simpl negb; rewrite ?andb_false_r).
  unfold bind at 1. rewrite InShortIntBinary_file_bytes by lia.
  unfold bind at 1. fold sw.
  rewrite (InIntegerBinary_ordered r e true (ordered e 4 (Z.of_nat nobs)))
    by (try apply ordered_are_bytes; try apply length_ordered; exact He).
  cbv zeta. rewrite andb_false_r.
  rewrite ordered_value_ordered by (change (256 ^ Z.of_nat 4) with (2 ^ 32); lia).
  replace (int_of_bits (Z.of_nat nobs)) with (Z.of_nat nobs)
    by (unfold int_of_bits; destruct (Z.ltb_spec (Z.of_nat nobs) (2 ^ 31)); lia).
  unfold bind at 1. unfold InStringBinary at 1. unfold bind at 1.
  replace (Z.to_nat (if dta_release f =? 105 then 32 else 81)) with w
    by (unfold w, label_width; by destruct (dta_release f =? 105)).
  rewrite fread_app
    by (try exact Hdl; unfold w, label_width; destruct (dta_release f =? 105); lia).
  unfold ret at 1.
  unfold bind at 1. unfold InStringBinary at 1. unfold bind at 1.
  change (Z.to_nat 18) with 18%nat.
  rewrite fread_app by (try exact Hts; lia). unfold ret.
  change (drop 18 (replicate 18 0)) with (@nil Z). by rewrite app_nil_r.
Qed.

Lemma read_types_layout rest :
  for_loop (length vars) (read_type (Z.of_nat nobs))
    (replicate (length vars) NILSXP, replicate (length vars) 0)
    (map v_type vars ++ rest) =
  Ok (map (column_upto e nobs 0) vars, map v_type vars) rest.
Proof using Hwf.
  destruct (for_loop_read (read_type (Z.of_nat nobs))
              (fun i => [v_type (nth i vars dv)])
              (fun i st => st = (map (column_upto e nobs 0) (take i vars) ++
                                   replicate (length vars - i) NILSXP,
                                 map v_type (take i vars) ++
                                   replicate (length vars - i) 0))
              (length vars) (replicate (length vars) NILSXP, replicate (length vars) 0)
              rest)
    as (st & Hrun & ->).
  - intros i st rest0 Hi ->. eexists. split; [|reflexivity].
    simpl app. destruct (variable_well_formed i Hi) as (Htag & _).
    rewrite (read_type_layout e) by exact Htag.
    rewrite !insert_fill by (rewrite ?length_map, ?length_take; lia).
    rewrite (map_take_S (column_upto e nobs 0) vars dv) by exact Hi.
    by rewrite (map_take_S v_type vars dv) by exact Hi.
  - by rewrite Nat.sub_0_r.
  - rewrite concat_map_seq_nth in Hrun. rewrite Hrun.
    by rewrite firstn_all, Nat.sub_diag, !app_nil_r.
Qed.

Lemma read_names_layout rest :
  exists aname,
    for_loop (length vars) read_name (replicate 9 0, replicate (length vars) [])
      (concat (map v_name vars) ++ rest) =
    Ok (aname, map (fun v => map underscore_to_dot (mkChar (v_name v))) vars) rest.
Proof using Hwf.
  destruct (for_loop_read_fill read_name v_name
              (fun v => map underscore_to_dot (mkChar (v_name v)))
              (fun buf => length buf = 9%nat) vars [] dv (replicate 9 0) rest)
    as (aname & Hrun & _); [| reflexivity | by exists aname].
  intros i buf arr rest0 Hi Hbuf.
  destruct (variable_well_formed i Hi) as (_ & [Hlen _] & _).
  eexists. split; [by apply read_name_run|]. by rewrite length_map.
Qed.

Lemma read_formats_layout rest :
  exists buf,
    for_loop (length vars) (read_label 12) (dta_timestamp f, replicate (length vars) [])
      (concat (map v_format vars) ++ rest) =
    Ok (buf, map (fun v => mkChar (v_format v ++ drop 12 (dta_timestamp f))) vars) rest.
Proof using Hwf.
  destruct (for_loop_read_fill (read_label 12) v_format
              (fun v => mkChar (v_format v ++ drop 12 (dta_timestamp f)))
              (fun buf => drop 12 buf = drop 12 (dta_timestamp f))
              vars [] dv (dta_timestamp f) rest)
    as (buf & Hrun & _); [| reflexivity | by exists buf].
  intros i buf arr rest0 Hi Hbuf.
  destruct (variable_well_formed i Hi) as (_ & _ & [Hlen _] & _).
  eexists. split.
  - unfold read_label, InStringBinary, bind. change (Z.to_nat 12) with 12%nat.
    rewrite fread_app by (try exact Hlen; lia). unfold ret. simpl fst. simpl snd.
    rewrite Hbuf. reflexivity.
  - rewrite drop_app_length' by (symmetry; exact Hlen). reflexivity.
Qed.

Lemma skip_value_labels_layout aname rest :
  exists buf,
    for_loop (length vars) (skip_string 9) aname
      (concat (map v_value_label vars) ++ rest) = Ok buf rest.
Proof using Hwf.
  destruct (for_loop_read (skip_string 9) (fun i => v_value_label (nth i vars dv))
              (fun _ _ => True) (length vars) aname rest) as (buf & Hrun & _).
  - intros i buf rest0 Hi _.
    destruct (variable_well_formed i Hi) as (_ & _ & _ & Hlen & _).
    eexists. split; [|exact I].
    unfold skip_string, InStringBinary, bind. change (Z.to_nat 9) with 9%nat.
    rewrite fread_app by (try exact Hlen; lia). reflexivity.
  - exact I.
  - exists buf. by rewrite map_seq_nth in Hrun.
Qed.

Lemma read_var_labels_layout buf0 rest :
  exists buf,
    for_loop (length vars) (read_label (Z.of_nat w)) (buf0, replicate (length vars) [])
      (concat (map v_label vars) ++ rest) =
    Ok (buf, map (fun v => mkChar (v_label v)) vars) rest.
Proof using Hwf.
  destruct (for_loop_read_fill (read_label (Z.of_nat w)) v_label
              (fun v => mkChar (v_label v)) (fun _ => True) vars [] dv buf0 rest)
    as (buf & Hrun & _); [| exact I | by exists buf].
  intros i buf arr rest0 Hi _.
  destruct (variable_well_formed i Hi) as (_ & _ & _ & _ & [Hlen Hz] & _).
  eexists. split; [|exact I].
  unfold read_label, InStringBinary, bind. rewrite Nat2Z.id.
  rewrite fread_app
    by (try exact Hlen; unfold w, label_width; destruct (dta_release f =? 105); lia).
  unfold ret. simpl fst. simpl snd. by rewrite (mkChar_terminated _ _ Hz).
Qed.

Lemma read_descriptors_layout buf81 rest :
  read_descriptors
    (mk_header (dta_release f =? 0x69) e sw (Z.of_nat (length vars)) (Z.of_nat nobs)
       buf81 (dta_timestamp f))
    (map v_type vars ++
     concat (map v_name vars) ++
     dta_sortlist f ++
     concat (map v_format vars) ++
     concat (map v_value_label vars) ++
     concat (map v_label vars) ++ rest) =
  Ok (mk_descriptors (map (column_upto e nobs 0) vars) (map v_type vars)
        (map (fun v => map underscore_to_dot (mkChar (v_name v))) vars)
        (map (fun v => mkChar (v_format v ++ drop 12 (dta_timestamp f))) vars)
        (map (fun v => mkChar (v_label v)) vars)) rest.
Proof using Hwf.
  pose proof Hwf as (_ & _ & _ & _ & _ & _ & Hsort & _). fold vars in Hsort.
  unfold read_descriptors. cbv zeta. simpl h_nvar. simpl h_nobs. simpl h_version5.
  simpl h_timestamp. simpl h_datalabel.
  assert (Halloc : forall (A : Type) (dflt : A) fp,
            allocVector dflt (Z.of_nat (length vars)) fp =
            Ok (replicate (length vars) dflt) fp).
  { intros A dflt fp. rewrite allocVector_run.
    destruct (Z.ltb_spec (Z.of_nat (length vars)) 0); [lia|]. by rewrite Nat2Z.id. }
  rewrite Nat2Z.id.
  rewrite (bind_Ok _ _ _ _ _ (Halloc _ _ _)), (bind_Ok _ _ _ _ _ (Halloc _ _ _)).
  rewrite (bind_Ok _ _ _ _ _ (read_types_layout _)). simpl fst. simpl snd.
  rewrite (bind_Ok _ _ _ _ _ (Halloc _ _ _)).
  destruct (read_names_layout
              (dta_sortlist f ++ concat (map v_format vars) ++
               concat (map v_value_label vars) ++
               concat (map v_label vars) ++ rest)) as (aname & Hn).
  rewrite (bind_Ok _ _ _ _ _ Hn). simpl fst. simpl snd.
  unfold bind at 1. unfold for_loop at 1. rewrite <- Hsort.
  rewrite for_from_skip_bytes.
  rewrite (bind_Ok _ _ _ _ _ (Halloc _ _ _)).
  destruct (read_formats_layout
              (concat (map v_value_label vars) ++ concat (map v_label vars) ++ rest))
    as (buf & Hf).
  rewrite (bind_Ok _ _ _ _ _ Hf). simpl snd.
  destruct (skip_value_labels_layout aname (concat (map v_label vars) ++ rest))
    as (buf' & Hv).
  rewrite (bind_Ok _ _ _ _ _ Hv).
  rewrite (bind_Ok _ _ _ _ _ (Halloc _ _ _)).
  destruct (read_var_labels_layout buf81 rest) as (buf'' & Hl).
  replace (if dta_release f =? 105 then 32 else 81) with (Z.of_nat w)
    by (unfold w, label_width; by destruct (dta_release f =? 105)).
  rewrite (bind_Ok _ _ _ _ _ Hl). reflexivity.
Qed.

(** *** The data *)

Lemma nth_types j :
  (j < length vars)%nat -> nth j (map v_type vars) 0 = v_type (nth j vars dv).
Proof using Type. intros Hj. change 0 with (v_type dv). apply map_nth. Qed.

Lemma column_upto_cases k v :
  let cells := take k (v_cells v) in
  (v_type v = STATA_FLOAT ->
   column_upto e nobs k v = REALSXP (map (float_cell e) cells ++ replicate (nobs - k) 0)) /\
  (v_type v = STATA_DOUBLE ->
   column_upto e nobs k v = REALSXP (map (double_cell e) cells ++ replicate (nobs - k) 0)) /\
  (v_type v = STATA_INT ->
   column_upto e nobs k v = INTSXP (map (int_cell e) cells ++ replicate (nobs - k) 0)) /\
  (v_type v = STATA_SHORTINT ->
   column_upto e nobs k v = INTSXP (map (short_cell e) cells ++ replicate (nobs - k) 0)) /\
  (v_type v = STATA_BYTE ->
   column_upto e nobs k v = INTSXP (map byte_cell cells ++ replicate (nobs - k) 0)) /\
  (STATA_STRINGOFFSET < v_type v ->
   column_upto e nobs k v = STRSXP (map string_cell cells ++ replicate (nobs - k) [])).
Proof using Type.
  cbv zeta. unfold column_upto. cbv zeta.
  repeat split; intros Ht; try (rewrite Ht; reflexivity).
  destruct (tag_cases (v_type v) (or_intror Ht))
    as [E|[E|[E|[E|[E|(_ & E1 & E2 & E3 & E4 & E5 & _)]]]]];
    try (rewrite E in Ht; discriminate Ht).
  by rewrite E1, E2, E3, E4, E5.
Qed.

Lemma read_cell_layout i j pre post rest :
  (i < nobs)%nat -> (j < length vars)%nat -> length pre = j ->
  read_cell r e sw (map v_type vars) i j
    (pre ++ column_upto e nobs i (nth j vars dv) :: post)
    (nth i (v_cells (nth j vars dv)) [] ++ rest) =
  Ok ((pre ++ [column_upto e nobs (S i) (nth j vars dv)]) ++ post) rest.
Proof using Hwf.
  intros Hi Hj Hpre.
  pose proof Hwf as (_ & He & _). fold e in He.
  destruct (variable_well_formed j Hj) as (Htag & _ & _ & _ & _ & Hlen & Hcells).
  pose proof (nth_types j Hj) as Ht.
  set (v := nth j vars dv) in *.
  assert (Hc : length (nth i (v_cells v) []) = storage_width (v_type v) /\
               Forall is_byte (nth i (v_cells v) [])).
  { rewrite Forall_forall in Hcells. apply Hcells, nth_In. lia. }
  destruct Hc as [Hclen Hcb].
  destruct (read_cell_fixed r e sw (map v_type vars) i j
              (pre ++ column_upto e nobs i v :: post))
    as (Rf & Rd & Ri & Rs & Rb).
  destruct (column_upto_cases i v) as (Uf & Ud & Ui & Us & Ub & Ustr).
  destruct (column_upto_cases (S i) v) as (Vf & Vd & Vi & Vs & Vb & Vstr).
  tag_cases Htag.
  - rewrite Rf by congruence. rewrite Ht0 in Hclen. unfold bind.
    unfold sw. rewrite (InFloatBinary_ordered r e false _ rest He Hcb Hclen).
    cbv zeta. simpl negb. rewrite andb_true_r. unfold ret, VECTOR_ELT.
    rewrite nth_middle_app, insert_middle_app by exact Hpre.
    rewrite Uf, Vf by exact Ht0. simpl set_REAL.
    by rewrite <- (fill_cell (float_cell e) (v_cells v) 0 [] nobs i Hlen Hi).
  - rewrite Rd by congruence. rewrite Ht0 in Hclen. unfold bind.
    unfold sw. rewrite (InDoubleBinary_ordered r e false _ rest He Hcb Hclen).
    cbv zeta. simpl negb. rewrite andb_true_r. unfold ret, VECTOR_ELT.
    rewrite nth_middle_app, insert_middle_app by exact Hpre.
    rewrite Ud, Vd by exact Ht0. simpl set_REAL.
    by rewrite <- (fill_cell (double_cell e) (v_cells v) 0 [] nobs i Hlen Hi).
  - rewrite Ri by congruence. rewrite Ht0 in Hclen. unfold bind.
    unfold sw. rewrite (InIntegerBinary_ordered r e false _ rest He Hcb Hclen).
    cbv zeta. simpl negb. rewrite andb_true_r. unfold ret, VECTOR_ELT.
    rewrite nth_middle_app, insert_middle_app by exact Hpre.
    rewrite Ui, Vi by exact Ht0. simpl set_INTEGER.
    by rewrite <- (fill_cell (int_cell e) (v_cells v) 0 [] nobs i Hlen Hi).
  - rewrite Rs by congruence. rewrite Ht0 in Hclen. unfold bind.
    rewrite (InShortIntBinary_ordered e false sw _ rest Hcb Hclen).
    cbv zeta. simpl negb. rewrite andb_true_r. unfold ret, VECTOR_ELT.
    rewrite nth_middle_app, insert_middle_app by exact Hpre.
    rewrite Us, Vs by exact Ht0. simpl set_INTEGER.
    by rewrite <- (fill_cell (short_cell e) (v_cells v) 0 [] nobs i Hlen Hi).
  - rewrite Rb by congruence. rewrite Ht0 in Hclen. unfold bind.
    rewrite Ub, Vb by exact Ht0.
    rewrite <- (fill_cell byte_cell (v_cells v) 0 [] nobs i Hlen Hi).
    destruct (nth i (v_cells v) []) as [|b [|]]; try discriminate Hclen.
    simpl app. rewrite InByteBinary_cons. simpl negb. rewrite andb_true_r.
    unfold ret, VECTOR_ELT.
    rewrite nth_middle_app, insert_middle_app by exact Hpre. reflexivity.
  - assert (Hw : length (nth i (v_cells v) []) =
                 Z.to_nat (nth j (map v_type vars) 0 - STATA_STRINGOFFSET)).
    { rewrite Ht, Hclen. unfold storage_width.
      repeat match goal with E : (_ =? _) = false |- _ => rewrite E end. reflexivity. }
    rewrite (read_cell_string r e sw (map v_type vars) i j _ _ rest)
      by (try exact Hw; by rewrite Ht).
    unfold VECTOR_ELT. rewrite nth_middle_app, insert_middle_app by exact Hpre.
    rewrite Ustr, Vstr by exact Ht0. simpl SET_STRING_ELT.
    by rewrite <- (fill_cell string_cell (v_cells v) [] [] nobs i Hlen Hi).
Qed.

Lemma read_row_layout i rest :
  (i < nobs)%nat ->
  read_row r e sw (map v_type vars) (length vars) i
    (map (column_upto e nobs i) vars)
    (concat (map (fun v => nth i (v_cells v) []) vars) ++ rest) =
  Ok (map (column_upto e nobs (S i)) vars) rest.
Proof using Hwf.
  intros Hi. unfold read_row.
  destruct (for_loop_read
              (read_cell r e sw (map v_type vars) i)
              (fun j => nth i (v_cells (nth j vars dv)) [])
              (fun j df => df = map (column_upto e nobs (S i)) (take j vars) ++
                                map (column_upto e nobs i) (drop j vars))
              (length vars) (map (column_upto e nobs i) vars) rest)
    as (df & Hrun & ->).
  - intros j df rest0 Hj ->.
    rewrite (drop_S vars (nth j vars dv) j) by (by apply lookup_nth).
    simpl map. eexists. split.
    + apply read_cell_layout; [exact Hi | exact Hj|].
      rewrite length_map, length_take. lia.
    + by rewrite (map_take_S _ vars dv) by exact Hj.
  - reflexivity.
  - rewrite (map_seq_nth (fun v => nth i (v_cells v) []) dv vars) in Hrun.
    rewrite Hrun. by rewrite firstn_all, drop_all, app_nil_r.
Qed.

Lemma read_data_layout rest :
  for_loop nobs (read_row r e sw (map v_type vars) (length vars))
    (map (column_upto e nobs 0) vars)
    (concat (map (fun i => concat (map (fun v => nth i (v_cells v) []) vars))
               (seq 0 nobs)) ++ rest) =
  Ok (map (column_of e) vars) rest.
Proof using Hwf.
  destruct (for_loop_read
              (read_row r e sw (map v_type vars) (length vars))
              (fun i => concat (map (fun v => nth i (v_cells v) []) vars))
              (fun i df => df = map (column_upto e nobs i) vars)
              nobs (map (column_upto e nobs 0) vars) rest)
    as (df & Hrun & ->).
  - intros i df rest0 Hi ->. eexists. split; [by apply read_row_layout | reflexivity].
  - reflexivity.
  - rewrite Hrun. f_equal. apply map_ext_in. intros v Hv.
    apply column_upto_all.
    destruct Hwf as (_ & _ & _ & _ & _ & _ & _ & Hvars & _).
    rewrite Forall_forall in Hvars. by destruct (Hvars v Hv) as (_ & _ & _ & _ & _ & Hlen & _).
Qed.

Lemma load_layout rest :
  R_LoadStataData r (dta_bytes f ++ rest) = Ok (dta_frame f) rest.
Proof using Hwf.
  pose proof Hwf as (_ & He & _ & Hnobs & [_ Hdl] & _ & _ & _ & Hrec).
  fold e nobs in He, Hnobs.
  unfold R_LoadStataData. rewrite setup_consts_total.
  unfold dta_bytes. cbv zeta. fold e vars nobs. rewrite <- !app_assoc.
  rewrite (bind_Ok _ _ _ _ _ (read_header_layout _)).
  rewrite (bind_Ok _ _ _ _ _ (read_descriptors_layout _ _)).
  simpl h_stata_endian. simpl h_swapends.
  assert (Hchar : forall rest',
            read_characteristics e sw
              (characteristics_bytes e (dta_characteristics f) ++ 0 :: 0 :: 0 :: rest') =
            Ok tt rest').
  { intros rest'.
    pose proof (read_characteristics_records e sw (dta_characteristics f) 0 rest' Hrec
                  ltac:(lia)) as H.
    unfold short_file_bytes in H. simpl in H. by destruct (e =? LOHI). }
  simpl app. rewrite (bind_Ok _ _ _ _ _ (Hchar _)).
  unfold read_data. simpl h_nobs. simpl h_nvar. simpl h_stata_endian.
  simpl h_swapends. simpl d_types. simpl d_df. rewrite !Nat2Z.id.
  rewrite (bind_Ok _ _ _ _ _ (read_data_layout _)).
  unfold bind at 1. rewrite allocVector_run.
  destruct (Z.ltb_spec (Z.of_nat nobs) 0); [lia|]. rewrite Nat2Z.id.
  unfold bind at 1. unfold for_loop.
  pose proof (row_names_loop nobs 0 [] rest eq_refl) as Hr.
  change ([] ++ ?x) with x in Hr. rewrite Hr.
  unfold ret, dta_frame. simpl h_datalabel. simpl h_timestamp.
  simpl d_names. simpl d_formats. simpl d_varlabels.
  by rewrite (mkChar_terminated _ _ Hdl).
Qed.
End reading_a_file.


Lemma example_dta_well_formed : well_formed example_dta.
Proof.
  unfold well_formed, example_dta. simpl.
  split; [by left|]. split; [by left|]. split; [lia|]. split; [lia|].
  split; [split; [reflexivity | simpl; tauto]|].
  split; [split; [reflexivity | simpl; tauto]|].
  split; [reflexivity|].
  split; [| apply Forall_cons; [split; [discriminate | simpl; lia] | apply Forall_nil]].
  repeat apply Forall_cons; try apply Forall_nil;
    (split; [first [ left; unfold fixed_width_tag; tauto | right; reflexivity ]|]);
    (split; [split; [reflexivity | simpl; tauto]|]);
    (split; [split; [reflexivity | simpl; tauto]|]);
    (split; [reflexivity|]);
    (split; [split; [reflexivity | simpl; tauto]|]);
    (split; [reflexivity|]);
    repeat apply Forall_cons; try apply Forall_nil;
    (split; [reflexivity|]);
    repeat apply Forall_cons; try apply Forall_nil; unfold is_byte; cbv; split; congruence.
Qed.


(** The frame of the example: 1.0 and the missing float, 1.0 and the
    missing double, -2 and the missing long, the short -2 as 65534, the
    byte -2 as 254. *)
Example example_dta_frame :
  dta_frame example_dta =
  {| df_columns :=
       [REALSXP [one_double; 0x7FF8000000000000];
        REALSXP [one_double; NA_REAL];
        INTSXP [-2; NA_INTEGER];
        INTSXP [65534; NA_INTEGER];
        INTSXP [254; NA_INTEGER];
        STRSXP [bytes_of_string "abc" ++ [0]; bytes_of_string "de" ++ [0; 0]]];
     df_names := map bytes_of_string ["f.1"; "d"; "l"; "i"; "b"; "s"]%string;
     df_datalabel := bytes_of_string "survey";
     df_time_stamp := bytes_of_string "30 Oct 1999 12:00";
     df_formats := map bytes_of_string ["%9.0g"; "%10.0g"; "%12.0g"; "%8.0g"; "%8.0g"; "%3s"]%string;
     df_var_labels :=
       map bytes_of_string ["a float"; "a double"; "a long"; "an int"; "a byte"; "a string"]%string;
     df_class := bytes_of_string "data.frame";
     df_row_names := map bytes_of_string ["1"; "2"]%string |}.
Proof. vm_compute. reflexivity. Qed.

(** ** Writing a data frame *)

Lemma for_from_written_at {A} (body : nat -> A -> io A) (w : nat -> list Z)
    (I : nat -> A -> Prop) n :
  forall lo,
    (forall i a fp, (lo <= i < lo + n)%nat -> I i a ->
       exists a', body i a fp = Ok a' (fp ++ w i) /\ I (S i) a') ->
    forall a fp, I lo a ->
      exists a', for_from n lo body a fp = Ok a' (fp ++ concat (map w (seq lo n))) /\
                 I (lo + n)%nat a'.
Proof.
  induction n as [|n IH]; intros lo Hb a fp Ha.
  - exists a. simpl. by rewrite app_nil_r, Nat.add_0_r.
  - destruct (Hb lo a fp ltac:(lia) Ha) as (a1 & H1 & Ha1).
    destruct (IH (S lo) (fun i a fp Hi => Hb i a fp ltac:(lia)) a1 (fp ++ w lo) Ha1)
      as (a2 & H2 & Ha2).
    exists a2. split.
    + simpl. rewrite (bind_Ok _ _ _ _ _ H1), H2. by rewrite <- app_assoc.
    + by replace (lo + S n)%nat with (S lo + n)%nat by lia.
Qed.

Lemma for_loop_written_at {A} (body : nat -> A -> io A) (w : nat -> list Z)
    (I : nat -> A -> Prop) n a fp :
  (forall i a fp, (i < n)%nat -> I i a ->
     exists a', body i a fp = Ok a' (fp ++ w i) /\ I (S i) a') ->
  I 0%nat a ->
  exists a', for_loop n body a fp = Ok a' (fp ++ concat (map w (seq 0 n))) /\ I n a'.
Proof.
  intros Hb Ha. apply (for_from_written_at body w I n 0); [|exact Ha].
  intros i a0 fp0 Hi. apply Hb. lia.
Qed.

Lemma write_zeros n fp : for_loop n write_zero tt fp = Ok tt (fp ++ replicate n 0).
Proof.
  destruct (for_loop_written write_zero (fun _ => [0]) (fun _ => True) n tt fp)
    as ([] & Hrun & _); [|exact I|].
  - intros i a fp0 _ _. exists tt. split; [reflexivity | exact I].
  - by rewrite concat_map_singleton in Hrun.
Qed.

Lemma concat_map_one {A} (f : A -> Z) (l : list A) :
  concat (map (fun i => [f i]) l) = map f l.
Proof. induction l as [|a l IH]; simpl; [reflexivity | by rewrite IH]. Qed.

Lemma nth_map_seq {A} (f : nat -> A) (d : A) n i :
  (i < n)%nat -> nth i (map f (seq 0 n)) d = f i.
Proof.
  intros Hi. rewrite (nth_indep _ d (f 0%nat)) by (by rewrite length_map, length_seq).
  rewrite map_nth, seq_nth by exact Hi. reflexivity.
Qed.

Lemma to_mem_ordered m n x : to_mem m n x = ordered (endian_of m) n x.
Proof. by destruct m. Qed.

(** *** Columns that can be written *)

Lemma writable_nth nobs columns j :
  Forall (writable_column nobs) columns -> (j < length columns)%nat ->
  writable_column nobs (nth j columns NILSXP).
Proof.
  intros Hall Hj. rewrite Forall_forall in Hall. apply Hall, nth_In. exact Hj.
Qed.

Lemma last_In {A} (v : list A) (d : A) : v <> [] -> In (List.last v d) v.
Proof.
  induction v as [|a [|b v] IH]; intros Hne; [contradiction | by left |].
  right. apply IH. discriminate.
Qed.

Lemma string_width_pos (v : list (list Z)) :
  v <> [] -> Forall (fun c => c <> [] /\ Forall is_byte c) v ->
  (1 <= string_width v)%nat.
Proof.
  intros Hne Hall. rewrite Forall_forall in Hall.
  destruct (Hall _ (last_In v [] Hne)) as [Hc _].
  unfold string_width. destruct (List.last v []); [contradiction | simpl; lia].
Qed.

Lemma length_decimal_small k :
  (k <= 128)%nat -> (length (decimal (Z.of_nat k)) <= 3)%nat.
Proof.
  intros Hk.
  assert (H : forallb (fun k => length (decimal (Z.of_nat k)) <=? 3)%nat (seq 0 129) = true)
    by (vm_compute; reflexivity).
  rewrite forallb_forall in H. apply Nat.leb_le, H, in_seq. lia.
Qed.

Lemma length_format_text nobs x :
  writable_column nobs x -> (length (format_text x) + 1 <= 12)%nat.
Proof.
  destruct x as [|v|v|v|v|]; simpl; try contradiction; try (simpl; lia).
  intros (_ & _ & Hk & _). rewrite !length_app.
  pose proof (length_decimal_small _ Hk). simpl. lia.
Qed.

Lemma length_next_strformat nobs s x :
  writable_column nobs x -> length s = 12%nat -> length (next_strformat s x) = 12%nat.
Proof.
  intros Hx Hs. pose proof (length_format_text nobs x Hx) as Hlen.
  destruct x as [|v|v|v|v|]; try exact Hs.
  unfold next_strformat. rewrite length_app.
  change (length ([0] ++ ?d)) with (S (length d)). rewrite length_drop. lia.
Qed.

Lemma length_fold_strformat nobs columns :
  Forall (writable_column nobs) columns ->
  forall s, length s = 12%nat -> length (fold_left next_strformat columns s) = 12%nat.
Proof.
  induction 1 as [|x l Hx _ IH]; intros s Hs; [exact Hs|].
  simpl. apply IH. by apply (length_next_strformat nobs).
Qed.

Lemma length_strformat_after nobs columns :
  Forall (writable_column nobs) columns -> length (strformat_after columns) = 12%nat.
Proof. intros H. by apply (length_fold_strformat nobs). Qed.

Lemma strformat_after_S columns i :
  (i < length columns)%nat ->
  strformat_after (take (S i) columns) =
  next_strformat (strformat_after (take i columns)) (nth i columns NILSXP).
Proof.
  intros Hi. unfold strformat_after.
  rewrite (take_S_r columns i (nth i columns NILSXP)) by (by apply lookup_nth).
  by rewrite fold_left_app.
Qed.

Lemma length_format_field nobs columns j :
  Forall (writable_column nobs) columns -> length (format_field columns j) = 12%nat.
Proof.
  intros Hw. unfold format_field.
  destruct (nth j columns NILSXP); try reflexivity.
  apply (length_strformat_after nobs), Forall_take, Hw.
Qed.

Section writing_frames.
Variables (m : machine) (columns : list SEXP) (names : list (list Z)) (nobs : nat).
Hypothesis Hw : Forall (writable_column nobs) columns.
Hypothesis Hnames : length names = length columns.

Let vars := dta_variables (saved_dta m columns names nobs).

Lemma nth_types_entry j :
  (j < length columns)%nat ->
  map types_entry columns !! j = Some (types_entry (nth j columns NILSXP)).
Proof using Hw Hnames.
  intros Hj. rewrite list_lookup_fmap, (lookup_nth columns j NILSXP Hj). reflexivity.
Qed.

Lemma write_type_run i k fp :
  (i < length columns)%nat ->
  exists k',
    write_type columns (Z.of_nat nobs) i
      (k, map types_entry (take i columns) ++ replicate (length columns - i) 0) fp =
    Ok (k', map types_entry (take (S i) columns) ++ replicate (length columns - S i) 0)
       (fp ++ [type_byte (nth i columns NILSXP)]).
Proof using Hw Hnames.
  intros Hi. pose proof (writable_nth _ _ _ Hw Hi) as Hx.
  pose proof (lookup_nth columns i NILSXP Hi) as Hlk.
  rewrite (map_take_S types_entry columns NILSXP) by exact Hi.
  replace (length columns - i)%nat with (S (length columns - S i)) by lia.
  destruct (nth i columns NILSXP) as [|v|v|v|v|] eqn:Ex; simpl in Hx; try contradiction.
  1-3: exists k; unfold write_type, elt; rewrite Hlk; unfold bind, ret;
       rewrite OutByteBinary_run; simpl types_entry; simpl type_byte;
       by rewrite <- app_assoc.
  destruct Hx as (Hlen & Hne & Hk & Hcells).
  exists (Z.of_nat (string_width v)). rewrite <- Hlen.
  rewrite (write_type_string columns i v _ fp Hlk). cbv zeta. simpl fst. simpl snd.
  assert (Hlast : match v with
                  | [] => k
                  | _ :: _ => Z.of_nat (length (List.last v []))
                  end = Z.of_nat (string_width v))
    by (destruct v; [contradiction | reflexivity]).
  rewrite Hlast. simpl types_entry. simpl type_byte.
  replace (to_uchar (Z.of_nat (string_width v) + STATA_STRINGOFFSET))
    with (Z.of_nat (string_width v) + STATA_STRINGOFFSET)
    by (unfold to_uchar, STATA_STRINGOFFSET; rewrite Z.mod_small; lia).
  rewrite insert_app_r_alt by (rewrite length_map, length_take; lia).
  rewrite length_map, length_take.
  replace (i - i `min` length columns)%nat with 0%nat by lia.
  by rewrite <- app_assoc.
Qed.

Lemma write_name_field i aname fp :
  (i < length columns)%nat -> length aname = 9%nat ->
  exists aname',
    write_name names i aname fp = Ok aname' (fp ++ name_field (nth i names [])) /\
    length aname' = 9%nat.
Proof using Hw Hnames.
  intros Hi Ha. eexists. split.
  - rewrite (write_name_run names i (nth i names []) aname fp); [reflexivity| |exact Ha].
    apply lookup_nth. lia.
  - rewrite length_app, length_map, length_drop, length_strncpy_prefix. lia.
Qed.

Lemma write_label_run i datalabel fp :
  (i < length columns)%nat -> length datalabel = 81%nat ->
  write_label names i datalabel fp =
  Ok (label_field (nth i names [])) (fp ++ label_field (nth i names [])).
Proof using Hw Hnames.
  intros Hi Hd. unfold write_label.
  rewrite (bind_Ok _ _ _ _ _ (elt_nth names i [] fp ltac:(lia))).
  unfold strncpy. rewrite (drop_ge datalabel) by lia. rewrite app_nil_r.
  fold (label_field (nth i names [])).
  unfold bind, OutStringBinary. change (Z.to_nat 81) with 81%nat.
  rewrite fwrite_exact; [reflexivity| |lia].
  apply length_label_field.
Qed.

Lemma write_format_run i fp :
  (i < length columns)%nat ->
  write_format columns (map types_entry columns) (char_array 12 "%9.0g") i
    (strformat_after (take i columns)) fp =
  Ok (strformat_after (take (S i) columns)) (fp ++ format_field columns i).
Proof using Hw Hnames.
  intros Hi. pose proof (writable_nth _ _ _ Hw Hi) as Hx.
  pose proof (length_format_text nobs _ Hx) as Htext.
  assert (Hlen : length (strformat_after (take i columns)) = 12%nat)
    by (apply (length_strformat_after nobs), Forall_take, Hw).
  rewrite (strformat_after_S columns i Hi). unfold format_field.
  rewrite (strformat_after_S columns i Hi).
  unfold write_format.
  rewrite (bind_Ok _ _ _ _ _ (elt_nth columns i NILSXP fp Hi)).
  pose proof (nth_types_entry i Hi) as Hty.
  destruct (nth i columns NILSXP) as [|v|v|v|v|]; simpl in Hx; try contradiction.
  1-3: unfold bind, OutStringBinary; change (Z.to_nat 12) with 12%nat;
       by rewrite fwrite_exact by (try reflexivity; lia).
  unfold elt. rewrite Hty. unfold bind at 1, ret at 1. simpl types_entry.
  unfold sprintf. fold (format_text (STRSXP v)).
  destruct (Nat.leb_spec (length (format_text (STRSXP v)) + 1)
              (length (strformat_after (take i columns)))) as [_|Hgt]; [|lia].
  unfold bind at 1, ret at 1. unfold bind, OutStringBinary.
  change (Z.to_nat 12) with 12%nat.
  rewrite fwrite_exact; [reflexivity| |lia].
  apply (length_next_strformat nobs _ (STRSXP v)); [exact Hx | exact Hlen].
Qed.

Lemma write_cell_run i j fp :
  (i < nobs)%nat -> (j < length columns)%nat ->
  write_cell m columns (map types_entry columns) i j tt fp =
  Ok tt (fp ++ cell_field m (nth j columns NILSXP) i).
Proof using Hw Hnames.
  intros Hi Hj. unfold write_cell.
  rewrite (bind_Ok _ _ _ _ _ (elt_nth columns j NILSXP fp Hj)).
  pose proof (writable_nth _ _ _ Hw Hj) as Hx.
  pose proof (nth_types_entry j Hj) as Hty.
  destruct (nth j columns NILSXP) as [|v|v|v|v|]; simpl in Hx; try contradiction.
  - destruct Hx as [Hlen _].
    rewrite (bind_Ok _ _ _ _ _ (elt_nth v i 0 fp ltac:(lia))). simpl cell_field.
    rewrite OutIntegerBinary_run. simpl negb. by rewrite andb_true_r.
  - destruct Hx as [Hlen _].
    rewrite (bind_Ok _ _ _ _ _ (elt_nth v i 0 fp ltac:(lia))). simpl cell_field.
    rewrite OutIntegerBinary_run. simpl negb. by rewrite andb_true_r.
  - destruct Hx as [Hlen _].
    rewrite (bind_Ok _ _ _ _ _ (elt_nth v i 0 fp ltac:(lia))). simpl cell_field.
    by rewrite OutDoubleBinary_run.
  - destruct Hx as (Hlen & _ & _ & Hcells).
    rewrite (bind_Ok _ _ _ _ _ (elt_nth v i [] fp ltac:(lia))). cbv zeta.
    assert (Hc : nth i v [] <> []).
    { rewrite Forall_forall in Hcells. apply Hcells, nth_In. lia. }
    unfold bind at 1. unfold OutStringBinary. rewrite Nat2Z.id.
    rewrite fwrite_exact;
      [| reflexivity | destruct (nth i v []); [contradiction | discriminate]].
    unfold elt. rewrite Hty. unfold bind, ret. simpl types_entry.
    rewrite write_zeros. simpl cell_field. unfold pad. rewrite <- app_assoc.
    do 4 f_equal. lia.
Qed.

Lemma write_descriptors_run d fp :
  df_columns d = columns -> df_names d = names ->
  write_descriptors d (Z.of_nat nobs) fp =
  Ok (map types_entry columns)
     (fp ++ map v_type vars ++
      concat (map v_name vars) ++
      replicate (Z.to_nat (2 * (Z.of_nat (length columns) + 1))) 0 ++
      concat (map v_format vars) ++
      concat (map v_value_label vars) ++
      concat (map v_label vars)).
Proof using Hw Hnames.
  intros Hc Hn. unfold write_descriptors. cbv zeta. rewrite Hc, Hn.
  rewrite Nat2Z.id.
  unfold bind at 1. rewrite allocVector_run.
  destruct (Z.ltb_spec (Z.of_nat (length columns)) 0); [lia|]. rewrite Nat2Z.id.
  (* types *)
  destruct (for_loop_written_at (write_type columns (Z.of_nat nobs))
              (fun i => [type_byte (nth i columns NILSXP)])
              (fun i st => st.2 = map types_entry (take i columns) ++
                                  replicate (length columns - i) 0)
              (length columns) (0, replicate (length columns) 0) fp)
    as ([k types] & Hst & Htypes).
  { intros i [k0 types0] fp0 Hi Hty. simpl in Hty. subst types0.
    destruct (write_type_run i k0 fp0 Hi) as (k' & Hrun).
    eexists. split; [exact Hrun | reflexivity]. }
  { simpl. by rewrite Nat.sub_0_r. }
  simpl in Htypes. rewrite firstn_all, Nat.sub_diag, app_nil_r in Htypes. subst types.
  rewrite (bind_Ok _ _ _ _ _ Hst). simpl snd.
  (* names *)
  match goal with |- bind _ _ ?fp1 = _ =>
    destruct (for_loop_written (write_name names)
                (fun i => name_field (nth i names []))
                (fun aname => length aname = 9%nat)
                (length columns) (replicate 9 0) fp1)
      as (aname & Han & _); [|reflexivity|]
  end.
  { intros i a fp0 Hi Ha. by apply write_name_field. }
  rewrite (bind_Ok _ _ _ _ _ Han).
  (* sortlist *)
  rewrite (bind_Ok _ _ _ _ _ (write_zeros _ _)).
  (* formats *)
  match goal with |- bind _ _ ?fp1 = _ =>
    destruct (for_loop_written_at
                (write_format columns (map types_entry columns) (char_array 12 "%9.0g"))
                (format_field columns)
                (fun i s => s = strformat_after (take i columns))
                (length columns) (char_array 12 "") fp1)
      as (sf & Hf & _); [|reflexivity|]
  end.
  { intros i a fp0 Hi ->. eexists. split; [by apply write_format_run | reflexivity]. }
  rewrite (bind_Ok _ _ _ _ _ Hf).
  (* value labels *)
  match goal with |- bind _ _ ?fp1 = _ =>
    destruct (for_loop_written (write_value_label (replicate 9 0))
                (fun _ => replicate 9 0) (fun _ => True)
                (length columns) tt fp1)
      as (u' & Hv & _); [|exact I|]
  end.
  { intros i a fp0 Hi _. exists tt. split; [reflexivity | exact I]. }
  rewrite (bind_Ok _ _ _ _ _ Hv).
  (* variable labels *)
  match goal with |- bind _ _ ?fp1 = _ =>
    destruct (for_loop_written (write_label names)
                (fun i => label_field (nth i names []))
                (fun dl => length dl = 81%nat)
                (length columns) (char_array 81 "Written by R.              ") fp1)
      as (dl & Hl & _); [|reflexivity|]
  end.
  { intros i a fp0 Hi Ha. eexists. split; [by apply write_label_run|].
    apply length_label_field. }
  rewrite (bind_Ok _ _ _ _ _ Hl). unfold ret. f_equal.
  clear Hst Han Hf Hv Hl.
  rewrite <- !app_assoc. rewrite concat_map_one.
  unfold vars, saved_dta. simpl dta_variables. rewrite !map_map. reflexivity.
Qed.

Lemma write_data_run fp :
  write_data m columns (map types_entry columns) (Z.of_nat nobs) fp =
  Ok tt (fp ++ concat (map (fun i => concat (map (fun v => nth i (v_cells v) []) vars))
                         (seq 0 nobs))).
Proof using Hw Hnames.
  unfold write_data. rewrite Nat2Z.id.
  destruct (for_loop_written (write_row m columns (map types_entry columns) (length columns))
              (fun i => concat (map (fun v => nth i (v_cells v) []) vars))
              (fun _ => True) nobs tt fp) as ([] & Hrun & _); [|exact I|exact Hrun].
  intros i [] fp0 Hi _. exists tt. split; [|exact I]. unfold write_row.
  destruct (for_loop_written (write_cell m columns (map types_entry columns) i)
              (fun j => cell_field m (nth j columns NILSXP) i)
              (fun _ => True) (length columns) tt fp0) as ([] & Hrow & _); [|exact I|].
  { intros j [] fp1 Hj _. exists tt. split; [by apply write_cell_run | exact I]. }
  rewrite Hrow. do 3 f_equal.
  unfold vars, saved_dta. simpl dta_variables. rewrite map_map.
  apply map_ext. intros j. simpl v_cells. by rewrite nth_map_seq.
Qed.

Lemma save_layout d fp :
  df_columns d = columns -> df_names d = names ->
  columns <> [] -> Z.of_nat (length columns) < 65536 -> Z.of_nat nobs < 2 ^ 31 ->
  R_SaveStataData m d fp = Ok tt (fp ++ dta_bytes (saved_dta m columns names nobs)).
Proof using Hw Hnames.
  intros Hc Hn Hne Hnvar Hnobs. unfold R_SaveStataData. rewrite setup_consts_total, Hc.
  assert (Hex : exists x0 cols, columns = x0 :: cols)
    by (destruct columns as [|x0 cols]; [contradiction | by exists x0, cols]).
  destruct Hex as (x0 & cols & Ecols).
  assert (Hlen : R_length x0 = Z.of_nat nobs).
  { pose proof (writable_nth nobs columns 0 Hw) as Hx.
    rewrite Ecols in Hx. specialize (Hx ltac:(simpl; lia)). simpl in Hx.
    destruct x0; simpl in Hx; try contradiction; destruct Hx as [<- _]; reflexivity. }
  pose proof (write_header_run m (endian_of m) x0 cols fp) as Hh.
  rewrite <- Ecols, Hlen in Hh. rewrite (bind_Ok _ _ _ _ _ Hh).
  rewrite (bind_Ok _ _ _ _ _ (write_descriptors_run d _ Hc Hn)).
  do 3 (unfold bind at 1; rewrite OutByteBinary_run).
  rewrite write_data_run. f_equal. unfold dta_bytes. cbv zeta. fold vars.
  simpl dta_release. simpl dta_byteorder. simpl dta_filetype. simpl dta_padding.
  simpl dta_nobs. simpl dta_datalabel. simpl dta_timestamp. simpl dta_sortlist.
  simpl dta_characteristics.
  replace (length vars) with (length columns)
    by (unfold vars; simpl; by rewrite length_map, length_seq).
  rewrite OutShortIntBinary_file_bytes by lia.
  replace (to_uchar (endian_of m)) with (endian_of m) by (by destruct m).
  unfold int_to_mem. rewrite to_mem_ordered.
  replace (bits_of_int (Z.of_nat nobs)) with (Z.of_nat nobs)
    by (unfold bits_of_int; rewrite Z.mod_small; lia).
  change (to_uchar 0) with 0. change (characteristics_bytes _ []) with (@nil Z).
  rewrite <- !app_assoc. reflexivity.
Qed.
End writing_frames.

(** ** The file of a data frame is well formed, and holds the frame *)

Lemma to_mem_are_bytes m n x : Forall is_byte (to_mem m n x).
Proof. destruct m; simpl; [apply Forall_rev|]; apply le_bytes_are_bytes. Qed.

Lemma aligned_nth columns j :
  Forall aligned_column columns -> (j < length columns)%nat ->
  aligned_column (nth j columns NILSXP).
Proof.
  intros Hall Hj. rewrite Forall_forall in Hall. apply Hall, nth_In. exact Hj.
Qed.

Lemma storage_width_string k :
  storage_width (Z.of_nat k + STATA_STRINGOFFSET) = k.
Proof.
  unfold storage_width, STATA_STRINGOFFSET, STATA_FLOAT, STATA_DOUBLE, STATA_INT,
    STATA_SHORTINT, STATA_BYTE.
  repeat match goal with
         | |- context [?a =? ?b] => destruct (Z.eqb_spec a b); [lia|]
         end.
  lia.
Qed.

Lemma length_pad k c : (length c <= k)%nat -> length (pad k c) = k.
Proof. intros H. unfold pad. rewrite length_app, length_replicate. lia. Qed.

Lemma cell_field_well_formed m nobs x i :
  writable_column nobs x -> aligned_column x -> (i < nobs)%nat ->
  length (cell_field m x i) = storage_width (type_byte x) /\
  Forall is_byte (cell_field m x i).
Proof.
  intros Hx Ha Hi.
  destruct x as [|v|v|v|v|]; simpl in Hx; try contradiction; simpl cell_field;
    simpl type_byte.
  - split; [apply length_to_mem | apply to_mem_are_bytes].
  - split; [apply length_to_mem | apply to_mem_are_bytes].
  - split; [apply length_to_mem | apply to_mem_are_bytes].
  - destruct Hx as (Hlen & _ & _ & Hcells). simpl in Ha.
    rewrite Forall_forall in Hcells, Ha.
    assert (Hin : In (nth i v []) v) by (apply nth_In; lia).
    rewrite storage_width_string. split.
    + apply length_pad, Ha, Hin.
    + unfold pad. apply Forall_app. split; [apply Hcells, Hin|].
      apply Forall_replicate. unfold is_byte. lia.
Qed.

Lemma In_label_field name : In 0 (label_field name).
Proof.
  unfold label_field. apply list_elem_of_In, (list_elem_of_lookup_2 _ 80%nat).
  apply list_lookup_insert_eq. rewrite length_strncpy_prefix. lia.
Qed.

Lemma saved_variable_well_formed m columns names nobs j :
  Forall (writable_column nobs) columns -> Forall aligned_column columns ->
  (j < length columns)%nat ->
  well_formed_variable 81 nobs (replicate 18 0) (saved_variable m columns names nobs j).
Proof.
  intros Hw Ha Hj. pose proof (writable_nth _ _ _ Hw Hj) as Hx.
  pose proof (aligned_nth _ _ Ha Hj) as Hax.
  unfold well_formed_variable, saved_variable. cbv zeta.
  simpl v_type. simpl v_name. simpl v_format. simpl v_value_label. simpl v_label.
  simpl v_cells.
  split; [|split; [|split; [|split; [|split; [|split]]]]].
  - destruct (nth j columns NILSXP) as [|v|v|v|v|]; simpl in Hx; try contradiction;
      simpl type_byte; unfold fixed_width_tag; try tauto.
    right. destruct Hx as (_ & Hne & _ & Hcells).
    pose proof (string_width_pos v Hne Hcells). lia.
  - split; [apply length_name_field|]. unfold name_field. apply in_or_app. right. by left.
  - split; [by apply (length_format_field nobs)|].
    apply in_or_app. right. by left.
  - reflexivity.
  - split; [apply length_label_field | apply In_label_field].
  - by rewrite length_map, length_seq.
  - apply Forall_map, Forall_forall. intros i Hi. apply in_seq in Hi.
    apply (cell_field_well_formed m nobs); [exact Hx | exact Hax | lia].
Qed.

Lemma saved_dta_well_formed m columns names nobs :
  Forall (writable_column nobs) columns -> Forall aligned_column columns ->
  Z.of_nat (length columns) < 65536 -> Z.of_nat nobs < 2 ^ 31 ->
  well_formed (saved_dta m columns names nobs).
Proof.
  intros Hw Ha Hnvar Hnobs. unfold well_formed, saved_dta.
  simpl dta_release. simpl dta_byteorder. simpl dta_nobs. simpl dta_datalabel.
  simpl dta_timestamp. simpl dta_variables. simpl dta_sortlist.
  simpl dta_characteristics. rewrite length_map, length_seq.
  split; [by right|]. split; [apply endian_of_cases|].
  split; [exact Hnvar|]. split; [exact Hnobs|].
  split; [split; [reflexivity | vm_compute; tauto]|].
  split; [split; [reflexivity | by left]|].
  split; [apply length_replicate|].
  split; [|apply Forall_nil].
  apply Forall_map, Forall_forall. intros j Hj. apply in_seq in Hj.
  apply saved_variable_well_formed; [exact Hw | exact Ha | lia].
Qed.

(** *** The cells come back *)

Lemma int_cell_saved m c :
  is_int c ->
  int_cell (endian_of m) (int_to_mem m (if c =? NA_INTEGER then STATA_INT_NA else c)) =
  read_back_int c.
Proof.
  intros Hc. unfold int_cell, int_to_mem. cbv zeta. rewrite to_mem_ordered.
  rewrite ordered_value_ordered by apply bits_of_int_range.
  unfold read_back_int.
  destruct (Z.eqb_spec c NA_INTEGER) as [->|Hna]; [reflexivity|].
  by rewrite int_of_bits_of_int.
Qed.

Lemma double_cell_saved m c :
  is_bits64 c ->
  double_cell (endian_of m) (to_mem m 8 (if R_FINITE c then c else STATA_DOUBLE_NA)) =
  read_back_real c.
Proof.
  intros Hc. unfold double_cell. cbv zeta. rewrite to_mem_ordered.
  rewrite ordered_value_ordered
    by (change (256 ^ Z.of_nat 8) with (2 ^ 64); destruct (R_FINITE c);
        [exact Hc | unfold STATA_DOUBLE_NA; lia]).
  rewrite double_eq_sentinel. unfold read_back_real.
  destruct (R_FINITE c); [|reflexivity]. simpl andb.
  by destruct (c =? STATA_DOUBLE_NA).
Qed.

Lemma column_of_saved m columns names nobs j :
  writable_column nobs (nth j columns NILSXP) ->
  column_of (endian_of m) (saved_variable m columns names nobs j) =
  read_back_column (nth j columns NILSXP).
Proof.
  intros Hx. unfold column_of, saved_variable. cbv zeta. simpl v_type. simpl v_cells.
  destruct (nth j columns NILSXP) as [|v|v|v|v|]; simpl in Hx; try contradiction.
  - destruct Hx as [<- Hall]. simpl. f_equal. rewrite map_map.
    rewrite <- (map_seq_nth read_back_int 0 v).
    apply map_ext_in. intros i Hi. apply in_seq in Hi. simpl cell_field.
    rewrite Forall_forall in Hall. apply int_cell_saved, Hall, nth_In. lia.
  - destruct Hx as [<- Hall]. simpl. f_equal. rewrite map_map.
    rewrite <- (map_seq_nth read_back_int 0 v).
    apply map_ext_in. intros i Hi. apply in_seq in Hi. simpl cell_field.
    rewrite Forall_forall in Hall. apply int_cell_saved, Hall, nth_In. lia.
  - destruct Hx as [<- Hall]. simpl. f_equal. rewrite map_map.
    rewrite <- (map_seq_nth read_back_real 0 v).
    apply map_ext_in. intros i Hi. apply in_seq in Hi. simpl cell_field.
    rewrite Forall_forall in Hall. apply double_cell_saved, Hall, nth_In. lia.
  - destruct Hx as (<- & _). simpl type_byte.
    assert (E : forall t, t < STATA_STRINGOFFSET ->
                (Z.of_nat (string_width v) + STATA_STRINGOFFSET =? t) = false)
      by (intros t Ht; apply Z.eqb_neq; lia).
    rewrite !E by (unfold STATA_STRINGOFFSET; reflexivity).
    simpl read_back_column. f_equal. rewrite map_map.
    apply (map_seq_nth (fun c => string_cell (pad (string_width v) c)) [] v).
Qed.

Lemma no_zero_format_text x : no_zero (format_text x).
Proof.
  destruct x as [|v|v|v|v|]; unfold format_text, no_zero;
    try (repeat constructor; discriminate).
  apply Forall_app. split; [repeat constructor; discriminate|].
  apply Forall_app. split; [apply no_zero_decimal | repeat constructor; discriminate].
Qed.

Lemma mkChar_format_field nobs columns j rest :
  Forall (writable_column nobs) columns -> (j < length columns)%nat ->
  mkChar (format_field columns j ++ rest) = format_text (nth j columns NILSXP).
Proof.
  intros Hw Hj. pose proof (writable_nth _ _ _ Hw Hj) as Hx.
  unfold format_field. rewrite (strformat_after_S columns j Hj).
  destruct (nth j columns NILSXP) as [|v|v|v|v|]; simpl in Hx; try contradiction;
    try reflexivity.
  unfold next_strformat. rewrite <- !app_assoc.
  apply mkChar_app_zero, no_zero_format_text.
Qed.

Lemma saved_dta_frame m columns names nobs :
  Forall (writable_column nobs) columns -> length names = length columns ->
  dta_frame (saved_dta m columns names nobs) = read_back_frame columns names nobs.
Proof.
  intros Hw Hnames. unfold dta_frame, read_back_frame, saved_dta. cbv zeta.
  simpl dta_variables. simpl dta_byteorder. simpl dta_datalabel. simpl dta_timestamp.
  simpl dta_nobs. rewrite !map_map. f_equal.
  - rewrite <- (map_seq_nth read_back_column NILSXP columns).
    apply map_ext_in. intros j Hj. apply in_seq in Hj.
    apply column_of_saved, (writable_nth nobs); [exact Hw | lia].
  - rewrite <- Hnames.
    rewrite <- (map_seq_nth (fun name => map underscore_to_dot (take 8 (mkChar name)))
                  [] names).
    apply map_ext. intros j. simpl v_name. apply mkChar_name_field.
  - rewrite <- (map_seq_nth format_text NILSXP columns).
    apply map_ext_in. intros j Hj. apply in_seq in Hj. simpl v_format.
    apply (mkChar_format_field nobs); [exact Hw | lia].
  - rewrite <- Hnames.
    rewrite <- (map_seq_nth (fun name => take 80 (mkChar name)) [] names).
    apply map_ext. intros j. simpl v_label. apply mkChar_label_field.
Qed.

(** ** The size of a file *)

Lemma length_concat_const {A B} (f : A -> list B) (l : list A) k :
  (forall x, In x l -> length (f x) = k) ->
  length (concat (map f l)) = (k * length l)%nat.
Proof.
  induction l as [|x l IH]; intros H; simpl; [lia|].
  rewrite length_app, (H x) by (by left). rewrite IH by (intros y Hy; apply H; by right).
  lia.
Qed.

Lemma length_concat_sum {A B} (f : A -> list B) (g : A -> nat) (l : list A) :
  (forall x, In x l -> length (f x) = g x) ->
  length (concat (map f l)) = list_sum (map g l).
Proof.
  induction l as [|x l IH]; intros H; simpl; [reflexivity|].
  rewrite length_app, (H x) by (by left). rewrite IH by (intros y Hy; apply H; by right).
  reflexivity.
Qed.

Lemma length_dta_bytes f :
  well_formed f ->
  length (dta_bytes f) =
  (28 + label_width (dta_release f) +
   (31 + label_width (dta_release f)) * length (dta_variables f) +
   2 * (length (dta_variables f) + 1) +
   length (characteristics_bytes (dta_byteorder f) (dta_characteristics f)) + 3 +
   dta_nobs f * list_sum (map (fun v => storage_width (v_type v)) (dta_variables f)))%nat.
Proof.
  intros (_ & _ & _ & _ & [Hdl _] & [Hts _] & Hsort & Hvars & _).
  rewrite Forall_forall in Hvars. unfold dta_bytes. cbv zeta.
  rewrite !length_app, length_map, length_ordered, Hdl, Hts, Hsort.
  rewrite (length_concat_const v_name _ 9)
    by (intros v Hv; by destruct (Hvars v Hv) as (_ & [H _] & _)).
  rewrite (length_concat_const v_format _ 12)
    by (intros v Hv; by destruct (Hvars v Hv) as (_ & _ & [H _] & _)).
  rewrite (length_concat_const v_value_label _ 9)
    by (intros v Hv; by destruct (Hvars v Hv) as (_ & _ & _ & H & _)).
  rewrite (length_concat_const v_label _ (label_width (dta_release f)))
    by (intros v Hv; by destruct (Hvars v Hv) as (_ & _ & _ & _ & [H _] & _)).
  rewrite (length_concat_const _ (seq 0 (dta_nobs f))
             (list_sum (map (fun v => storage_width (v_type v)) (dta_variables f)))).
  - rewrite length_seq.
    assert (H2 : length (short_file_bytes (dta_byteorder f)
                           (Z.of_nat (length (dta_variables f)))) = 2%nat)
      by (unfold short_file_bytes; by destruct (dta_byteorder f =? LOHI)).
    rewrite H2. simpl length. lia.
  - intros i Hi. apply in_seq in Hi. apply length_concat_sum. intros v Hv.
    destruct (Hvars v Hv) as (_ & _ & _ & _ & _ & Hlen & Hcells).
    rewrite Forall_forall in Hcells. apply Hcells, nth_In. lia.
Qed.

Lemma storage_width_type_byte nobs x :
  writable_column nobs x -> storage_width (type_byte x) = cell_width x.
Proof.
  destruct x as [|v|v|v|v|]; simpl; try contradiction; try reflexivity.
  intros _. apply storage_width_string.
Qed.

Lemma length_saved_file m columns names nobs :
  Forall (writable_column nobs) columns -> Forall aligned_column columns ->
  Z.of_nat (length columns) < 65536 -> Z.of_nat nobs < 2 ^ 31 ->
  length (dta_bytes (saved_dta m columns names nobs)) =
  (114 + 114 * length columns + nobs * list_sum (map cell_width columns))%nat.
Proof.
  intros Hw Ha Hnvar Hnobs.
  rewrite length_dta_bytes by (by apply saved_dta_well_formed).
  unfold saved_dta. simpl dta_release. simpl dta_variables. simpl dta_nobs.
  simpl dta_characteristics. simpl dta_byteorder.
  rewrite length_map, length_seq, map_map.
  change (label_width 108) with 81%nat.
  change (length (characteristics_bytes (endian_of m) [])) with 0%nat.
  replace (map (fun j => storage_width (v_type (saved_variable m columns names nobs j)))
             (seq 0 (length columns)))
    with (map cell_width columns); [lia|].
  rewrite <- (map_seq_nth cell_width NILSXP columns).
  apply map_ext_in. intros j Hj. apply in_seq in Hj. simpl v_type.
  symmetry. apply (storage_width_type_byte nobs), writable_nth; [exact Hw | lia].
Qed.

(** ** Data frames: the file, its size, and the way back *)

Lemma numeric_is_writable nobs x : numeric_column nobs x -> writable_column nobs x.
Proof. by destruct x. Qed.

Lemma numeric_is_aligned nobs x : numeric_column nobs x -> aligned_column x.
Proof. destruct x; simpl; tauto. Qed.

Lemma read_back_int_idem c : read_back_int (read_back_int c) = read_back_int c.
Proof.
  unfold read_back_int. destruct (Z.eqb_spec c STATA_INT_NA) as [->|Hc]; [reflexivity|].
  by destruct (Z.eqb_spec c STATA_INT_NA).
Qed.

Lemma read_back_real_idem c : read_back_real (read_back_real c) = read_back_real c.
Proof.
  unfold read_back_real.
  destruct (R_FINITE c && negb (c =? STATA_DOUBLE_NA)) eqn:E; [by rewrite E | reflexivity].
Qed.

Lemma read_back_column_idem nobs x :
  numeric_column nobs x -> read_back_column (read_back_column x) = read_back_column x.
Proof.
  destruct x as [|v|v|v|v|]; simpl; try contradiction; intros _; f_equal;
    rewrite map_map; apply map_ext; intros c;
    [apply read_back_int_idem ..| apply read_back_real_idem].
Qed.

Lemma read_back_int_range c : is_int c -> is_int (read_back_int c).
Proof.
  unfold read_back_int, is_int, NA_INTEGER. destruct (c =? STATA_INT_NA); lia.
Qed.

Lemma read_back_real_range c : is_bits64 c -> is_bits64 (read_back_real c).
Proof.
  unfold read_back_real, is_bits64, NA_REAL.
  destruct (R_FINITE c && negb (c =? STATA_DOUBLE_NA)); lia.
Qed.

Lemma read_back_column_numeric nobs x :
  numeric_column nobs x -> numeric_column nobs (read_back_column x).
Proof.
  destruct x as [|v|v|v|v|]; simpl; try contradiction; intros [Hlen Hall];
    (split; [by rewrite length_map|]); apply Forall_map;
    (eapply Forall_impl; [|exact Hall]); intros c;
    [apply read_back_int_range ..| apply read_back_real_range].
Qed.

Lemma format_text_read_back nobs x :
  numeric_column nobs x -> format_text (read_back_column x) = format_text x.
Proof. destruct x; simpl; try contradiction; reflexivity. Qed.

Lemma mkChar_id l : no_zero l -> mkChar l = l.
Proof.
  induction 1 as [|c l Hc _ IH]; simpl; [reflexivity|].
  destruct (Z.eqb_spec c 0); [contradiction | by rewrite IH].
Qed.

Lemma underscore_to_dot_idem c : underscore_to_dot (underscore_to_dot c) = underscore_to_dot c.
Proof.
  unfold underscore_to_dot. destruct (Z.eqb_spec c (chr "_")) as [->|Hc]; [reflexivity|].
  by destruct (Z.eqb_spec c (chr "_")).
Qed.

Lemma no_zero_underscore_to_dot l : no_zero l -> no_zero (map underscore_to_dot l).
Proof.
  intros Hl. apply Forall_map. eapply Forall_impl; [|exact Hl]. intros c Hc.
  unfold underscore_to_dot. destruct (Z.eqb_spec c (chr "_")); [discriminate | exact Hc].
Qed.

(** The name a variable comes back with is at most 8 characters long
    and is stable. *)
Lemma read_back_name_stable name :
  let name' := map underscore_to_dot (take 8 (mkChar name)) in
  map underscore_to_dot (take 8 (mkChar name')) = name' /\
  take 80 (mkChar name') = name'.
Proof.
  cbv zeta.
  assert (Hnz : no_zero (map underscore_to_dot (take 8 (mkChar name))))
    by apply no_zero_underscore_to_dot, no_zero_take, mkChar_no_zero.
  rewrite (mkChar_id _ Hnz). split.
  - rewrite firstn_map, take_take, map_map. apply map_ext, underscore_to_dot_idem.
  - apply take_ge. rewrite length_map, length_take. lia.
Qed.

Lemma read_back_frame_again columns names nobs :
  Forall (numeric_column nobs) columns ->
  read_back_frame (map read_back_column columns)
    (map (fun name => map underscore_to_dot (take 8 (mkChar name))) names) nobs =
  labelled_by_names (read_back_frame columns names nobs).
Proof.
  intros Hnum. rewrite Forall_forall in Hnum.
  unfold read_back_frame, labelled_by_names. simpl. f_equal.
  - rewrite map_map. apply map_ext_in. intros x Hx.
    by apply (read_back_column_idem nobs), Hnum.
  - rewrite map_map. apply map_ext. intros name.
    apply (read_back_name_stable name).
  - rewrite map_map. apply map_ext_in. intros x Hx.
    by apply (format_text_read_back nobs), Hnum.
  - rewrite map_map. apply map_ext. intros name.
    apply (read_back_name_stable name).
Qed.

(** X1: a data frame of at least one and fewer than 65536 columns and
    of fewer than 2^31 rows, whose columns are integer, logical or real
    vectors or vectors of non-empty strings (the last of at most 128
    characters), and which has a name for every column, is written
    without error, and the bytes appended to the file are those of
    [saved_dta]: the header of 109 bytes, the type bytes ('l', 'd', or
    0x7f plus the length of the last string of the column), the names
    cut to 8 characters with dots turned into underscores, the sort
    list of zeros, the formats ("%9.0g", or "%" width "s" as [sprintf]
    leaves it in the array it reuses), the empty value labels, the
    names again as variable labels, the three zero bytes of the
    characteristics, and the cells row by row, a string followed by
    the zeros that pad it to the length of the last string. *)
Theorem frame_is_written (m : machine) (d : data_frame) (nobs : nat) (fp : stream) :
  df_columns d <> [] ->
  Forall (writable_column nobs) (df_columns d) ->
  length (df_names d) = length (df_columns d) ->
  Z.of_nat (length (df_columns d)) < 65536 ->
  Z.of_nat nobs < 2 ^ 31 ->
  R_SaveStataData m d fp =
  Ok tt (fp ++ dta_bytes (saved_dta m (df_columns d) (df_names d) nobs)).
Proof.
  intros Hne Hw Hnames Hnvar Hnobs.
  by apply (save_layout m (df_columns d) (df_names d) nobs Hw Hnames).
Qed.

Lemma frame_is_written_witness :
  let d := data_frame_of [INTSXP [1; NA_INTEGER]; REALSXP [one_double; R_PosInf];
                          LGLSXP [1; 0]; STRSXP [bytes_of_string "abc"; bytes_of_string "de"]]
             [bytes_of_string "a.b"; bytes_of_string "x"; bytes_of_string "flag";
              bytes_of_string "s"] in
  R_SaveStataData LSB_first d [3; 4] =
  Ok tt ([3; 4] ++ dta_bytes (saved_dta LSB_first (df_columns d) (df_names d) 2)).
Proof.
  cbv zeta. apply frame_is_written.
  - discriminate.
  - repeat constructor; cbv; congruence.
  - reflexivity.
  - simpl. lia.
  - simpl. lia.
Defined.

(** X2: when moreover no string is longer than the last string of its
    column, the file grows by 114 bytes, by 114 bytes for every
    variable, and for every observation by 4 bytes for each integer or
    logical column, 8 bytes for each real column, and the length of
    its last string for each string column. *)
Theorem file_size (m : machine) (d : data_frame) (nobs : nat) (fp fp' : stream) :
  df_columns d <> [] ->
  Forall (writable_column nobs) (df_columns d) ->
  Forall aligned_column (df_columns d) ->
  length (df_names d) = length (df_columns d) ->
  Z.of_nat (length (df_columns d)) < 65536 ->
  Z.of_nat nobs < 2 ^ 31 ->
  R_SaveStataData m d fp = Ok tt fp' ->
  length fp' =
  (length fp + 114 + 114 * length (df_columns d) +
   nobs * list_sum (map cell_width (df_columns d)))%nat.
Proof.
  intros Hne Hw Ha Hnames Hnvar Hnobs.
  rewrite (save_layout m (df_columns d) (df_names d) nobs Hw Hnames d fp
             eq_refl eq_refl Hne Hnvar Hnobs).
  intros [= <-]. rewrite length_app, length_saved_file by assumption. lia.
Qed.

Lemma file_size_witness :
  let d := data_frame_of [INTSXP [1; NA_INTEGER]; REALSXP [one_double; R_PosInf];
                          STRSXP [bytes_of_string "ab"; bytes_of_string "cde"]]
             [bytes_of_string "a"; bytes_of_string "b"; bytes_of_string "c"] in
  let out := stream_of (R_SaveStataData MSB_first d []) in
  length out = (0 + 114 + 114 * 3 + 2 * (4 + (8 + (3 + 0))))%nat.
Proof.
  cbv zeta.
  apply (file_size MSB_first
           (data_frame_of [INTSXP [1; NA_INTEGER]; REALSXP [one_double; R_PosInf];
                           STRSXP [bytes_of_string "ab"; bytes_of_string "cde"]]
              [bytes_of_string "a"; bytes_of_string "b"; bytes_of_string "c"]) 2 []).
  - discriminate.
  - repeat constructor; cbv; congruence.
  - repeat constructor; cbv; congruence.
  - reflexivity.
  - simpl. lia.
  - simpl. lia.
  - vm_compute. reflexivity.
Defined.

(** X3: such a frame, written on one machine and read on another (of
    the same or of the other byte order), comes back as
    [read_back_frame]: logical columns as integer columns, the integer
    2147483647 as [NA_INTEGER], a real that is not finite or is 2^1023
    as [NA_REAL], every other number as it was, every string padded
    with zeros to the length of the last string of its column and
    with one more zero, which counts in its length; names cut to 8
    characters and with every underscore and every dot as a dot; the
    names, up to 80 characters, as variable labels; the formats; row
    names 1, 2, ...  The reader stops at the end of the file. *)
Theorem frame_roundtrip (writer reader : machine) (d : data_frame)
    (nobs : nat) (rest : stream) :
  df_columns d <> [] ->
  Forall (writable_column nobs) (df_columns d) ->
  Forall aligned_column (df_columns d) ->
  length (df_names d) = length (df_columns d) ->
  Z.of_nat (length (df_columns d)) < 65536 ->
  Z.of_nat nobs < 2 ^ 31 ->
  exists file,
    R_SaveStataData writer d [] = Ok tt file /\
    R_LoadStataData reader (file ++ rest) =
    Ok (read_back_frame (df_columns d) (df_names d) nobs) rest.
Proof.
  intros Hne Hw Ha Hnames Hnvar Hnobs.
  exists (dta_bytes (saved_dta writer (df_columns d) (df_names d) nobs)). split.
  - by apply (save_layout writer (df_columns d) (df_names d) nobs Hw Hnames).
  - rewrite (load_layout reader _ (saved_dta_well_formed writer _ _ _ Hw Ha Hnvar Hnobs)).
    by rewrite saved_dta_frame.
Qed.

Lemma frame_roundtrip_witness :
  let d := data_frame_of [INTSXP [1; NA_INTEGER; STATA_INT_NA];
                          REALSXP [one_double; R_PosInf; STATA_DOUBLE_NA];
                          LGLSXP [1; 0; NA_LOGICAL];
                          STRSXP [bytes_of_string "a"; bytes_of_string "bc";
                                  bytes_of_string "def"]]
             [bytes_of_string "a_b.c"; bytes_of_string "x";
              bytes_of_string "verylongname"; bytes_of_string "s"] in
  exists file,
    R_SaveStataData LSB_first d [] = Ok tt file /\
    R_LoadStataData MSB_first (file ++ [7]) =
    Ok (read_back_frame (df_columns d) (df_names d) 3) [7].
Proof.
  cbv zeta. apply frame_roundtrip.
  - discriminate.
  - repeat constructor; cbv; congruence.
  - repeat constructor; cbv; congruence.
  - reflexivity.
  - simpl. lia.
  - simpl. lia.
Defined.

(** X4: for a frame of numeric columns a second trip changes nothing
    but the variable labels.  The frame that came back from a first
    trip is written and read again as itself, except that its variable
    labels are now its names (the names had been cut to 8 characters,
    and the labels are written from the names). *)
Theorem second_roundtrip_is_stable (writer reader : machine) (d : data_frame)
    (nobs : nat) (rest : stream) :
  df_columns d <> [] ->
  Forall (numeric_column nobs) (df_columns d) ->
  length (df_names d) = length (df_columns d) ->
  Z.of_nat (length (df_columns d)) < 65536 ->
  Z.of_nat nobs < 2 ^ 31 ->
  let d1 := read_back_frame (df_columns d) (df_names d) nobs in
  exists file,
    R_SaveStataData writer d1 [] = Ok tt file /\
    R_LoadStataData reader (file ++ rest) = Ok (labelled_by_names d1) rest.
Proof.
  intros Hne Hnum Hnames Hnvar Hnobs d1.
  assert (Hnum1 : Forall (numeric_column nobs) (df_columns d1)).
  { apply Forall_map. eapply Forall_impl; [|exact Hnum].
    apply read_back_column_numeric. }
  assert (Hw1 : Forall (writable_column nobs) (df_columns d1))
    by (eapply Forall_impl; [|exact Hnum1]; apply numeric_is_writable).
  assert (Ha1 : Forall aligned_column (df_columns d1))
    by (eapply Forall_impl; [|exact Hnum1]; apply numeric_is_aligned).
  assert (Hnames1 : length (df_names d1) = length (df_columns d1))
    by (unfold d1; simpl; by rewrite !length_map).
  assert (Hne1 : df_columns d1 <> []).
  { unfold d1. simpl. destruct (df_columns d); [contradiction | discriminate]. }
  assert (Hnvar1 : Z.of_nat (length (df_columns d1)) < 65536)
    by (unfold d1; simpl; by rewrite length_map).
  exists (dta_bytes (saved_dta writer (df_columns d1) (df_names d1) nobs)). split.
  - by apply (save_layout writer (df_columns d1) (df_names d1) nobs Hw1 Hnames1).
  - rewrite (load_layout reader _
               (saved_dta_well_formed writer _ _ _ Hw1 Ha1 Hnvar1 Hnobs)).
    rewrite saved_dta_frame by assumption. f_equal.
    by apply read_back_frame_again.
Qed.

Lemma second_roundtrip_is_stable_witness :
  let d := data_frame_of [INTSXP [1; NA_INTEGER]; REALSXP [one_double; R_NegInf]]
             [bytes_of_string "a_rather_long_name"; bytes_of_string "x.y"] in
  let d1 := read_back_frame (df_columns d) (df_names d) 2 in
  exists file,
    R_SaveStataData MSB_first d1 [] = Ok tt file /\
    R_LoadStataData LSB_first (file ++ []) = Ok (labelled_by_names d1) [].
Proof.
  cbv zeta.
  apply (second_roundtrip_is_stable MSB_first LSB_first
           (data_frame_of [INTSXP [1; NA_INTEGER]; REALSXP [one_double; R_NegInf]]
              [bytes_of_string "a_rather_long_name"; bytes_of_string "x.y"]) 2 []).
  - discriminate.
  - repeat constructor; cbv; congruence.
  - reflexivity.
  - simpl. lia.
  - simpl. lia.
Defined.

(** ** Small integers are read as unsigned numbers *)

(** X6: the bytes of a negative short, or of a negative byte, in two's
    complement are read as the positive number 65536, or 256, above
    it: [InShortIntBinary] assembles an [unsigned short] and
    [InByteBinary] reads an [unsigned char], and neither is converted
    back to a signed number. *)
Theorem negative_small_integers_are_read_as_positive
    (e : Z) (naok swapends : bool) (s b : Z) (rest : stream) :
  -32768 <= s < 0 -> -128 <= b < 0 ->
  InShortIntBinary e naok swapends (short_file_bytes e (s mod 65536) ++ rest) =
  Ok (s + 65536) rest /\
  InByteBinary naok (b mod 256 :: rest) = Ok (b + 256) rest.
Proof.
  intros Hs Hb.
  assert (Hsm : s mod 65536 = s + 65536).
  { symmetry. apply (Z.mod_unique _ _ (-1)); lia. }
  assert (Hbm : b mod 256 = b + 256).
  { symmetry. apply (Z.mod_unique _ _ (-1)); lia. }
  rewrite Hsm, Hbm. split.
  - assert (Hbytes : Forall is_byte (short_file_bytes e (s + 65536))).
    { unfold short_file_bytes, is_byte.
      pose proof (Z.mod_pos_bound (s + 65536) 256 ltac:(lia)).
      assert (0 <= (s + 65536) / 256 < 256)
        by (split; [apply Z.div_pos | apply Z.div_lt_upper_bound]; lia).
      destruct (e =? LOHI); repeat constructor; lia. }
    assert (Hlen : length (short_file_bytes e (s + 65536)) = 2%nat)
      by (unfold short_file_bytes; by destruct (e =? LOHI)).
    rewrite (InShortIntBinary_ordered e naok swapends _ rest Hbytes Hlen). cbv zeta.
    assert (Hv : ordered_value e (short_file_bytes e (s + 65536)) = s + 65536).
    { unfold ordered_value, short_file_bytes.
      pose proof (Z.div_mod (s + 65536) 256 ltac:(lia)).
      destruct (e =? LOHI); simpl; lia. }
    rewrite Hv.
    destruct (Z.eqb_spec (s + 65536) STATA_SHORTINT_NA) as [E|_]; [|reflexivity].
    unfold STATA_SHORTINT_NA in E. lia.
  - rewrite InByteBinary_cons.
    destruct (Z.eqb_spec (b + 256) STATA_BYTE_NA) as [E|_]; [|reflexivity].
    unfold STATA_BYTE_NA in E. lia.
Qed.

Lemma negative_small_integers_are_read_as_positive_witness :
  InShortIntBinary HILO false false (short_file_bytes HILO ((-2) mod 65536) ++ [1]) =
  Ok (-2 + 65536) [1] /\
  InByteBinary false ((-2) mod 256 :: [1]) = Ok (-2 + 256) [1].
Proof.
  apply (negative_small_integers_are_read_as_positive HILO false false (-2) (-2) [1]); lia.
Defined.

(** ** The errors of the two functions *)

Lemma fails_only_ret {A} P (a : A) : fails_only P (ret a).
Proof. intros fp e fp' H. discriminate H. Qed.

Lemma fails_only_fail {A} (P : error -> Prop) e : P e -> fails_only P (@fail A e).
Proof. intros He fp e' fp' H. injection H as <- _. exact He. Qed.

Lemma fails_only_bind {A B} P (c : io A) (k : A -> io B) :
  fails_only P c -> (forall a, fails_only P (k a)) -> fails_only P (bind c k).
Proof.
  intros Hc Hk fp e fp' H. unfold bind in H.
  destruct (c fp) as [a fp1|e1 fp1] eqn:E.
  - by apply (Hk a fp1 e fp').
  - injection H as <- _. by apply (Hc fp e1 fp1).
Qed.

Lemma fails_only_for_from {A} P (body : nat -> A -> io A) n :
  forall lo,
    (forall i a, (lo <= i < lo + n)%nat -> fails_only P (body i a)) ->
    forall a, fails_only P (for_from n lo body a).
Proof.
  induction n as [|n IH]; intros lo Hb a; simpl.
  - apply fails_only_ret.
  - apply fails_only_bind; [apply Hb; lia | intros a'; apply IH].
    intros i a0 Hi. apply Hb. lia.
Qed.

Lemma fails_only_for_loop {A} P (body : nat -> A -> io A) n a :
  (forall i a, (i < n)%nat -> fails_only P (body i a)) ->
  fails_only P (for_loop n body a).
Proof. intros Hb. apply fails_only_for_from. intros i a0 Hi. apply Hb. lia. Qed.

Lemma fails_only_fwrite (P : error -> Prop) buffer n :
  P WriteError -> P OutOfBounds -> fails_only P (fwrite buffer n).
Proof.
  intros Hw Ho fp e fp' H. unfold fwrite in H.
  destruct (n =? 0)%nat; [by injection H as <- _|].
  destruct (n <=? length buffer)%nat; [discriminate H | by injection H as <- _].
Qed.

Lemma fails_only_elt {A} (P : error -> Prop) (v : list A) i :
  P OutOfBounds -> fails_only P (elt v i).
Proof.
  intros Ho. unfold elt. destruct (v !! i); [apply fails_only_ret | by apply fails_only_fail].
Qed.

Lemma fails_only_sprintf (P : error -> Prop) buffer text :
  P OutOfBounds -> fails_only P (sprintf buffer text).
Proof.
  intros Ho. unfold sprintf.
  destruct (length text + 1 <=? length buffer)%nat;
    [apply fails_only_ret | by apply fails_only_fail].
Qed.

Lemma fails_only_fread (P : error -> Prop) n : P ReadError -> fails_only P (fread n).
Proof.
  intros Hr fp e fp' H. unfold fread in H.
  destruct (n =? 0)%nat; [by injection H as <- _|].
  destruct (n <=? length fp)%nat; [discriminate H | by injection H as <- _].
Qed.

Lemma fails_only_allocVector {A} (P : error -> Prop) (dflt : A) n :
  P NegativeLength -> fails_only P (allocVector dflt n).
Proof.
  intros Hn. unfold allocVector.
  destruct (n <? 0); [by apply fails_only_fail | apply fails_only_ret].
Qed.

Lemma save_error_WriteError : save_error WriteError.
Proof. by left. Qed.

Lemma save_error_OutOfBounds : save_error OutOfBounds.
Proof. right. by right. Qed.

Lemma save_error_UnknownDataType : save_error UnknownDataType.
Proof. right. by left. Qed.

Create HintDb save_errors.
#[local] Hint Resolve save_error_WriteError save_error_OutOfBounds
  save_error_UnknownDataType : save_errors.
#[local] Hint Resolve fails_only_ret fails_only_fwrite fails_only_elt
  fails_only_sprintf : save_errors.
#[local] Hint Unfold OutByteBinary OutIntegerBinary OutDoubleBinary OutStringBinary
  : save_errors.

Ltac save_errors_step :=
  first [ solve [auto with save_errors]
        | apply fails_only_fail; solve [auto with save_errors]
        | apply fails_only_for_loop; intros ? ? ?
        | apply fails_only_bind; [|intros ?] ].

Lemma save_errors_OutByteBinary i : fails_only save_error (OutByteBinary i).
Proof. unfold OutByteBinary. save_errors_step. Qed.

Lemma save_errors_OutShortIntBinary e i : fails_only save_error (OutShortIntBinary e i).
Proof. unfold OutShortIntBinary. cbv zeta. repeat save_errors_step. Qed.

Lemma save_errors_OutIntegerBinary m i naok :
  fails_only save_error (OutIntegerBinary m i naok).
Proof. unfold OutIntegerBinary. cbv zeta. save_errors_step. Qed.

Lemma save_errors_OutDoubleBinary m d naok :
  fails_only save_error (OutDoubleBinary m d naok).
Proof. unfold OutDoubleBinary. cbv zeta. save_errors_step. Qed.

Lemma save_errors_OutStringBinary buffer n :
  fails_only save_error (OutStringBinary buffer n).
Proof. unfold OutStringBinary. save_errors_step. Qed.

#[local] Hint Resolve save_errors_OutByteBinary save_errors_OutShortIntBinary
  save_errors_OutIntegerBinary save_errors_OutDoubleBinary
  save_errors_OutStringBinary : save_errors.

Lemma save_errors_write_header m endian df :
  fails_only save_error (write_header m endian df).
Proof. unfold write_header. cbv zeta. repeat save_errors_step. Qed.

Lemma save_errors_write_type df nobs i st :
  fails_only save_error (write_type df nobs i st).
Proof.
  unfold write_type. apply fails_only_bind; [save_errors_step|]. intros x.
  destruct x; repeat first [progress unfold scan_length | save_errors_step].
Qed.

Lemma save_errors_write_descriptors d nobs :
  fails_only save_error (write_descriptors d nobs).
Proof.
  unfold write_descriptors. cbv zeta.
  apply fails_only_bind.
  { unfold allocVector. destruct (Z.ltb_spec (Z.of_nat (length (df_columns d))) 0); [lia|].
    apply fails_only_ret. }
  intros types.
  apply fails_only_bind; [apply fails_only_for_loop; intros; apply save_errors_write_type|].
  intros st.
  apply fails_only_bind.
  { apply fails_only_for_loop. intros i a _. unfold write_name. cbv zeta.
    repeat save_errors_step. }
  intros aname.
  apply fails_only_bind.
  { apply fails_only_for_loop. intros i a _. unfold write_zero. save_errors_step. }
  intros _.
  apply fails_only_bind.
  { apply fails_only_for_loop. intros i a _. unfold write_format.
    apply fails_only_bind; [save_errors_step|]. intros x.
    destruct x; repeat save_errors_step. }
  intros _.
  apply fails_only_bind.
  { apply fails_only_for_loop. intros i a _. unfold write_value_label. save_errors_step. }
  intros _.
  apply fails_only_bind; [|intros; apply fails_only_ret].
  apply fails_only_for_loop. intros i a _. unfold write_label. cbv zeta.
  repeat save_errors_step.
Qed.

Lemma fails_only_bind_value {A B} P (c : io A) (k : A -> io B) :
  fails_only P c ->
  (forall fp a fp1, c fp = Ok a fp1 -> fails_only P (k a)) ->
  fails_only P (bind c k).
Proof.
  intros Hc Hk fp e fp' H. unfold bind in H.
  destruct (c fp) as [a fp1|e1 fp1] eqn:E.
  - by apply (Hk fp a fp1 E fp1 e fp').
  - injection H as <- _. by apply (Hc fp e1 fp1).
Qed.

Lemma elt_Ok {A} (v : list A) i fp a fp1 : elt v i fp = Ok a fp1 -> v !! i = Some a.
Proof. unfold elt. destruct (v !! i); [by intros [= -> _] | discriminate]. Qed.

(** A cell of a column that the type loop has accepted is never the
    one that "can't happen". *)
Lemma save_errors_write_cell m df types i j u x :
  df !! j = Some x -> is_vector x ->
  fails_only save_error (write_cell m df types i j u).
Proof.
  intros Hj Hx. unfold write_cell.
  apply fails_only_bind_value; [save_errors_step|].
  intros fp y fp1 Hy. apply elt_Ok in Hy. rewrite Hj in Hy. injection Hy as <-.
  destruct x; try contradiction; cbv zeta; unfold write_zero;
    repeat save_errors_step.
Qed.

Lemma write_type_Ok df nobs i st fp st' fp' :
  write_type df nobs i st fp = Ok st' fp' -> exists x, df !! i = Some x /\ is_vector x.
Proof.
  unfold write_type. intros H. apply bind_Ok_inv in H as (x & fp1 & Hx & H).
  apply elt_Ok in Hx. exists x. split; [exact Hx|].
  destruct x; try exact I; discriminate H.
Qed.

Lemma write_descriptors_Ok d nobs fp types fp' :
  write_descriptors d nobs fp = Ok types fp' ->
  forall j, (j < length (df_columns d))%nat ->
    exists x, df_columns d !! j = Some x /\ is_vector x.
Proof.
  unfold write_descriptors. cbv zeta. intros H j Hj.
  apply bind_Ok_inv in H as (types0 & fp1 & _ & H).
  apply bind_Ok_inv in H as (st & fp2 & Hloop & _).
  rewrite Nat2Z.id in Hloop. unfold for_loop in Hloop.
  destruct (for_from_Ok_body _ _ _ _ _ _ _ Hloop j ltac:(lia)) as (b & q & b' & q' & Hb).
  by apply write_type_Ok in Hb.
Qed.

(** X7: [R_SaveStataData] ends well, or with the write error, or with
    "Unknown data type", or in an access outside an object.  The
    error "This can't happen." of the loop over the data is never
    raised: a column of another type has stopped the loop over the
    types before. *)
Theorem save_fails_only_as_expected (m : machine) (d : data_frame) (fp fp' : stream)
    (e : error) :
  R_SaveStataData m d fp = Err e fp' ->
  e = WriteError \/ e = UnknownDataType \/ e = OutOfBounds.
Proof.
  revert fp e fp'. change (fails_only save_error (R_SaveStataData m d)).
  unfold R_SaveStataData. rewrite setup_consts_total.
  apply fails_only_bind; [apply save_errors_write_header|]. intros nobs.
  apply fails_only_bind_value; [apply save_errors_write_descriptors|].
  intros fp types fp1 Hd.
  do 3 (apply fails_only_bind; [apply save_errors_OutByteBinary|]; intros _).
  unfold write_data. apply fails_only_for_loop. intros i u _.
  unfold write_row. apply fails_only_for_loop. intros j u' Hj.
  destruct (write_descriptors_Ok _ _ _ _ _ Hd j Hj) as (x & Hx & Hvec).
  by apply (save_errors_write_cell m _ types i j u' x).
Qed.

Lemma save_fails_only_as_expected_witness :
  let d := data_frame_of [OTHERSXP 3] [bytes_of_string "x"] in
  let out := stream_of (R_SaveStataData LSB_first d []) in
  R_SaveStataData LSB_first d [] = Err UnknownDataType out /\
  (UnknownDataType = WriteError \/ UnknownDataType = UnknownDataType \/
   UnknownDataType = OutOfBounds).
Proof.
  cbv zeta. split; [vm_compute; reflexivity|].
  apply (save_fails_only_as_expected LSB_first
           (data_frame_of [OTHERSXP 3] [bytes_of_string "x"]) []
           (stream_of (R_SaveStataData LSB_first
                         (data_frame_of [OTHERSXP 3] [bytes_of_string "x"]) []))).
  vm_compute. reflexivity.
Defined.

(** *** An empty string *)

Lemma write_cell_empty m df types i j v u fp :
  df !! j = Some (STRSXP v) -> v !! i = Some [] ->
  write_cell m df types i j u fp = Err WriteError fp.
Proof.
  intros Hj Hi. unfold write_cell, elt. rewrite Hj. unfold bind at 1, ret at 1.
  rewrite Hi. reflexivity.
Qed.

(** X8: a data frame that holds an empty string in one of its rows is
    not written.  The cell is passed to [fwrite] as one element of
    size 0, of which [fwrite] writes none, and the source takes
    anything but 1 for a write error. *)
Theorem empty_string_is_not_written (m : machine) (d : data_frame)
    (x0 : SEXP) (cols : list SEXP) (j i : nat) (v : list (list Z)) (fp out : stream) :
  df_columns d = x0 :: cols ->
  df_columns d !! j = Some (STRSXP v) ->
  v !! i = Some [] ->
  Z.of_nat i < R_length x0 ->
  R_SaveStataData m d fp <> Ok tt out.
Proof.
  intros Hd Hj Hi Hnobs Hrun.
  unfold R_SaveStataData in Hrun. rewrite setup_consts_total in Hrun.
  apply bind_Ok_inv in Hrun as (n0 & fp1 & Hh & Hrun).
  rewrite Hd, write_header_run in Hh. injection Hh as <- _.
  apply bind_Ok_inv in Hrun as (types & fp2 & _ & Hrun).
  do 3 (apply bind_Ok_inv in Hrun as (? & ? & _ & Hrun)).
  unfold write_data, for_loop in Hrun.
  destruct (for_from_Ok_body _ _ _ _ _ _ _ Hrun i ltac:(lia)) as (u & q & u' & q' & Hrow).
  unfold write_row, for_loop in Hrow.
  assert (Hjlt : (j < length (df_columns d))%nat) by (eapply lookup_lt_Some, Hj).
  destruct (for_from_Ok_body _ _ _ _ _ _ _ Hrow j ltac:(lia)) as (b & p & b' & p' & Hcell).
  rewrite (write_cell_empty _ _ _ _ _ _ _ _ Hj Hi) in Hcell. discriminate Hcell.
Qed.

Lemma empty_string_is_not_written_witness :
  let d := data_frame_of [INTSXP [1; 2]; STRSXP [bytes_of_string "a"; []]]
             [bytes_of_string "n"; bytes_of_string "s"] in
  R_SaveStataData LSB_first d [] <>
  Ok tt (stream_of (R_SaveStataData LSB_first d [])).
Proof.
  cbv zeta.
  apply (empty_string_is_not_written LSB_first
           (data_frame_of [INTSXP [1; 2]; STRSXP [bytes_of_string "a"; []]]
              [bytes_of_string "n"; bytes_of_string "s"])
           (INTSXP [1; 2]) [STRSXP [bytes_of_string "a"; []]] 1%nat 1%nat
           [bytes_of_string "a"; []] []);
    [reflexivity | reflexivity | reflexivity | simpl; lia].
Defined.

(** *** The errors of reading *)

Create HintDb load_errors.
#[local] Hint Resolve fails_only_ret : load_errors.

Ltac load_errors_step :=
  first [ solve [auto with load_errors]
        | apply fails_only_fread; left; left; reflexivity
        | apply fails_only_allocVector; left; do 4 right; reflexivity
        | apply fails_only_fail; solve [ left; unfold load_error; tauto
                                        | right; reflexivity ]
        | apply fails_only_for_loop; intros ? ? ?
        | apply fails_only_bind; [|intros ?] ].

Section errors_of_reading.
Let P : error -> Prop := fun e => load_error e \/ e = OutOfFuel.

Lemma load_errors_InByteBinary naok : fails_only P (InByteBinary naok).
Proof. unfold InByteBinary. repeat load_errors_step. Qed.

Lemma load_errors_InShortIntBinary e naok sw : fails_only P (InShortIntBinary e naok sw).
Proof.
  unfold InShortIntBinary.
  do 2 (apply fails_only_bind; [apply load_errors_InByteBinary|]; intros ?).
  apply fails_only_ret.
Qed.

Lemma load_errors_InIntegerBinary m naok sw : fails_only P (InIntegerBinary m naok sw).
Proof. unfold InIntegerBinary. repeat load_errors_step. Qed.

Lemma load_errors_InDoubleBinary m naok sw : fails_only P (InDoubleBinary m naok sw).
Proof. unfold InDoubleBinary. repeat load_errors_step. Qed.

Lemma load_errors_InFloatBinary m naok sw : fails_only P (InFloatBinary m naok sw).
Proof. unfold InFloatBinary. repeat load_errors_step. Qed.

Lemma load_errors_InStringBinary n buffer : fails_only P (InStringBinary n buffer).
Proof. unfold InStringBinary. repeat load_errors_step. Qed.

#[local] Hint Resolve load_errors_InByteBinary load_errors_InShortIntBinary
  load_errors_InIntegerBinary load_errors_InDoubleBinary load_errors_InFloatBinary
  load_errors_InStringBinary : load_errors.

Lemma load_errors_skip_characteristics fuel e sw :
  fails_only P (skip_characteristics fuel e sw).
Proof.
  induction fuel as [|fuel IH]; simpl.
  - apply fails_only_fail. by right.
  - apply fails_only_bind; [load_errors_step|]. intros b.
    destruct (b =? 0); [apply fails_only_ret|].
    apply fails_only_bind; [load_errors_step|]. intros charlen.
    apply fails_only_bind; [|intros _; exact IH].
    apply fails_only_for_loop. intros i u _. unfold skip_byte. repeat load_errors_step.
Qed.

Lemma load_errors_R_LoadStataData m : fails_only P (R_LoadStataData m).
Proof.
  unfold R_LoadStataData. rewrite setup_consts_total.
  apply fails_only_bind.
  { unfold read_header. apply fails_only_bind; [load_errors_step|]. intros abyte.
    apply fails_only_bind.
    { destruct (abyte =? 105); [apply fails_only_ret|].
      destruct (abyte =? chr "l"); repeat load_errors_step. }
    intros version5. repeat load_errors_step. }
  intros h. apply fails_only_bind.
  { unfold read_descriptors. cbv zeta.
    repeat first
      [ progress unfold read_name, read_label, skip_string, skip_byte
      | match goal with
        | |- fails_only _ (read_type _ _ _) =>
            unfold read_type; apply fails_only_bind; [load_errors_step|];
            intros ?; cbv zeta;
            repeat match goal with
                   | |- fails_only _ (if ?b then _ else _) => destruct b
                   end
        end
      | load_errors_step ]. }
  intros d. apply fails_only_bind.
  { unfold read_characteristics. apply fails_only_bind.
    - intros fp e fp' H. by apply load_errors_skip_characteristics in H.
    - intros _. apply fails_only_bind; [load_errors_step|]. intros charlen.
      destruct (negb (charlen =? 0)); repeat load_errors_step. }
  intros _. apply fails_only_bind.
  { unfold read_data, read_row. apply fails_only_for_loop. intros i df _.
    apply fails_only_for_loop. intros j df' _. unfold read_cell. cbv zeta.
    repeat match goal with
           | |- fails_only _ (if ?b then _ else _) => destruct b
           end; repeat load_errors_step. }
  intros df. unfold row_name. repeat load_errors_step.
Qed.
End errors_of_reading.

(** X9: whatever the file, [R_LoadStataData] ends with a data frame or
    with one of five errors: a read error, "Not a Stata v5 or v6
    file", "Unknown data type", the type 0 characteristic of nonzero
    length, or the negative length that [allocVector] refuses.  No
    other call of [error] is reached: the loop over the
    characteristics always ends, and the byte order of the machine is
    always determined. *)
Theorem load_fails_only_as_expected (m : machine) (fp fp' : stream) (e : error) :
  R_LoadStataData m fp = Err e fp' ->
  e = ReadError \/ e = NotStataError \/ e = UnknownDataType \/
  e = Type0Characteristic \/ e = NegativeLength.
Proof.
  intros H. destruct (load_errors_R_LoadStataData m fp e fp' H) as [He | ->];
    [exact He|].
  by apply load_never_out_of_fuel in H.
Qed.

Lemma load_fails_only_as_expected_witness :
  R_LoadStataData MSB_first [108; 1; 1; 0; 0; 1; 255; 255; 255; 255] =
  Err ReadError [] /\
  (ReadError = ReadError \/ ReadError = NotStataError \/ ReadError = UnknownDataType \/
   ReadError = Type0Characteristic \/ ReadError = NegativeLength).
Proof.
  split; [vm_compute; reflexivity|].
  apply (load_fails_only_as_expected MSB_first
           [108; 1; 1; 0; 0; 1; 255; 255; 255; 255] []).
  vm_compute. reflexivity.
Defined.

(** ** The frame that is read, whatever the file *)

Lemma for_from_invariant {A} (body : nat -> A -> io A) (I : nat -> A -> Prop) n :
  forall lo a fp a' fp',
    (forall i a fp a' fp', (lo <= i < lo + n)%nat -> I i a ->
       body i a fp = Ok a' fp' -> I (S i) a') ->
    I lo a -> for_from n lo body a fp = Ok a' fp' -> I (lo + n)%nat a'.
Proof.
  induction n as [|n IH]; intros lo a fp a' fp' Hb Ha Hrun.
  - simpl in Hrun. injection Hrun as <- _. by rewrite Nat.add_0_r.
  - simpl in Hrun. apply bind_Ok_inv in Hrun as (a1 & fp1 & H1 & Hrun).
    replace (lo + S n)%nat with (S lo + n)%nat by lia.
    apply (IH (S lo) a1 fp1 a' fp'); [|by apply (Hb lo a fp a1 fp1); [lia|..]|exact Hrun].
    intros i a0 fp0 a0' fp0' Hi. apply Hb. lia.
Qed.

Lemma for_loop_invariant {A} (body : nat -> A -> io A) (I : nat -> A -> Prop) n
    a fp a' fp' :
  (forall i a fp a' fp', (i < n)%nat -> I i a -> body i a fp = Ok a' fp' -> I (S i) a') ->
  I 0%nat a -> for_loop n body a fp = Ok a' fp' -> I n a'.
Proof.
  intros Hb Ha Hrun. apply (for_from_invariant body I n 0 a fp a' fp'); [|exact Ha|exact Hrun].
  intros i a0 fp0 a0' fp0' Hi. apply Hb. lia.
Qed.

Lemma allocVector_Ok {A} (dflt : A) n fp v fp' :
  allocVector dflt n fp = Ok v fp' -> 0 <= n /\ v = replicate (Z.to_nat n) dflt.
Proof.
  rewrite allocVector_run. destruct (Z.ltb_spec n 0); [discriminate|].
  intros [= <- _]. by split.
Qed.

(** *** What is read is the beginning of the file *)

Lemma reads_on_ret {A} (a : A) : reads_on (ret a).
Proof. intros fp a' fp' [= _ <-]. by exists []. Qed.

Lemma reads_on_fail {A} e : reads_on (@fail A e).
Proof. intros fp a fp' H. discriminate H. Qed.

Lemma reads_on_bind {A B} (c : io A) (k : A -> io B) :
  reads_on c -> (forall a, reads_on (k a)) -> reads_on (bind c k).
Proof.
  intros Hc Hk fp b fp' H. apply bind_Ok_inv in H as (a & fp1 & H1 & H2).
  destruct (Hc fp a fp1 H1) as [pre1 ->]. destruct (Hk a fp1 b fp' H2) as [pre2 ->].
  exists (pre1 ++ pre2). by rewrite app_assoc.
Qed.

Lemma reads_on_for_from {A} (body : nat -> A -> io A) n :
  (forall i a, reads_on (body i a)) -> forall i a, reads_on (for_from n i body a).
Proof.
  intros Hb. induction n as [|n IH]; intros i a; simpl.
  - apply reads_on_ret.
  - apply reads_on_bind; [apply Hb | intros a'; apply IH].
Qed.

Lemma reads_on_for_loop {A} (body : nat -> A -> io A) n a :
  (forall i a, reads_on (body i a)) -> reads_on (for_loop n body a).
Proof. intros Hb. by apply reads_on_for_from. Qed.

Lemma reads_on_fread n : reads_on (fread n).
Proof.
  intros fp bs fp' H. unfold fread in H.
  destruct (n =? 0)%nat; [discriminate H|].
  destruct (n <=? length fp)%nat; [|discriminate H].
  injection H as <- <-. exists (take n fp). by rewrite take_drop.
Qed.

Lemma reads_on_allocVector {A} (dflt : A) n : reads_on (allocVector dflt n).
Proof.
  unfold allocVector. destruct (n <? 0); [apply reads_on_fail | apply reads_on_ret].
Qed.

Create HintDb reads_on.
#[local] Hint Resolve reads_on_ret reads_on_fail reads_on_fread reads_on_allocVector
  : reads_on.

Ltac reads_on_step :=
  first [ solve [auto with reads_on]
        | apply reads_on_for_loop; intros ? ?
        | apply reads_on_bind; [|intros ?] ].

Lemma reads_on_InByteBinary naok : reads_on (InByteBinary naok).
Proof. unfold InByteBinary. repeat reads_on_step. Qed.

Lemma reads_on_InShortIntBinary e naok sw : reads_on (InShortIntBinary e naok sw).
Proof.
  unfold InShortIntBinary.
  do 2 (apply reads_on_bind; [apply reads_on_InByteBinary|]; intros ?).
  apply reads_on_ret.
Qed.

Lemma reads_on_InIntegerBinary m naok sw : reads_on (InIntegerBinary m naok sw).
Proof. unfold InIntegerBinary. repeat reads_on_step. Qed.

Lemma reads_on_InDoubleBinary m naok sw : reads_on (InDoubleBinary m naok sw).
Proof. unfold InDoubleBinary. repeat reads_on_step. Qed.

Lemma reads_on_InFloatBinary m naok sw : reads_on (InFloatBinary m naok sw).
Proof. unfold InFloatBinary. repeat reads_on_step. Qed.

Lemma reads_on_InStringBinary n buffer : reads_on (InStringBinary n buffer).
Proof. unfold InStringBinary. repeat reads_on_step. Qed.

#[local] Hint Resolve reads_on_InByteBinary reads_on_InShortIntBinary
  reads_on_InIntegerBinary reads_on_InDoubleBinary reads_on_InFloatBinary
  reads_on_InStringBinary : reads_on.

Lemma reads_on_skip_characteristics fuel e sw :
  reads_on (skip_characteristics fuel e sw).
Proof.
  induction fuel as [|fuel IH]; simpl; [apply reads_on_fail|].
  apply reads_on_bind; [reads_on_step|]. intros b.
  destruct (b =? 0); [apply reads_on_ret|].
  apply reads_on_bind; [reads_on_step|]. intros charlen.
  apply reads_on_bind; [|intros _; exact IH].
  apply reads_on_for_loop. intros i u. unfold skip_byte. repeat reads_on_step.
Qed.

Lemma reads_on_R_LoadStataData m : reads_on (R_LoadStataData m).
Proof.
  unfold R_LoadStataData. rewrite setup_consts_total.
  apply reads_on_bind.
  { unfold read_header. apply reads_on_bind; [reads_on_step|]. intros abyte.
    apply reads_on_bind.
    { destruct (abyte =? 105); [apply reads_on_ret|].
      destruct (abyte =? chr "l"); repeat reads_on_step. }
    intros version5. repeat reads_on_step. }
  intros h. apply reads_on_bind.
  { unfold read_descriptors. cbv zeta.
    repeat first
      [ progress unfold read_name, read_label, skip_string, skip_byte
      | match goal with
        | |- reads_on (read_type _ _ _) =>
            unfold read_type; apply reads_on_bind; [reads_on_step|];
            intros ?; cbv zeta;
            repeat match goal with
                   | |- reads_on (if ?b then _ else _) => destruct b
                   end
        end
      | reads_on_step ]. }
  intros d. apply reads_on_bind.
  { unfold read_characteristics. apply reads_on_bind.
    - intros fp a fp' H. by apply reads_on_skip_characteristics in H.
    - intros _. apply reads_on_bind; [reads_on_step|]. intros charlen.
      destruct (negb (charlen =? 0)); repeat reads_on_step. }
  intros _. apply reads_on_bind.
  { unfold read_data, read_row. apply reads_on_for_loop. intros i df.
    apply reads_on_for_loop. intros j df'. unfold read_cell. cbv zeta.
    repeat match goal with
           | |- reads_on (if ?b then _ else _) => destruct b
           end; repeat reads_on_step. }
  intros df. unfold row_name. repeat reads_on_step.
Qed.

(** *** The shape of the frame *)

Lemma InShortIntBinary_range e sw fp v fp' :
  InShortIntBinary e true sw fp = Ok v fp' -> 0 <= v < 65536.
Proof.
  unfold InShortIntBinary. intros H.
  apply bind_Ok_inv in H as (b1 & fp1 & _ & H).
  apply bind_Ok_inv in H as (b2 & fp2 & _ & H).
  injection H as <- _. simpl negb. rewrite andb_false_r.
  unfold to_ushort. destruct (e =? LOHI); apply Z.mod_pos_bound; lia.
Qed.

Lemma read_header_nvar m endian fp h fp' :
  read_header m endian fp = Ok h fp' -> 0 <= h_nvar h < 65536.
Proof.
  unfold read_header. intros H.
  apply bind_Ok_inv in H as (abyte & fp1 & _ & H).
  apply bind_Ok_inv in H as (version5 & fp2 & _ & H).
  apply bind_Ok_inv in H as (stata_endian & fp3 & _ & H). cbv zeta in H.
  apply bind_Ok_inv in H as (? & fp4 & _ & H).
  apply bind_Ok_inv in H as (? & fp5 & _ & H).
  apply bind_Ok_inv in H as (nvar & fp6 & Hnvar & H).
  apply bind_Ok_inv in H as (nobs & fp7 & _ & H).
  apply bind_Ok_inv in H as (datalabel & fp8 & _ & H).
  apply bind_Ok_inv in H as (timestamp & fp9 & _ & H).
  injection H as <- _. simpl. by apply InShortIntBinary_range in Hnvar.
Qed.

Lemma read_type_shape nobs i st fp st' fp' :
  read_type nobs i st fp = Ok st' fp' ->
  exists x, st'.1 = <[i := x]> st.1 /\ loaded_column (Z.to_nat nobs) x.
Proof.
  unfold read_type. intros H.
  apply bind_Ok_inv in H as (abyte & fp1 & _ & H). cbv zeta in H.
  repeat match type of H with
         | (if ?b then _ else _) _ = _ => destruct b
         end; try discriminate H;
    apply bind_Ok_inv in H as (v & fp2 & Hv & H);
    apply allocVector_Ok in Hv as [_ ->]; injection H as <- _;
    eexists; (split; [reflexivity|]); simpl; apply length_replicate.
Qed.

Lemma set_REAL_shape n x i v : loaded_column n x -> loaded_column n (set_REAL x i v).
Proof. destruct x; simpl; try tauto. by rewrite length_insert. Qed.

Lemma set_INTEGER_shape n x i v : loaded_column n x -> loaded_column n (set_INTEGER x i v).
Proof. destruct x; simpl; try tauto. by rewrite length_insert. Qed.

Lemma SET_STRING_ELT_shape n x i v :
  loaded_column n x -> loaded_column n (SET_STRING_ELT x i v).
Proof. destruct x; simpl; try tauto. by rewrite length_insert. Qed.

Lemma Forall_insert_nth {A} (P : A -> Prop) (f : A -> A) (l : list A) (d : A) j :
  (forall x, P x -> P (f x)) -> Forall P l -> Forall P (<[j := f (nth j l d)]> l).
Proof.
  intros Hf Hl. destruct (Nat.lt_ge_cases j (length l)) as [Hj|Hj].
  - apply Forall_insert; [exact Hl|]. apply Hf.
    rewrite Forall_forall in Hl. by apply Hl, nth_In.
  - by rewrite list_insert_ge by lia.
Qed.

Lemma read_cell_shape n m e sw types i j df fp df' fp' :
  read_cell m e sw types i j df fp = Ok df' fp' ->
  Forall (loaded_column n) df -> Forall (loaded_column n) df'.
Proof.
  unfold read_cell, VECTOR_ELT. cbv zeta. intros H Hdf.
  repeat match type of H with
         | (if ?b then _ else _) _ = _ => destruct b
         end;
    apply bind_Ok_inv in H as (v & fp1 & _ & H); injection H as <- _.
  - apply (Forall_insert_nth _ (fun x => set_REAL x i (float_to_double v)));
      [intros x; apply set_REAL_shape | exact Hdf].
  - apply (Forall_insert_nth _ (fun x => set_REAL x i v));
      [intros x; apply set_REAL_shape | exact Hdf].
  - apply (Forall_insert_nth _ (fun x => set_INTEGER x i v));
      [intros x; apply set_INTEGER_shape | exact Hdf].
  - apply (Forall_insert_nth _ (fun x => set_INTEGER x i v));
      [intros x; apply set_INTEGER_shape | exact Hdf].
  - apply (Forall_insert_nth _ (fun x => set_INTEGER x i v));
      [intros x; apply set_INTEGER_shape | exact Hdf].
  - apply (Forall_insert_nth _ (fun x => SET_STRING_ELT x i _));
      [intros x; apply SET_STRING_ELT_shape | exact Hdf].
Qed.

Lemma read_cell_length m e sw types i j df fp df' fp' :
  read_cell m e sw types i j df fp = Ok df' fp' -> length df' = length df.
Proof.
  unfold read_cell. cbv zeta. intros H.
  repeat match type of H with
         | (if ?b then _ else _) _ = _ => destruct b
         end;
    apply bind_Ok_inv in H as (v & fp1 & _ & H); injection H as <- _;
    apply length_insert.
Qed.

Lemma read_data_shape n m h d fp df fp' :
  read_data m h d fp = Ok df fp' ->
  Forall (loaded_column n) (d_df d) ->
  Forall (loaded_column n) df /\ length df = length (d_df d).
Proof.
  unfold read_data. intros H Hdf.
  apply (for_loop_invariant _
           (fun _ df => Forall (loaded_column n) df /\ length df = length (d_df d))
           _ _ _ _ _) in H; [exact H| |by split].
  intros i df0 fp0 df1 fp1 _ Hdf0 Hrow. unfold read_row in Hrow.
  apply (for_loop_invariant _
           (fun _ df => Forall (loaded_column n) df /\ length df = length (d_df d))
           _ _ _ _ _) in Hrow; [exact Hrow| |exact Hdf0].
  intros j df2 fp2 df3 fp3 _ [Hs Hl] Hcell. split.
  - by apply (read_cell_shape n) in Hcell.
  - apply read_cell_length in Hcell. congruence.
Qed.

Lemma read_labels_length {B} (body : nat -> list Z * list B -> io (list Z * list B))
    n st fp st' fp' :
  (forall i st fp st' fp', body i st fp = Ok st' fp' -> length st'.2 = length st.2) ->
  for_loop n body st fp = Ok st' fp' -> length st'.2 = length st.2.
Proof.
  intros Hb H.
  apply (for_loop_invariant _ (fun _ s => length s.2 = length st.2) _ _ _ _ _) in H;
    [exact H| |reflexivity].
  intros i a fp0 a' fp0' _ Ha Hrun. apply Hb in Hrun. congruence.
Qed.

Lemma read_name_length i st fp st' fp' :
  read_name i st fp = Ok st' fp' -> length st'.2 = length st.2.
Proof.
  unfold read_name. intros H. apply bind_Ok_inv in H as (aname & fp1 & _ & H).
  injection H as <- _. apply length_insert.
Qed.

Lemma read_label_length width i st fp st' fp' :
  read_label width i st fp = Ok st' fp' -> length st'.2 = length st.2.
Proof.
  unfold read_label. intros H. apply bind_Ok_inv in H as (buffer & fp1 & _ & H).
  injection H as <- _. apply length_insert.
Qed.

Lemma read_descriptors_shape h fp d fp' :
  read_descriptors h fp = Ok d fp' ->
  length (d_df d) = Z.to_nat (h_nvar h) /\
  Forall (loaded_column (Z.to_nat (h_nobs h))) (d_df d) /\
  length (d_names d) = Z.to_nat (h_nvar h) /\
  length (d_formats d) = Z.to_nat (h_nvar h) /\
  length (d_varlabels d) = Z.to_nat (h_nvar h).
Proof.
  unfold read_descriptors. cbv zeta. intros H.
  apply bind_Ok_inv in H as (df0 & fp1 & Hdf0 & H).
  apply allocVector_Ok in Hdf0 as [_ ->].
  apply bind_Ok_inv in H as (types0 & fp2 & Ht0 & H).
  apply bind_Ok_inv in H as (st & fp3 & Htypes & H).
  apply bind_Ok_inv in H as (names0 & fp4 & Hn0 & H).
  apply allocVector_Ok in Hn0 as [_ ->].
  apply bind_Ok_inv in H as (stn & fp5 & Hnames & H).
  apply bind_Ok_inv in H as (? & fp6 & _ & H).
  apply bind_Ok_inv in H as (tmp0 & fp7 & Htmp & H).
  apply allocVector_Ok in Htmp as [_ ->].
  apply bind_Ok_inv in H as (stf & fp8 & Hformats & H).
  apply bind_Ok_inv in H as (? & fp9 & _ & H).
  apply bind_Ok_inv in H as (vl0 & fp10 & Hvl & H).
  apply allocVector_Ok in Hvl as [_ ->].
  apply bind_Ok_inv in H as (stl & fp11 & Hlabels & H).
  injection H as <- _. simpl d_df. simpl d_names. simpl d_formats. simpl d_varlabels.
  apply (read_labels_length _ _ _ _ _ _ read_name_length) in Hnames.
  apply (read_labels_length _ _ _ _ _ _ (read_label_length 12)) in Hformats.
  apply (read_labels_length _ _ _ _ _ _ (read_label_length _)) in Hlabels.
  simpl in Hnames, Hformats, Hlabels. rewrite length_replicate in Hnames, Hformats, Hlabels.
  split; [|split; [|by repeat split]].
  - apply (for_loop_invariant _
             (fun _ s => length s.1 = Z.to_nat (h_nvar h)) _ _ _ _ _) in Htypes;
      [exact Htypes| |apply length_replicate].
    intros i a fp0 a' fp0' _ Ha Hrun.
    apply read_type_shape in Hrun as (col & -> & _). by rewrite length_insert.
  - apply (for_loop_invariant _
             (fun i s => length s.1 = Z.to_nat (h_nvar h) /\
                         forall j, (j < i)%nat ->
                           loaded_column (Z.to_nat (h_nobs h)) (nth j s.1 NILSXP))
             _ _ _ _ _) in Htypes.
    + destruct Htypes as [Hlen Hall]. apply Forall_forall. intros col Hcol.
      apply (In_nth _ _ NILSXP) in Hcol as (j & Hj & <-). apply Hall. lia.
    + intros i a fp0 a' fp0' Hi [Hlen Hall] Hrun.
      apply read_type_shape in Hrun as (col & -> & Hcol).
      split; [by rewrite length_insert|]. intros j Hj.
      destruct (Nat.eq_dec j i) as [->|Hne].
      * rewrite (nth_lookup_Some _ _ _ col); [exact Hcol|].
        apply list_lookup_insert_eq. lia.
      * rewrite nth_lookup, list_lookup_insert_ne by lia.
        rewrite <- nth_lookup. apply Hall. lia.
    + split; [apply length_replicate | intros j Hj; lia].
Qed.

(** X10: every frame that [R_LoadStataData] returns, whatever the
    bytes of the file, is rectangular: it has fewer than 65536 columns,
    each an integer, a real or a string vector of the same number of
    cells; as many names, formats and variable labels as columns; the
    row names 1, 2, ... up to that number of cells; and the class
    "data.frame".  What is left of the file is the end of the file:
    the reader only moves forward. *)
Theorem loaded_frame_is_rectangular (m : machine) (fp rest : stream) (d : data_frame) :
  R_LoadStataData m fp = Ok d rest ->
  exists (nvar nobs : nat) (pre : stream),
    fp = pre ++ rest /\
    Z.of_nat nvar < 65536 /\
    length (df_columns d) = nvar /\
    Forall (loaded_column nobs) (df_columns d) /\
    length (df_names d) = nvar /\
    length (df_formats d) = nvar /\
    length (df_var_labels d) = nvar /\
    df_row_names d = map (fun i => decimal (Z.of_nat i + 1)) (seq 0 nobs) /\
    df_class d = bytes_of_string "data.frame".
Proof.
  intros H. destruct (reads_on_R_LoadStataData m fp d rest H) as [pre Hpre].
  unfold R_LoadStataData in H. rewrite setup_consts_total in H.
  apply bind_Ok_inv in H as (h & fp1 & Hh & H).
  apply bind_Ok_inv in H as (dd & fp2 & Hd & H).
  apply bind_Ok_inv in H as (? & fp3 & _ & H).
  apply bind_Ok_inv in H as (df & fp4 & Hdata & H).
  apply bind_Ok_inv in H as (rn0 & fp5 & Hrn0 & H).
  apply bind_Ok_inv in H as (rn & fp6 & Hrn & H).
  injection H as <- _.
  apply read_header_nvar in Hh.
  apply read_descriptors_shape in Hd
    as (Hlen & Hshape & Hnames & Hformats & Hlabels).
  apply (read_data_shape (Z.to_nat (h_nobs h))) in Hdata as [Hdf Hdflen]; [|exact Hshape].
  apply allocVector_Ok in Hrn0 as [_ ->].
  unfold for_loop in Hrn.
  pose proof (row_names_loop (Z.to_nat (h_nobs h)) 0 [] fp5 eq_refl) as Hloop.
  change ([] ++ ?x) with x in Hloop. rewrite Hloop in Hrn. injection Hrn as <- _.
  exists (Z.to_nat (h_nvar h)), (Z.to_nat (h_nobs h)), pre. simpl.
  repeat split; try assumption; try congruence. lia.
Qed.

Lemma loaded_frame_is_rectangular_witness :
  exists (nvar nobs : nat) (pre : stream),
    dta_bytes example_dta ++ [9] = pre ++ [9] /\
    Z.of_nat nvar < 65536 /\
    length (df_columns (dta_frame example_dta)) = nvar /\
    Forall (loaded_column nobs) (df_columns (dta_frame example_dta)) /\
    length (df_names (dta_frame example_dta)) = nvar /\
    length (df_formats (dta_frame example_dta)) = nvar /\
    length (df_var_labels (dta_frame example_dta)) = nvar /\
    df_row_names (dta_frame example_dta) =
      map (fun i => decimal (Z.of_nat i + 1)) (seq 0 nobs) /\
    df_class (dta_frame example_dta) = bytes_of_string "data.frame".
Proof.
  apply (loaded_frame_is_rectangular MSB_first (dta_bytes example_dta ++ [9]) [9]).
  vm_compute. reflexivity.
Defined.

(** ** The entry points *)

Lemma file_contents_first path bytes files :
  file_contents path ((path, bytes) :: files) = Some bytes.
Proof. simpl. by rewrite bool_decide_eq_true_2. Qed.

Lemma file_contents_other path other bytes files :
  other <> path ->
  file_contents other ((path, bytes) :: files) = file_contents other files.
Proof. intros Hne. simpl. by rewrite bool_decide_eq_false_2 by congruence. Qed.

(** X11: a data frame written by [do_writeStata] under a name and read
    by [do_readStata] under the same name, possibly on a machine of the
    other byte order, comes back as [read_back_frame] describes; the
    write returns normally, no stream is left open by either call, and
    no other file is touched. *)
Theorem written_file_is_read_back
    (R_ExpandFileName : list Z -> list Z) (creatable : list Z -> bool)
    (writer reader : machine) (fname : SEXP) (d : data_frame) (nobs : nat) (w : world) :
  isValidString fname = true ->
  creatable (R_ExpandFileName (first_string fname)) = true ->
  inherits d "data.frame" = true ->
  df_columns d <> [] ->
  Forall (writable_column nobs) (df_columns d) ->
  Forall aligned_column (df_columns d) ->
  length (df_names d) = length (df_columns d) ->
  Z.of_nat (length (df_columns d)) < 65536 ->
  Z.of_nat nobs < 2 ^ 31 ->
  let path := R_ExpandFileName (first_string fname) in
  exists w1,
    do_writeStata R_ExpandFileName creatable writer fname d w = (inr tt, w1) /\
    do_readStata R_ExpandFileName reader fname w1 =
      (inr (read_back_frame (df_columns d) (df_names d) nobs), w1) /\
    w_open w1 = w_open w /\
    (forall other, other <> path ->
       file_contents other (w_files w1) = file_contents other (w_files w)).
Proof.
  intros Hname Hcreate Hclass Hne Hw Ha Hnames Hnvar Hnobs path.
  pose proof (save_layout writer _ _ nobs Hw Hnames d [] eq_refl eq_refl Hne Hnvar Hnobs)
    as Hsave.
  pose proof (load_layout reader _
                (saved_dta_well_formed writer (df_columns d) (df_names d) nobs
                   Hw Ha Hnvar Hnobs) []) as Hload.
  rewrite saved_dta_frame, app_nil_r in Hload by assumption.
  eexists. split; [|split; [|split]].
  - unfold do_writeStata. rewrite Hname, Hcreate, Hclass. cbv zeta. simpl negb. cbv iota.
    rewrite Hsave. reflexivity.
  - unfold do_readStata. rewrite Hname. simpl negb. cbv iota. simpl w_files.
    rewrite file_contents_first. simpl app. by rewrite Hload.
  - reflexivity.
  - intros other Hother. simpl w_files. by apply file_contents_other.
Qed.

Lemma written_file_is_read_back_witness :
  let fname := STRSXP [bytes_of_string "survey.dta"] in
  let d := data_frame_of [INTSXP [1; NA_INTEGER]; STRSXP [bytes_of_string "a"; bytes_of_string "bc"]]
             [bytes_of_string "n"; bytes_of_string "s"] in
  let w := mk_world [(bytes_of_string "survey.dta", [1; 2; 3])] 0 in
  exists w1,
    do_writeStata (fun p => p) (fun _ => true) LSB_first fname d w = (inr tt, w1) /\
    do_readStata (fun p => p) MSB_first fname w1 =
      (inr (read_back_frame (df_columns d) (df_names d) 2), w1) /\
    w_open w1 = w_open w /\
    (forall other, other <> bytes_of_string "survey.dta" ->
       file_contents other (w_files w1) = file_contents other (w_files w)).
Proof.
  cbv zeta.
  apply (written_file_is_read_back (fun p => p) (fun _ => true) LSB_first MSB_first
           (STRSXP [bytes_of_string "survey.dta"])
           (data_frame_of [INTSXP [1; NA_INTEGER];
                           STRSXP [bytes_of_string "a"; bytes_of_string "bc"]]
              [bytes_of_string "n"; bytes_of_string "s"]) 2
           (mk_world [(bytes_of_string "survey.dta", [1; 2; 3])] 0)).
  - reflexivity.
  - reflexivity.
  - reflexivity.
  - discriminate.
  - repeat constructor; cbv; congruence.
  - repeat constructor; cbv; congruence.
  - reflexivity.
  - simpl. lia.
  - simpl. lia.
Defined.



(** ** Truncated files *)

Lemma carries_over_ret {A} (a : A) : carries_over (ret a) (ret a).
Proof. intros fp q. reflexivity. Qed.

Lemma carries_over_fail {A} e : carries_over (@fail A e) (fail e).
Proof. intros fp q. simpl. right. right. by eexists. Qed.

Lemma carries_over_bind {A B} (c c' : io A) (k k' : A -> io B) :
  carries_over c c' -> (forall a, carries_over (k a) (k' a)) ->
  carries_over (bind c k) (bind c' k').
Proof.
  intros Hc Hk fp q. specialize (Hc fp q). unfold bind.
  destruct (c fp) as [a fp1|e fp1].
  - rewrite Hc. apply Hk.
  - destruct Hc as [He|[He|[fp' He]]]; [by left | right; by left |].
    right. right. rewrite He. by eexists.
Qed.

Lemma carries_over_for_from {A} (body : nat -> A -> io A) n :
  (forall i a, carries_over (body i a) (body i a)) ->
  forall i a, carries_over (for_from n i body a) (for_from n i body a).
Proof.
  intros Hb. induction n as [|n IH]; intros i a; simpl.
  - apply carries_over_ret.
  - apply carries_over_bind; [apply Hb | intros a'; apply IH].
Qed.

Lemma carries_over_for_loop {A} (body : nat -> A -> io A) n a :
  (forall i a, carries_over (body i a) (body i a)) ->
  carries_over (for_loop n body a) (for_loop n body a).
Proof. intros Hb. by apply carries_over_for_from. Qed.

Lemma carries_over_fread n : carries_over (fread n) (fread n).
Proof.
  intros fp q. unfold fread.
  destruct (Nat.eqb_spec n 0); [by left|].
  destruct (Nat.leb_spec n (length fp)) as [Hle|Hgt]; [|by left].
  destruct (Nat.leb_spec n (length (fp ++ q))) as [_|Hgt];
    [|rewrite length_app in Hgt; lia].
  by rewrite take_app_le, drop_app_le by lia.
Qed.

Lemma carries_over_allocVector {A} (dflt : A) n :
  carries_over (allocVector dflt n) (allocVector dflt n).
Proof.
  unfold allocVector. destruct (n <? 0); [apply carries_over_fail | apply carries_over_ret].
Qed.

Create HintDb carries_over.
#[local] Hint Resolve carries_over_ret carries_over_fail carries_over_fread
  carries_over_allocVector : carries_over.

Ltac carries_over_step :=
  first [ solve [auto with carries_over]
        | apply carries_over_for_loop; intros ? ?
        | apply carries_over_bind; [|intros ?] ].

Lemma carries_over_InByteBinary naok : carries_over (InByteBinary naok) (InByteBinary naok).
Proof. unfold InByteBinary. repeat carries_over_step. Qed.

Lemma carries_over_InShortIntBinary e naok sw :
  carries_over (InShortIntBinary e naok sw) (InShortIntBinary e naok sw).
Proof.
  unfold InShortIntBinary.
  do 2 (apply carries_over_bind; [apply carries_over_InByteBinary|]; intros ?).
  apply carries_over_ret.
Qed.

Lemma carries_over_InIntegerBinary m naok sw :
  carries_over (InIntegerBinary m naok sw) (InIntegerBinary m naok sw).
Proof. unfold InIntegerBinary. repeat carries_over_step. Qed.

Lemma carries_over_InDoubleBinary m naok sw :
  carries_over (InDoubleBinary m naok sw) (InDoubleBinary m naok sw).
Proof. unfold InDoubleBinary. repeat carries_over_step. Qed.

Lemma carries_over_InFloatBinary m naok sw :
  carries_over (InFloatBinary m naok sw) (InFloatBinary m naok sw).
Proof. unfold InFloatBinary. repeat carries_over_step. Qed.

Lemma carries_over_InStringBinary n buffer :
  carries_over (InStringBinary n buffer) (InStringBinary n buffer).
Proof. unfold InStringBinary. repeat carries_over_step. Qed.

#[local] Hint Resolve carries_over_InByteBinary carries_over_InShortIntBinary
  carries_over_InIntegerBinary carries_over_InDoubleBinary carries_over_InFloatBinary
  carries_over_InStringBinary : carries_over.

(** More fuel does not change what the loop over the characteristics
    does. *)
Lemma carries_over_skip_characteristics e sw fuel :
  forall fuel', (fuel <= fuel')%nat ->
    carries_over (skip_characteristics fuel e sw) (skip_characteristics fuel' e sw).
Proof.
  induction fuel as [|fuel IH]; intros fuel' Hle.
  - intros fp q. simpl. right. by left.
  - destruct fuel' as [|fuel']; [lia|]. simpl.
    apply carries_over_bind; [carries_over_step|]. intros b.
    destruct (b =? 0); [apply carries_over_ret|].
    apply carries_over_bind; [carries_over_step|]. intros charlen.
    apply carries_over_bind; [|intros _; apply IH; lia].
    apply carries_over_for_loop. intros i u. unfold skip_byte. repeat carries_over_step.
Qed.

Lemma carries_over_R_LoadStataData m :
  carries_over (R_LoadStataData m) (R_LoadStataData m).
Proof.
  unfold R_LoadStataData. rewrite setup_consts_total.
  apply carries_over_bind.
  { unfold read_header. apply carries_over_bind; [carries_over_step|]. intros abyte.
    apply carries_over_bind.
    { destruct (abyte =? 105); [apply carries_over_ret|].
      destruct (abyte =? chr "l"); repeat carries_over_step. }
    intros version5. repeat carries_over_step. }
  intros h. apply carries_over_bind.
  { unfold read_descriptors. cbv zeta.
    repeat first
      [ progress unfold read_name, read_label, skip_string, skip_byte
      | match goal with
        | |- carries_over (read_type _ _ _) _ =>
            unfold read_type; apply carries_over_bind; [carries_over_step|];
            intros ?; cbv zeta;
            repeat match goal with
                   | |- carries_over (if ?b then _ else _) _ => destruct b
                   end
        end
      | carries_over_step ]. }
  intros d. apply carries_over_bind.
  { unfold read_characteristics. apply carries_over_bind.
    - intros fp q. apply carries_over_skip_characteristics. rewrite length_app. lia.
    - intros _. apply carries_over_bind; [carries_over_step|]. intros charlen.
      destruct (negb (charlen =? 0)); repeat carries_over_step. }
  intros _. apply carries_over_bind.
  { unfold read_data, read_row. apply carries_over_for_loop. intros i df.
    apply carries_over_for_loop. intros j df'. unfold read_cell. cbv zeta.
    repeat match goal with
           | |- carries_over (if ?b then _ else _) _ => destruct b
           end; repeat carries_over_step. }
  intros df. unfold row_name. repeat carries_over_step.
Qed.

(** X13: a well-formed file that is cut short is never read as a data
    frame: on every proper beginning of the file [R_LoadStataData]
    ends with the binary read error. *)
Theorem truncated_file_is_rejected (m : machine) (f : dta) (p q : stream) :
  well_formed f -> dta_bytes f = p ++ q -> q <> [] ->
  exists rest, R_LoadStataData m p = Err ReadError rest.
Proof.
  intros Hwf Hcut Hq.
  pose proof (load_layout m f Hwf []) as Hfull. rewrite app_nil_r, Hcut in Hfull.
  pose proof (carries_over_R_LoadStataData m p q) as Hp.
  destruct (R_LoadStataData m p) as [d rest|e rest] eqn:E.
  - rewrite Hfull in Hp. injection Hp as _ Hrest.
    symmetry in Hrest. apply app_eq_nil in Hrest as [_ ->]. contradiction.
  - destruct Hp as [->|[->|[fp' He]]].
    + by exists rest.
    + by apply load_never_out_of_fuel in E.
    + rewrite Hfull in He. discriminate He.
Qed.

Lemma truncated_file_is_rejected_witness :
  exists rest,
    R_LoadStataData LSB_first (take 400 (dta_bytes example_dta)) = Err ReadError rest.
Proof.
  apply (truncated_file_is_rejected LSB_first example_dta
           (take 400 (dta_bytes example_dta)) (drop 400 (dta_bytes example_dta))).
  - apply example_dta_well_formed.
  - symmetry. apply take_drop.
  - vm_compute. discriminate.
Defined.

(** X14: what follows a file that is read does not change what is
    read.  If [R_LoadStataData] returns a frame for a file, it returns
    the same frame for that file followed by any bytes (the tables of
    value labels, say, that Stata writes behind the data), and leaves
    these bytes unread. *)
Theorem trailing_bytes_are_ignored (m : machine) (fp q rest : stream) (d : data_frame) :
  R_LoadStataData m fp = Ok d rest ->
  R_LoadStataData m (fp ++ q) = Ok d (rest ++ q).
Proof.
  intros H. pose proof (carries_over_R_LoadStataData m fp q) as Hq.
  by rewrite H in Hq.
Qed.

Lemma trailing_bytes_are_ignored_witness :
  R_LoadStataData MSB_first (dta_bytes example_dta ++ [1; 2; 3]) =
  Ok (dta_frame example_dta) ([] ++ [1; 2; 3]).
Proof.
  apply (trailing_bytes_are_ignored MSB_first (dta_bytes example_dta) [1; 2; 3] []).
  vm_compute. reflexivity.
Defined.

End Stata.
